(* ===================================================================== *)
(* rclone fs/config: the optionally encrypted config store.              *)
(*                                                                       *)
(* A shallow embedding of                                                *)
(*   fs/config/config.go            (LoadConfig, loadConfigFile,         *)
(*                                   saveConfig, SaveConfig,             *)
(*                                   makeConfigPath, the closures of     *)
(*                                   init, RegisterConfigProvider)       *)
(*   fs/config/provider/goconfig    (GoConfig provider, its RemoteConfig *)
(*                                   and Section implementations)        *)
(* together with the parts of the Go standard library and of             *)
(* github.com/Unknwon/goconfig that decide their behaviour.              *)
(* Part I holds the definitions, Part II the theorems.                   *)
(* ===================================================================== *)

From Stdlib Require Import Ascii String NArith ZArith Lia.
From stdpp Require Import gmap strings list fin_maps.

Local Open Scope string_scope.
Local Open Scope nat_scope.
Local Open Scope list_scope.

(* ===================================================================== *)
(* Part I. Definitions                                                   *)
(* ===================================================================== *)

(** A Go []byte, and a Go string seen as its bytes. *)
Abbreviation bytes := (list ascii).

(** []byte("...") for a literal. *)
Definition B (s : string) : bytes := list_ascii_of_string s.

(** How a Go call can end: it returns, the process is terminated by
    log.Fatalf, or the runtime panics (nil dereference, slice bounds). *)
Inductive outcome (A : Type) : Type :=
| Ret (a : A)
| Fatal (msg : string)
| Panic (msg : string).
Arguments Ret {A} a.
Arguments Fatal {A} msg.
Arguments Panic {A} msg.

Definition obind {A C : Type} (m : outcome A) (k : A -> outcome C) : outcome C :=
  match m with
  | Ret a => k a
  | Fatal msg => Fatal msg
  | Panic msg => Panic msg
  end.

(** The value returned, without the state it is paired with. *)
Definition value {A S : Type} (m : outcome (A * S)) : outcome A :=
  obind m (fun r => Ret r.1).

Definition returns {A : Type} (m : outcome A) : bool :=
  match m with Ret _ => true | _ => false end.


Definition is_panic {A : Type} (m : outcome A) : bool :=
  match m with Panic _ => true | _ => false end.

(* --------------------------------------------------------------------- *)
(* The Go standard library, as far as the config code relies on it       *)
(* --------------------------------------------------------------------- *)
Module Go.

Definition LF : ascii := "010"%char.
Definition CR : ascii := "013"%char.

Definition byte (n : nat) : ascii := ascii_of_nat n.

(** bytes.IndexByte *)
Fixpoint IndexByte (b : bytes) (c : ascii) : option nat :=
  match b with
  | [] => None
  | x :: b' => if decide (x = c) then Some 0 else S <$> IndexByte b' c
  end.

(** strings.HasPrefix: len(s) >= len(prefix) && s[:len(prefix)] == prefix *)
Definition HasPrefix (s prefix : bytes) : bool :=
  (length prefix <=? length s) && bool_decide (take (length prefix) s = prefix).

(** The table asciiSpace of package strings. *)
Definition asciiSpace (c : ascii) : bool :=
  bool_decide (c ∈ [byte 9; LF; byte 11; byte 12; CR; " "%char]).

(** unicode.IsSpace beyond ASCII, as UTF-8: U+0085, U+00A0, U+1680,
    U+2000..U+200A, U+2028, U+2029, U+202F, U+205F, U+3000. *)
Definition spaceRunes : list bytes :=
  [ [byte 194; byte 133]; [byte 194; byte 160]; [byte 225; byte 154; byte 128] ]
  ++ ((fun k => [byte 226; byte 128; byte (128 + k)]) <$> seq 0 11)
  ++ [ [byte 226; byte 128; byte 168]; [byte 226; byte 128; byte 169];
       [byte 226; byte 128; byte 175]; [byte 226; byte 129; byte 159];
       [byte 227; byte 128; byte 128] ].

(** Width of the white-space rune that [s] starts with, 0 when it starts
    with none. [runes] lists the multi-byte encodings to recognise. *)
Definition spaceWidth (runes : list bytes) (s : bytes) : nat :=
  match s with
  | [] => 0
  | c :: _ =>
      if asciiSpace c then 1
      else match List.find (HasPrefix s) runes with
           | Some r => length r
           | None => 0
           end
  end.

(** Drop white-space runes from the front. [skip] counts the bytes of
    the current rune still to drop. *)
Fixpoint trimFront (runes : list bytes) (skip : nat) (s : bytes) : bytes :=
  match s with
  | [] => []
  | _ :: s' =>
      match skip with
      | S k => trimFront runes k s'
      | O => match spaceWidth runes s with
             | O => s
             | S k => trimFront runes k s'
             end
      end
  end.

(** strings.TrimLeftFunc(s, unicode.IsSpace): runes decoded forwards. *)
Definition TrimLeft (s : bytes) : bytes := trimFront spaceRunes 0 s.

(** strings.TrimRightFunc(s, unicode.IsSpace): runes decoded backwards
    with utf8.DecodeLastRune, which recognises an encoding as a suffix. *)
Definition TrimRight (s : bytes) : bytes :=
  rev (trimFront ((fun r : bytes => rev r) <$> spaceRunes) 0 (rev s)).

(** strings.TrimSpace *)
Definition TrimSpace (s : bytes) : bytes := TrimRight (TrimLeft s).

(** path.Ext: the suffix beginning at the final dot in the final
    slash-separated element of path; empty if there is no dot. *)
Fixpoint extFrom (rpath acc : bytes) : bytes :=
  match rpath with
  | [] => []
  | c :: r =>
      if decide (c = "/"%char) then []
      else if decide (c = "."%char) then c :: acc
      else extFrom r (c :: acc)
  end.

Definition Ext (path : string) : string :=
  string_of_list_ascii (extFrom (rev (B path)) []).

(** s[1:] on a string: panics when s is empty. *)
Definition sliceFrom1 (s : string) : outcome string :=
  match s with
  | EmptyString => Panic "slice bounds out of range"
  | String _ t => Ret t
  end.

(* ------------------------------------------------------------------- *)
(* bufio.Reader over a bytes.Buffer                                     *)
(* ------------------------------------------------------------------- *)

(** bufio.NewReader allocates a buffer of defaultBufSize bytes. *)
Definition defaultBufSize : nat := 4096.

(** The state of the reader is the sequence of bytes not yet consumed
    (those buffered followed by those still in the bytes.Buffer). *)
Definition Reader := bytes.

Inductive sliceError := ErrBufferFull | EOF.

(** (b *Reader) ReadSlice('\n'): the delimiter is searched in the
    buffer, which holds at most [bufSize] unread bytes. *)
Definition ReadSlice (bufSize : nat) (r : Reader)
  : bytes * option sliceError * Reader :=
  match IndexByte (take bufSize r) LF with
  | Some i => (take (S i) r, None, drop (S i) r)
  | None =>
      if bufSize <=? length r
      then (take bufSize r, Some ErrBufferFull, drop bufSize r)
      else (r, Some EOF, [])
  end.

(** Remove the last byte of a slice. *)
Definition dropLast (l : bytes) : bytes := take (length l - 1) l.

(** Drop a trailing "\n" or "\r\n". *)
Definition dropEOL (line : bytes) : bytes :=
  match rev line with
  | c :: c' :: _ =>
      if decide (c = LF)
      then (if decide (c' = CR) then take (length line - 2) line else dropLast line)
      else line
  | [c] => if decide (c = LF) then [] else line
  | [] => line
  end.

Record readLine := {
  rl_line : bytes;
  rl_isPrefix : bool;
  rl_eof : bool;          (* err == io.EOF *)
  rl_rest : Reader;
}.

(** (b *Reader) ReadLine *)
Definition ReadLineSize (bufSize : nat) (r : Reader) : readLine :=
  match ReadSlice bufSize r with
  | (line, Some ErrBufferFull, rest) =>
      (* "\r\n" may straddle the buffer: put the '\r' back *)
      match rev line with
      | c :: _ =>
          if decide (c = CR)
          then {| rl_line := dropLast line; rl_isPrefix := true;
                  rl_eof := false; rl_rest := CR :: rest |}
          else {| rl_line := line; rl_isPrefix := true;
                  rl_eof := false; rl_rest := rest |}
      | [] => {| rl_line := line; rl_isPrefix := true;
                 rl_eof := false; rl_rest := rest |}
      end
  | (line, err, rest) =>
      match line with
      | [] => {| rl_line := []; rl_isPrefix := false;
                 rl_eof := match err with Some EOF => true | _ => false end;
                 rl_rest := rest |}
      | _ => {| rl_line := dropEOL line; rl_isPrefix := false;
                rl_eof := false; rl_rest := rest |}
      end
  end.

Definition ReadLine : Reader -> readLine := ReadLineSize defaultBufSize.

(* ------------------------------------------------------------------- *)
(* encoding/base64, StdEncoding                                         *)
(* ------------------------------------------------------------------- *)

Definition encodeStd : bytes :=
  B "ABCDEFGHIJKLMNOPQRSTUVWXYZabcdefghijklmnopqrstuvwxyz0123456789+/".

Definition StdPadding : ascii := "="%char.

(** encode[v & 0x3F] *)
Definition enc6 (v : N) : ascii :=
  nth (N.to_nat (N.land v 63)) encodeStd StdPadding.

Definition val3 (a b c : ascii) : N :=
  N.lor (N.lor (N.shiftl (N_of_ascii a) 16) (N.shiftl (N_of_ascii b) 8))
        (N_of_ascii c).

(** (enc *Encoding) Encode: 3 bytes give 4 characters, the last group
    is padded. *)
Fixpoint Encode (src : bytes) : bytes :=
  match src with
  | [] => []
  | [a] =>
      let v := N.shiftl (N_of_ascii a) 16 in
      [enc6 (N.shiftr v 18); enc6 (N.shiftr v 12); StdPadding; StdPadding]
  | [a; b] =>
      let v := N.lor (N.shiftl (N_of_ascii a) 16) (N.shiftl (N_of_ascii b) 8) in
      [enc6 (N.shiftr v 18); enc6 (N.shiftr v 12); enc6 (N.shiftr v 6); StdPadding]
  | a :: b :: c :: rest =>
      let v := val3 a b c in
      enc6 (N.shiftr v 18) :: enc6 (N.shiftr v 12) :: enc6 (N.shiftr v 6)
        :: enc6 v :: Encode rest
  end.

(** The streaming encoder of base64.NewEncoder: its state is buf[:nbuf],
    the bytes of a group not yet complete. Write and Close give the
    bytes they pass to the underlying writer and the new state. *)
Definition encoder := bytes.

Definition NewEncoder : encoder := [].

(** The interior chunks and the trailing fringe of (e *encoder) Write. *)
Definition encInterior (p : bytes) : bytes * encoder :=
  let nn := length p - length p mod 3 in
  (Encode (take nn p), drop nn p).

(** (e *encoder) Write *)
Definition encWrite (p : bytes) (e : encoder) : bytes * encoder :=
  match e with
  | [] => encInterior p
  | _ =>
      (* leading fringe: complete the pending group *)
      let i := Nat.min (length p) (3 - length e) in
      let buf := e ++ take i p in
      if length buf <? 3
      then ([], buf)
      else let r := encInterior (drop i p) in (Encode buf ++ r.1, r.2)
  end.

(** (e *encoder) Close: flush the partially written group. *)
Definition encClose (e : encoder) : bytes := Encode e.

(* ------------------------------------------------------------------- *)
(* path/filepath                                                        *)
(* ------------------------------------------------------------------- *)

(** The final element of a path, read from its reversed bytes. *)
Fixpoint lastElement (rpath acc : bytes) : bytes :=
  match rpath with
  | [] => acc
  | c :: r => if decide (c = "/"%char) then acc else lastElement r (c :: acc)
  end.

(** filepath.Split: dir is the path up to and with the final slash,
    file the rest; path = dir + file. *)
Definition Split (path : string) : string * string :=
  let file := lastElement (rev (B path)) [] in
  (string_of_list_ascii (take (length (B path) - length file) (B path)),
   string_of_list_ascii file).

End Go.


(* --------------------------------------------------------------------- *)
(* github.com/Unknwon/goconfig: the ConfigFile container                 *)
(*                                                                       *)
(* The library is a dependency of the repository, not part of it. Its    *)
(* container operations are written out here as the library documents    *)
(* and implements them: a blank section name stands for DEFAULT,         *)
(* SetValue refuses an empty key, GetSection returns the section's own   *)
(* map after removing the keeper key " ".                                *)
(* --------------------------------------------------------------------- *)
Module Goconfig.

(** Blank section name represents DEFAULT section. *)
Definition DEFAULT_SECTION : string := "DEFAULT".

(** type ConfigFile: data maps section -> key -> value; sectionList and
    keyList keep sections and keys in file order. (The comment maps
    and the lock are left out: no operation below reads them.) *)
Record ConfigFile := {
  data : gmap string (gmap string string);
  sectionList : list string;
  keyList : gmap string (list string);
}.

(** newConfigFile: the result of loading an empty reader. *)
Definition newConfigFile : ConfigFile :=
  {| data := ∅; sectionList := []; keyList := ∅ |}.

(** if len(section) == 0 { section = DEFAULT_SECTION } *)
Definition sectionName (section : string) : string :=
  if decide (section = "") then DEFAULT_SECTION else section.

(** (c *ConfigFile) SetValue: reports whether the key was inserted.
    An empty key is refused before anything is touched; a missing
    section is created and appended to sectionList. *)
Definition SetValue (section key value : string) (c : ConfigFile)
  : bool * ConfigFile :=
  let section := sectionName section in
  if decide (key = "") then (false, c)
  else
    let c1 :=
      match data c !! section with
      | Some _ => c
      | None => {| data := <[section := ∅]> (data c);
                   sectionList := sectionList c ++ [section];
                   keyList := keyList c |}
      end in
    let sec := default ∅ (data c1 !! section) in
    let ok := bool_decide (is_Some (sec !! key)) in
    (negb ok,
     {| data := <[section := <[key := value]> sec]> (data c1);
        sectionList := sectionList c1;
        keyList := if ok then keyList c1
                   else <[section := default [] (keyList c1 !! section) ++ [key]]>
                          (keyList c1) |}).

(** The index search "for _, name := range list { if name == x { break }; i++ }". *)
Fixpoint indexOf (x : string) (l : list string) : nat :=
  match l with
  | [] => 0
  | y :: l' => if decide (y = x) then 0 else S (indexOf x l')
  end.

(** append(l[:i], l[i+1:]...): the slice expression l[i+1:] panics
    when i+1 exceeds len(l). *)
Definition removeAt (i : nat) (l : list string) : outcome (list string) :=
  if S i <=? length l then Ret (take i l ++ drop (S i) l)
  else Panic "slice bounds out of range".

(** (c *ConfigFile) DeleteKey *)
Definition DeleteKey (section key : string) (c : ConfigFile)
  : outcome (bool * ConfigFile) :=
  let section := sectionName section in
  match data c !! section with
  | None => Ret (false, c)
  | Some sec =>
      match sec !! key with
      | None => Ret (false, c)
      | Some _ =>
          let keys := default [] (keyList c !! section) in
          obind (removeAt (indexOf key keys) keys) (fun keys' =>
          Ret (true,
               {| data := <[section := delete key sec]> (data c);
                  sectionList := sectionList c;
                  keyList := <[section := keys']> (keyList c) |}))
      end
  end.

(** The key " " that the reader sets in every section it meets, so that
    a section without keys exists. *)
Definition sectionKeeper : string := " ".

(** (c *ConfigFile) GetSection: None is the "section not found" error.
    The map returned is the section's own map, from which the
    pre-defined key is removed first. *)
Definition GetSection (section : string) (c : ConfigFile)
  : option (gmap string string) * ConfigFile :=
  let section := sectionName section in
  match data c !! section with
  | None => (None, c)
  | Some sec =>
      let secMap := delete sectionKeeper sec in
      (Some secMap,
       {| data := <[section := secMap]> (data c);
          sectionList := sectionList c;
          keyList := keyList c |})
  end.

(** (c *ConfigFile) GetSectionList *)
Definition GetSectionList (c : ConfigFile) : list string := sectionList c.

(** (c *ConfigFile) DeleteSection *)
Definition DeleteSection (section : string) (c : ConfigFile)
  : outcome (bool * ConfigFile) :=
  let section := sectionName section in
  match data c !! section with
  | None => Ret (false, c)
  | Some _ =>
      obind (removeAt (indexOf section (sectionList c)) (sectionList c))
        (fun l =>
           Ret (true,
                {| data := delete section (data c);
                   sectionList := l;
                   keyList := delete section (keyList c) |}))
  end.

(** LoadFromReader builds the ConfigFile with one SetValue call per
    section header (on the keeper key) and per "key = value" line, in
    file order; [entries] is that sequence of calls. *)
Definition fromEntries (entries : list (string * string * string)) : ConfigFile :=
  foldl (fun c e => snd (SetValue e.1.1 e.1.2 e.2 c)) newConfigFile entries.

(** The representation invariant of a ConfigFile: section names are
    listed once, exactly the listed sections have a map, no section has
    the empty name, and the keys of a section are among its listed keys. *)
Record wf (c : ConfigFile) : Prop := {
  wf_nodup : NoDup (sectionList c);
  wf_sections : forall s, s ∈ sectionList c <-> is_Some (data c !! s);
  wf_named : data c !! "" = None;
  wf_keys : forall s sec k,
    data c !! s = Some sec -> is_Some (sec !! k) ->
    k ∈ default [] (keyList c !! s);
}.

End Goconfig.

(** What the code calls in libraries whose computations are not modelled:
    the INI reader and writer of goconfig, the order of a Go map range,
    the base64 decoder, NaCl secretbox, rclone's obscure package and the
    password hash. *)
Class Library := {
  (** goconfig's line parser: the SetValue calls made for a text, or None
      on a syntax error. *)
  parseINI : bytes -> option (list (string * string * string));
  (** goconfig.SaveConfigData into a bytes.Buffer. *)
  printINI : Goconfig.ConfigFile -> bytes;
  (** The order in which "for k, v := range m" visits the entries. *)
  mapRange : gmap string string -> list (string * string);
  mapRange_perm : forall m, mapRange m ≡ₚ map_to_list m;
  (** ioutil.ReadAll(base64.NewDecoder(base64.StdEncoding, r)); None is a
      decoding error. *)
  base64_ReadAll : bytes -> option bytes;
  (** secretbox.Open(nil, box, &nonce, &key) *)
  secretbox_Open : bytes -> bytes -> bytes -> option bytes;
  (** secretbox.Seal(nil, message, &nonce, &key) *)
  secretbox_Seal : bytes -> bytes -> bytes -> bytes;
  (** obscure.MustReveal: terminates the process on a malformed input. *)
  obscure_MustReveal : bytes -> outcome bytes;
  (** The password hash behind setConfigPassword; None when the password
      is refused. *)
  passwordHash : bytes -> option bytes;
}.

(* --------------------------------------------------------------------- *)
(* fs/config: the interfaces of config.go                                *)
(* --------------------------------------------------------------------- *)

(** The error values the config code returns. *)
Inductive error :=
| errorConfigFileNotFound
| ErrRead (msg : string)            (* ioutil.ReadFile failed otherwise *)
| ErrUnsupportedEncryption          (* "unsupported configuration encryption - update rclone for support" *)
| ErrBase64                         (* "failed to load base64 encoded data" *)
| ErrTooShort                       (* "Configuration data too short" *)
| ErrNoPassword                     (* "unable to decrypt configuration and not allowed to ask for password ..." *)
| ErrProvider (msg : string)        (* an error of the provider *)
| ErrSave (msg : string).           (* an error of saveConfig *)

#[global] Instance error_eq_dec : EqDecision error.
Proof. solve_decision. Defined.

(** type Provider interface { String; Load; Save; GetRemoteConfig }.
    [P] is the state of the provider object; Load and Save work on the
    bytes of the reader and of the writer. *)
Class Provider (P : Type) := {
  Load : bytes -> P -> outcome (option error * P);
  Save : P -> outcome (option error * bytes);
}.

(** type ProviderDefinition struct *)
Record ProviderDefinition (P : Type) := {
  NewFunc : P;
  FileTypes : list string;
}.
Arguments NewFunc {P} _.
Arguments FileTypes {P} _.

(* --------------------------------------------------------------------- *)
(* fs/config/provider/goconfig: provider.go and its two companion files  *)
(* --------------------------------------------------------------------- *)
Module GoConfigProvider.
Import Goconfig.

(** A *goconfig.ConfigFile: nil or the address of an object. *)
Definition pointer := option nat.

(** type GoConfig struct { config *goconfig.ConfigFile }, together with
    the ConfigFile objects allocated so far: section handles share them
    with the provider. *)
Record GoConfig := {
  config : pointer;
  heap : gmap nat ConfigFile;
}.

(** type section struct { config *goconfig.ConfigFile; remote string } *)
Record section := {
  s_config : pointer;
  remote : string;
}.

(** A method body: it runs on the provider state. *)
Definition M (A : Type) : Type := GoConfig -> outcome (A * GoConfig).

Definition mret {A} (a : A) : M A := fun g => Ret (a, g).

Definition mbind {A C} (m : M A) (k : A -> M C) : M C :=
  fun g => obind (m g) (fun r => k r.1 r.2).

Definition fatal {A} (msg : string) : M A := fun _ => Fatal msg.

Notation "'let*' x ':=' m 'in' k" := (mbind m (fun x => k))
  (at level 10, x name, m at level 200, k at level 200).
Notation "'run' m 'in' k" := (mbind m (fun _ => k))
  (at level 10, m at level 200, k at level 200).

(** g.config, read through the receiver. *)
Definition self_config : M pointer := fun g => Ret (config g, g).

(** Call a method of the ConfigFile that [p] points to. A nil receiver
    panics as soon as the method reads a field. *)
Definition call {A} (p : pointer) (f : ConfigFile -> outcome (A * ConfigFile)) : M A :=
  fun g =>
    match p with
    | None => Panic "invalid memory address or nil pointer dereference"
    | Some l =>
        match heap g !! l with
        | None => Panic "invalid memory address or nil pointer dereference"
        | Some c =>
            obind (f c) (fun r =>
              Ret (r.1, {| config := config g; heap := <[l := r.2]> (heap g) |}))
        end
    end.

Definition pure {A} (f : ConfigFile -> A * ConfigFile) (c : ConfigFile)
  : outcome (A * ConfigFile) := Ret (f c).

Definition get {A} (f : ConfigFile -> A) : ConfigFile -> outcome (A * ConfigFile) :=
  fun c => Ret (f c, c).

(** NewGoConfigProvider: &GoConfig{} *)
Definition NewGoConfigProvider : GoConfig := {| config := None; heap := ∅ |}.

Definition fresh (h : gmap nat ConfigFile) : nat := fresh (dom h).

(** The provider holds the ConfigFile [c]: g.config points to it. *)
Definition holds (g : GoConfig) (c : ConfigFile) : Prop :=
  exists l, config g = Some l /\ heap g !! l = Some c.

(** The provider after the ConfigFile it holds has become [c]. *)
Definition update (g : GoConfig) (c : ConfigFile) : GoConfig :=
  match config g with
  | Some l => {| config := config g; heap := <[l := c]> (heap g) |}
  | None => g
  end.

(** The ConfigFile after the SetValue calls of the copy loop. *)
Definition copied (destination : string) (entries : list (string * string))
    (c : ConfigFile) : ConfigFile :=
  foldl (fun c kv => (SetValue destination kv.1 kv.2 c).2) c entries.

Section WithLibrary.
Context `{Library}.

(* ---- part_001: section ---- *)

Definition newSection (config : pointer) (remote : string) : section :=
  {| s_config := config; remote := remote |}.

Definition getRemoteData (s : section) : M (gmap string string) :=
  let* r := call (s_config s) (pure (GetSection (remote s))) in
  match r with
  | None => fatal "couldnt load section"
  | Some data => mret data
  end.

Definition Keys (s : section) : M (list string) :=
  let* d := getRemoteData s in
  mret (foldl (fun keys kv => keys ++ [kv.1]) [] (mapRange d)).

Definition GetConfig (s : section) : M (gmap string string) :=
  let* d := getRemoteData s in
  mret (foldl (fun m kv => <[kv.1 := kv.2]> m) ∅ (mapRange d)).

Definition Delete (s : section) (name : string) : M bool :=
  call (s_config s) (DeleteKey (remote s) name).

Definition GetString (s : section) (name : string) : M string :=
  let* d := getRemoteData s in
  mret (match d !! name with Some v => v | None => "" end).

Definition SetString (s : section) (name value : string) : M unit :=
  run call (s_config s) (pure (SetValue (remote s) name value)) in mret tt.

(* ---- part_000: RemoteConfig ---- *)

Definition ListRemotes : M (list string) :=
  let* p := self_config in call p (get GetSectionList).

(** for _, v := range g.ListRemotes() { if v == remote { return true } } *)
Fixpoint inList (remote : string) (l : list string) : bool :=
  match l with
  | [] => false
  | v :: l' => if decide (v = remote) then true else inList remote l'
  end.

Definition HasRemote (remote : string) : M bool :=
  let* l := ListRemotes in mret (inList remote l).

Definition GetRemote (remote : string) : M section :=
  let* p := self_config in mret (newSection p remote).

Definition CreateRemote (remote : string) : M section :=
  let* p := self_config in
  run call p (pure (SetValue remote "" "")) in
  GetRemote remote.

Definition DeleteRemote (name : string) : M unit :=
  let* p := self_config in
  run call p (DeleteSection name) in mret tt.

(** The loop "for k, v := range data { g.config.SetValue(destination, k, v) }". *)
Fixpoint copyLoop (destination : string) (entries : list (string * string)) : M unit :=
  match entries with
  | [] => mret tt
  | (k, v) :: rest =>
      let* p := self_config in
      run call p (pure (SetValue destination k v)) in
      copyLoop destination rest
  end.

Definition CopyRemote (source destination : string) : M unit :=
  let* p := self_config in
  let* r := call p (pure (GetSection source)) in
  match r with
  | None => fatal "couldnt load section"
  | Some data => copyLoop destination (mapRange data)
  end.

Definition RenameRemote (oldName newName : string) : M unit :=
  run CopyRemote oldName newName in
  let* p := self_config in
  run call p (DeleteSection oldName) in mret tt.

(* ---- the calls a client of RemoteConfig and Section can make ---- *)

Inductive operation :=
| OpCreateRemote (remote : string)
| OpDeleteRemote (name : string)
| OpRenameRemote (oldName newName : string)
| OpCopyRemote (source destination : string)
| OpSetString (remote name value : string)     (* GetRemote(remote).SetString *)
| OpDelete (remote name : string)              (* GetRemote(remote).Delete *)
| OpGetString (remote name : string)           (* GetRemote(remote).GetString *)
| OpKeys (remote : string)                     (* GetRemote(remote).Keys *)
| OpGetConfig (remote : string).               (* GetRemote(remote).GetConfig *)

Definition perform (o : operation) : M unit :=
  match o with
  | OpCreateRemote r => run CreateRemote r in mret tt
  | OpDeleteRemote r => DeleteRemote r
  | OpRenameRemote a b => RenameRemote a b
  | OpCopyRemote a b => CopyRemote a b
  | OpSetString r k v => let* h := GetRemote r in SetString h k v
  | OpDelete r k => let* h := GetRemote r in run Delete h k in mret tt
  | OpGetString r k => let* h := GetRemote r in run GetString h k in mret tt
  | OpKeys r => let* h := GetRemote r in run Keys h in mret tt
  | OpGetConfig r => let* h := GetRemote r in run GetConfig h in mret tt
  end.

(** A sequence of calls, stopped by the first that does not return. *)
Fixpoint performAll (os : list operation) : M unit :=
  match os with
  | [] => mret tt
  | o :: rest => run perform o in performAll rest
  end.

(* ---- provider.go ---- *)

(** goconfig.LoadFromReader *)
Definition LoadFromReader (r : bytes) : option ConfigFile :=
  fromEntries <$> parseINI r.

(** (g *GoConfig) Load: on success g.config points to a new object. *)
Definition GoConfig_Load (r : bytes) (g : GoConfig)
  : outcome (option error * GoConfig) :=
  match LoadFromReader r with
  | None => Ret (Some (ErrProvider "goconfig: could not parse line"), g)
  | Some c =>
      let l := fresh (heap g) in
      Ret (None, {| config := Some l; heap := <[l := c]> (heap g) |})
  end.

(** (g *GoConfig) Save: goconfig.SaveConfigData(g.config, w) *)
Definition GoConfig_Save (g : GoConfig) : outcome (option error * bytes) :=
  obind (call (config g) (get printINI) g) (fun r => Ret (None, r.1)).

#[global] Instance GoConfig_Provider : Provider GoConfig :=
  {| Load := GoConfig_Load; Save := GoConfig_Save |}.

(** Register: extension "conf" selects this provider. *)
Definition Register : ProviderDefinition GoConfig :=
  {| NewFunc := NewGoConfigProvider; FileTypes := ["conf"] |}.

End WithLibrary.
End GoConfigProvider.

(* --------------------------------------------------------------------- *)
(* fs/config/config.go                                                   *)
(* --------------------------------------------------------------------- *)
Module Config.

(** What a run does to the world outside the config data, in order. *)
Inductive event :=
| EvReadKeyFile (path : string)   (* ioutil.ReadFile(envKeyFile) *)
| EvRemove (path : string)        (* os.Remove(envKeyFile) *)
| EvPrompt                        (* the user is asked for the password *)
| EvOpen (key : bytes)            (* secretbox.Open is tried with key *)
| EvLoad (b : bytes).             (* provider.Load is called on b *)

#[global] Instance event_eq_dec : EqDecision event.
Proof. solve_decision. Defined.

(** A regular file: its bytes and its permission bits. *)
Record file := { content : bytes; mode : N }.

(** The package variables of config.go and the part of the process
    environment the code reads. *)
Record State (P : Type) := {
  provider : option P;                        (* nil until a provider is chosen *)
  configProviders : list (ProviderDefinition P);
  ConfigPath : string;
  configKey : bytes;                          (* nil: no encryption *)
  AskPassword : bool;                         (* fs.Config.AskPassword *)
  environ : gmap string string;               (* os.Getenv *)
  files : gmap string file;                   (* the file system *)
  stdin : list bytes;                         (* passwords the user will type *)
  events : list event;
}.
Arguments provider {P} _.
Arguments configProviders {P} _.
Arguments ConfigPath {P} _.
Arguments configKey {P} _.
Arguments AskPassword {P} _.
Arguments environ {P} _.
Arguments files {P} _.
Arguments stdin {P} _.
Arguments events {P} _.

Section WithProvider.
Context {P : Type} `{Provider P} `{Library}.

Definition set_provider (p : option P) (st : State P) : State P :=
  {| provider := p; configProviders := configProviders st;
     ConfigPath := ConfigPath st; configKey := configKey st;
     AskPassword := AskPassword st; environ := environ st;
     files := files st; stdin := stdin st; events := events st |}.

Definition set_configKey (k : bytes) (st : State P) : State P :=
  {| provider := provider st; configProviders := configProviders st;
     ConfigPath := ConfigPath st; configKey := k;
     AskPassword := AskPassword st; environ := environ st;
     files := files st; stdin := stdin st; events := events st |}.

Definition set_files (f : gmap string file) (st : State P) : State P :=
  {| provider := provider st; configProviders := configProviders st;
     ConfigPath := ConfigPath st; configKey := configKey st;
     AskPassword := AskPassword st; environ := environ st;
     files := f; stdin := stdin st; events := events st |}.

Definition set_stdin (i : list bytes) (st : State P) : State P :=
  {| provider := provider st; configProviders := configProviders st;
     ConfigPath := ConfigPath st; configKey := configKey st;
     AskPassword := AskPassword st; environ := environ st;
     files := files st; stdin := i; events := events st |}.

Definition log (e : event) (st : State P) : State P :=
  {| provider := provider st; configProviders := configProviders st;
     ConfigPath := ConfigPath st; configKey := configKey st;
     AskPassword := AskPassword st; environ := environ st;
     files := files st; stdin := stdin st; events := events st ++ [e] |}.

(** os.Getenv: the empty string when the variable is not set. *)
Definition Getenv (name : string) (st : State P) : string :=
  default "" (environ st !! name).

(** ioutil.ReadFile: None is the "does not exist" error. *)
Definition ReadFile (path : string) (st : State P) : option bytes :=
  content <$> files st !! path.

(** os.Remove: None is an error (the path does not exist). *)
Definition Remove (path : string) (st : State P) : option (State P) :=
  match files st !! path with
  | Some _ => Some (set_files (delete path (files st)) st)
  | None => None
  end.

(** secretbox.Overhead: the length of the authentication tag. *)
Definition Overhead : nat := 16.

(** Modelled from the spec: setConfigPassword is not among the source
    files. The spec has the key "derived from a user-supplied password
    via a one-way transform" and held in memory; the caller handles an
    error, returned here when the hash refuses the password. *)
Definition setConfigPassword (password : bytes) (st : State P)
  : option error * State P :=
  match passwordHash password with
  | Some k => (None, set_configKey k st)
  | None => (Some (ErrProvider "password rejected"), st)
  end.

(** Modelled from the spec: getConfigPassword is not among the source
    files. The spec has an "interactive password prompt, deriving a
    32-byte key via a slow password hash", repeated "until ... the
    caller signals it cannot provide further input": each password
    typed is hashed, a refused one is asked again, and the end of the
    input terminates the process. *)
Fixpoint askPassword (input : list bytes) (st : State P) : outcome (State P) :=
  match input with
  | [] => Fatal "Failed to read password"
  | pw :: rest =>
      let st1 := log EvPrompt (set_stdin rest st) in
      match setConfigPassword pw st1 with
      | (None, st2) => Ret st2
      | (Some _, st2) => askPassword rest st2
      end
  end.

Definition getConfigPassword (st : State P) : outcome (State P) :=
  askPassword (stdin st) st.

(** provider.Load(bytes.NewReader(b)); the call on a nil interface
    panics. *)
Definition providerLoad (b : bytes) (st : State P)
  : outcome (option error * State P) :=
  match provider st with
  | None => Panic "invalid memory address or nil pointer dereference"
  | Some p =>
      obind (Load b p) (fun r =>
        Ret (r.1, set_provider (Some r.2) (log (EvLoad b) st)))
  end.

(** How the loop over the first lines of the file ends. *)
Inductive firstLine :=
| Plaintext                       (* provider.Load(bytes.NewReader(b)) *)
| Unsupported                     (* the "unsupported configuration encryption" error *)
| Encrypted (r : Go.Reader).      (* break: r holds what follows the line *)

(** What the loop does with one line returned by ReadLine: None is
    "continue". *)
Definition classifyLine (line : bytes) (rest : Go.Reader) : option firstLine :=
  let l := Go.TrimSpace line in
  if (length l =? 0) || Go.HasPrefix l (B ";") || Go.HasPrefix l (B "#")
  then None
  else if bool_decide (l = B "RCLONE_ENCRYPT_V0:") then Some (Encrypted rest)
  else if Go.HasPrefix l (B "RCLONE_ENCRYPT_V") then Some Unsupported
  else Some Plaintext.

(** The loop "Find first non-empty line" (lines 338-358). The second
    result of ReadLine, isPrefix, is discarded as in the source. The
    loop runs until ReadLine reports io.EOF; [fuel] bounds the number
    of iterations and None means that it ran out. *)
Fixpoint scanLines (bufSize fuel : nat) (r : Go.Reader) : option firstLine :=
  match fuel with
  | O => None
  | S fuel' =>
      let rl := Go.ReadLineSize bufSize r in
      if Go.rl_eof rl then Some Plaintext
      else match classifyLine (Go.rl_line rl) (Go.rl_rest rl) with
           | Some res => Some res
           | None => scanLines bufSize fuel' (Go.rl_rest rl)
           end
  end.

(** One pass through lines 372-395: where the key of a decryption
    attempt comes from. *)
Definition acquireKey (st : State P) : outcome (option error * State P) :=
  let envKeyFile := Getenv "_RCLONE_CONFIG_KEY_FILE" st in
  if 0 <? String.length envKeyFile then
    let st1 := log (EvReadKeyFile envKeyFile) st in
    match ReadFile envKeyFile st1 with
    | None =>
        match Remove envKeyFile (log (EvRemove envKeyFile) st1) with
        | None => Fatal "unable to read obscured config key and unable to delete the temp file"
        | Some _ => Fatal "unable to read obscured config key"
        end
    | Some obscuredKey =>
        match Remove envKeyFile (log (EvRemove envKeyFile) st1) with
        | None => Fatal "unable to delete temp file with configKey"
        | Some st2 =>
            obind (obscure_MustReveal obscuredKey) (fun k =>
              Ret (None, set_configKey k st2))
        end
    end
  else if length (configKey st) =? 0 then
    if negb (AskPassword st)
    then Ret (Some ErrNoPassword, st)
    else obind (getConfigPassword st) (fun st1 => Ret (None, st1))
  else Ret (None, st).

(** The decryption loop (lines 371-413); None: out of fuel. The slice
    expression configKey[:32] panics on a shorter key (the capacity of
    the slice is taken to be its length). *)
Fixpoint decryptLoop (fuel : nat) (box : bytes) (st : State P)
  : option (outcome (option error * bytes * State P)) :=
  match fuel with
  | O => None
  | S fuel' =>
      match acquireKey st with
      | Fatal m => Some (Fatal m)
      | Panic m => Some (Panic m)
      | Ret (Some e, st1) => Some (Ret (Some e, [], st1))
      | Ret (None, st1) =>
          let nonce := take 24 box in
          if length (configKey st1) <? 32
          then Some (Panic "slice bounds out of range")
          else
            let key := take 32 (configKey st1) in
            let st2 := log (EvOpen key) st1 in
            match secretbox_Open (drop 24 box) nonce key with
            | Some out => Some (Ret (None, out, st2))
            | None => decryptLoop fuel' box (set_configKey [] st2)
            end
      end
  end.

(** Iterations the decryption loop can need: one for a key that is
    already there, one per password typed, one to find the input
    closed. *)
Definition decryptFuel (st : State P) : nat := length (stdin st) + 3.

(** lines 318-326: RCLONE_CONFIG_PASS sets the key when none is set. *)
Definition useEnvPassword (st : State P) : State P :=
  let envpw := Getenv "RCLONE_CONFIG_PASS" st in
  if (length (configKey st) =? 0) && negb (bool_decide (envpw = ""))
  then (setConfigPassword (B envpw) st).2
  else st.

(** lines 360-415: the encrypted branch. *)
Definition loadEncrypted (r : Go.Reader) (st : State P)
  : option (outcome (option error * State P)) :=
  match base64_ReadAll r with
  | None => Some (Ret (Some ErrBase64, st))
  | Some box =>
      if length box <? 24 + Overhead
      then Some (Ret (Some ErrTooShort, st))
      else
        match decryptLoop (decryptFuel st) box st with
        | None => None
        | Some (Fatal m) => Some (Fatal m)
        | Some (Panic m) => Some (Panic m)
        | Some (Ret (Some e, _, st1)) => Some (Ret (Some e, st1))
        | Some (Ret (None, out, st1)) => Some (providerLoad out st1)
        end
  end.

(** loadConfigFile, with the buffer size of the bufio.Reader as a
    parameter. None: a loop ran out of fuel. *)
Definition loadConfigFileSize (bufSize : nat) (st0 : State P)
  : option (outcome (option error * State P)) :=
  let st := useEnvPassword st0 in
  match ReadFile (ConfigPath st) st with
  | None => Some (Ret (Some errorConfigFileNotFound, st))
  | Some b =>
      match scanLines bufSize (S (length b)) b with
      | None => None
      | Some Plaintext => Some (providerLoad b st)
      | Some Unsupported => Some (Ret (Some ErrUnsupportedEncryption, st))
      | Some (Encrypted r) => loadEncrypted r st
      end
  end.

Definition loadConfigFile : State P -> option (outcome (option error * State P)) :=
  loadConfigFileSize Go.defaultBufSize.

(** The inner loop of LoadConfig over cp.FileTypes: the expression
    path.Ext(ConfigPath)[1:] is evaluated at each element. *)
Fixpoint matchFileTypes (fts : list string) (ext : string) : outcome bool :=
  match fts with
  | [] => Ret false
  | ft :: rest =>
      obind (Go.sliceFrom1 ext) (fun e =>
        if decide (ft = e) then Ret true else matchFileTypes rest ext)
  end.

(** The outer loop of LoadConfig over configProviders. *)
Fixpoint selectProvider (cps : list (ProviderDefinition P)) (ext : string)
    (cur : option P) : outcome (option P) :=
  match cps with
  | [] => Ret cur
  | cp :: rest =>
      obind (matchFileTypes (FileTypes cp) ext) (fun found =>
        selectProvider rest ext (if found then Some (NewFunc cp) else cur))
  end.

(** LoadConfig, up to the start of the rate limiters. *)
Definition LoadConfig (st : State P) : option (outcome (State P)) :=
  match selectProvider (configProviders st) (Go.Ext (ConfigPath st)) (provider st) with
  | Fatal m => Some (Fatal m)
  | Panic m => Some (Panic m)
  | Ret p =>
      match loadConfigFile (set_provider p st) with
      | None => None
      | Some (Fatal m) => Some (Fatal m)
      | Some (Panic m) => Some (Panic m)
      | Some (Ret (Some e, st1)) =>
          if decide (e = errorConfigFileNotFound)
          then Some (Ret st1)                  (* "not found - using defaults" *)
          else Some (Fatal "Failed to load config file")
      | Some (Ret (None, st1)) => Some (Ret st1)
      end
  end.

(** The file at ConfigPath is in encrypted mode: the loop over its first
lines ends at the sentinel, and [r] is what follows that line. *)
Definition isEncrypted (st : State P) (r : Go.Reader) : Prop :=
exists b, ReadFile (ConfigPath st) st = Some b
/\ scanLines Go.defaultBufSize (S (length b)) b = Some (Encrypted r).

(** A bound on the passes the decryption loop still makes: with a
handoff file named, the pass that consumes it and the pass that finds
it gone; otherwise one pass per password typed, one for a key already
in memory and one that finds the input closed. *)
Definition passes (st : State P) : nat :=
let f := Getenv "_RCLONE_CONFIG_KEY_FILE" st in
if 0 <? String.length f
then (match files st !! f with Some _ => 2 | None => 1 end)
else length (stdin st) + (if length (configKey st) =? 0 then 1 else 2).

(** The error a run returned, without the state. *)
Definition errorOf (r : option (outcome (option error * State P)))
: option (outcome (option error)) :=
value <$> r.

(** The events of the state a run returned. *)
Definition eventsOf (r : option (outcome (option error * State P))) : list event :=
match r with
| Some (Ret (_, st)) => events st
| _ => []
end.

(* ----------------------------------------------------------------- *)
(* saveConfig (lines 419-505) as a machine over the file system       *)
(* ----------------------------------------------------------------- *)

(** How the body of saveConfig is left. *)
Inductive exit :=
| Returned (err : option error)
| Panicking (msg : string)        (* the deferred call still runs *)
| Exited (msg : string).          (* log.Fatalf inside the provider *)

(** The calls of saveConfig that touch the world, in source order. *)
Inductive label :=
| AtMkdirAll      (* 421 os.MkdirAll(dir) *)
| AtTempFile      (* 425 ioutil.TempFile(dir, name) *)
| AtSave          (* 437 provider.Save(&buf) *)
| AtWritePlain    (* 443 buf.WriteTo(f) *)
| AtBanner        (* 447 Fprintln(f, "# Encrypted rclone configuration File") *)
| AtBlank         (* 448 Fprintln(f, "") *)
| AtSentinel      (* 449 Fprintln(f, "RCLONE_ENCRYPT_V0:") *)
| AtNonce         (* 453 rand.Read(nonce[:]) *)
| AtWriteNonce    (* 458 enc.Write(nonce[:]) *)
| AtSeal          (* 464-467 secretbox.Seal and enc.Write(b) *)
| AtEncClose      (* 471 enc.Close() *)
| AtClose         (* 474 f.Close() *)
| AtStat          (* 480-488 os.Stat(ConfigPath), attemptCopyGroup *)
| AtChmod         (* 490 os.Chmod(f.Name(), fileMode) *)
| AtBackup        (* 495 os.Rename(ConfigPath, ConfigPath+".old") *)
| AtCommit        (* 498 os.Rename(f.Name(), ConfigPath) *)
| AtRemoveOld     (* 501 os.Remove(ConfigPath+".old") *)
| AtDeferred (x : exit)   (* 430 the deferred os.Remove(f.Name()) *)
| Finished (x : exit).

(** The local variables of a call in progress. *)
Record Frame := {
  world : State P;
  at_label : label;
  f_Name : string;        (* f.Name() *)
  buf : bytes;            (* the bytes.Buffer *)
  nonce : bytes;
  enc : Go.encoder;
  fileMode : N;
}.

(** What the environment decides at a step: whether the system call
    fails, how many bytes a failing write still delivers, the random
    suffix TempFile tries, the bytes rand.Read delivers. *)
Record choice := {
  fails : bool;
  delivered : nat;
  suffix : string;
  random : bytes;
}.

Definition goto (l : label) (fr : Frame) : Frame :=
  {| world := world fr; at_label := l; f_Name := f_Name fr; buf := buf fr;
     nonce := nonce fr; enc := enc fr; fileMode := fileMode fr |}.

Definition with_files (f : gmap string file) (fr : Frame) : Frame :=
  {| world := set_files f (world fr); at_label := at_label fr;
     f_Name := f_Name fr; buf := buf fr; nonce := nonce fr; enc := enc fr;
     fileMode := fileMode fr |}.

(** return err: the deferred call runs next. *)
Definition ret (e : error) (fr : Frame) : Frame :=
  goto (AtDeferred (Returned (Some e))) fr.

(** A write to the temp file f appends to it. *)
Definition writeTmp (d : bytes) (fr : Frame) : Frame :=
  match files (world fr) !! f_Name fr with
  | Some f =>
      with_files (<[f_Name fr := {| content := content f ++ d; mode := mode f |}]>
                    (files (world fr))) fr
  | None => fr
  end.

(** A write whose error the source checks: it completes, or delivers
    some of the bytes and fails. *)
Definition checkedWrite (c : choice) (d : bytes) (next : label) (fr : Frame) : Frame :=
  if fails c
  then ret (ErrSave "Failed to write temp config file") (writeTmp (take (delivered c) d) fr)
  else goto next (writeTmp d fr).

(** The suffix that TempFile appends is a non-empty string of digits. *)
Definition isDigit (c : ascii) : bool :=
  (48 <=? nat_of_ascii c) && (nat_of_ascii c <=? 57).

Definition validSuffix (s : string) : bool :=
  negb (bool_decide (s = "")) && forallb isDigit (B s).

Definition backupPath (st : State P) : string := ConfigPath st +:+ ".old".

Definition banner : bytes := B "# Encrypted rclone configuration File".
Definition sentinel : bytes := B "RCLONE_ENCRYPT_V0:".

(** One call of saveConfig's body. Writes to the temp file whose
    errors the source discards (lines 447-449 and 471) are taken to
    complete. *)
Definition step (c : choice) (fr : Frame) : Frame :=
  let st := world fr in
  let target := ConfigPath st in
  let dn := Go.Split target in
  match at_label fr with
  | AtMkdirAll =>
      (* os.MkdirAll("") always fails *)
      if fails c || bool_decide (dn.1 = "")
      then goto (Finished (Returned (Some (ErrSave "failed to create config directory")))) fr
      else goto AtTempFile fr
  | AtTempFile =>
      if fails c
      then goto (Finished (Returned (Some (ErrSave "Failed to create temp file for new config")))) fr
      else
        let name := (dn.1 +:+ dn.2) +:+ suffix c in
        if validSuffix (suffix c) && bool_decide (files st !! name = None)
        then
          let fr1 := with_files (<[name := {| content := []; mode := 384 |}]> (files st)) fr in
          {| world := world fr1; at_label := AtSave; f_Name := name; buf := buf fr;
             nonce := nonce fr; enc := enc fr; fileMode := fileMode fr |}
        else fr                       (* the name is taken: TempFile tries the next *)
  | AtSave =>
      match provider st with
      | None => goto (AtDeferred (Panicking "invalid memory address or nil pointer dereference")) fr
      | Some p =>
          match Save p with
          | Ret (None, b) =>
              {| world := st;
                 at_label := if length (configKey st) =? 0 then AtWritePlain else AtBanner;
                 f_Name := f_Name fr; buf := b; nonce := nonce fr; enc := enc fr;
                 fileMode := fileMode fr |}
          | Ret (Some _, _) => ret (ErrSave "Failed to save config file") fr
          | Panic m => goto (AtDeferred (Panicking m)) fr
          | Fatal m => goto (Finished (Exited m)) fr
          end
      end
  | AtWritePlain => checkedWrite c (buf fr) AtClose fr
  | AtBanner => goto AtBlank (writeTmp (banner ++ [Go.LF]) fr)
  | AtBlank => goto AtSentinel (writeTmp [Go.LF] fr)
  | AtSentinel => goto AtNonce (writeTmp (sentinel ++ [Go.LF]) fr)
  | AtNonce =>
      if negb (length (random c) =? 24)
      then ret (ErrSave "nonce short read") fr
      else {| world := st; at_label := AtWriteNonce; f_Name := f_Name fr; buf := buf fr;
              nonce := random c; enc := Go.NewEncoder; fileMode := fileMode fr |}
  | AtWriteNonce =>
      let r := Go.encWrite (nonce fr) (enc fr) in
      let fr1 := {| world := st; at_label := at_label fr; f_Name := f_Name fr;
                    buf := buf fr; nonce := nonce fr; enc := r.2;
                    fileMode := fileMode fr |} in
      checkedWrite c r.1 AtSeal fr1
  | AtSeal =>
      if length (configKey st) <? 32
      then goto (AtDeferred (Panicking "slice bounds out of range")) fr
      else
        let b := secretbox_Seal (buf fr) (nonce fr) (take 32 (configKey st)) in
        let r := Go.encWrite b (enc fr) in
        let fr1 := {| world := st; at_label := at_label fr; f_Name := f_Name fr;
                      buf := buf fr; nonce := nonce fr; enc := r.2;
                      fileMode := fileMode fr |} in
        checkedWrite c r.1 AtEncClose fr1
  | AtEncClose => goto AtClose (writeTmp (Go.encClose (enc fr)) fr)
  | AtClose =>
      if fails c then ret (ErrSave "Failed to close config file") fr
      else goto AtStat fr
  | AtStat =>
      let m := match files st !! target with
               | Some f => if fails c then 384%N else mode f
               | None => 384%N
               end in
      {| world := st; at_label := AtChmod; f_Name := f_Name fr; buf := buf fr;
         nonce := nonce fr; enc := enc fr; fileMode := m |}
  | AtChmod =>
      match files st !! f_Name fr with
      | Some f =>
          if fails c then goto AtBackup fr
          else goto AtBackup
                 (with_files (<[f_Name fr := {| content := content f; mode := fileMode fr |}]>
                                (files st)) fr)
      | None => goto AtBackup fr
      end
  | AtBackup =>
      match files st !! target with
      | None => goto AtCommit fr          (* os.IsNotExist(err) *)
      | Some f =>
          if fails c
          then ret (ErrSave "Failed to move previous config to backup location") fr
          else goto AtCommit
                 (with_files (<[backupPath st := f]> (delete target (files st))) fr)
      end
  | AtCommit =>
      match files st !! f_Name fr with
      | Some f =>
          if fails c
          then ret (ErrSave "Failed to move newly written config to final location") fr
          else goto AtRemoveOld
                 (with_files (<[target := f]> (delete (f_Name fr) (files st))) fr)
      | None => ret (ErrSave "Failed to move newly written config to final location") fr
      end
  | AtRemoveOld =>
      if fails c then goto (AtDeferred (Returned None)) fr
      else goto (AtDeferred (Returned None))
             (with_files (delete (backupPath st) (files st)) fr)
  | AtDeferred x =>
      if fails c then goto (Finished x) fr
      else goto (Finished x) (with_files (delete (f_Name fr) (files st)) fr)
  | Finished _ => fr
  end.

(** saveConfig is entered with nothing done yet. *)
Definition enter (st : State P) : Frame :=
  {| world := st; at_label := AtMkdirAll; f_Name := ""; buf := [];
     nonce := []; enc := Go.NewEncoder; fileMode := 384 |}.

(** The frame after the calls decided by [cs]. *)
Definition run (cs : list choice) (fr : Frame) : Frame :=
  foldl (fun fr c => step c fr) fr cs.

(** saveConfig under the decisions [cs]: the error returned, or None
    while the call has not finished. *)
Definition saveConfig (cs : list choice) (st : State P)
  : option (exit * State P) :=
  let fr := run cs (enter st) in
  match at_label fr with
  | Finished x => Some (x, world fr)
  | _ => None
  end.


(* ----------------------------------------------------------------- *)
(* What the claims about saveConfig speak of                          *)
(* ----------------------------------------------------------------- *)

(** The lines written before the blob: the banner, a blank line, the
sentinel. *)
Definition header : bytes :=
banner ++ [Go.LF] ++ [Go.LF] ++ sentinel ++ [Go.LF].

(** The file that saveConfig is to produce for the serialized [body]:
the body itself without a key; with a key the header followed by
base64(nonce || secretbox.Seal(body, nonce, key[:32])). *)
Definition container (key body nonce : bytes) : bytes :=
if length key =? 0 then body
else header ++ Go.Encode (nonce ++ secretbox_Seal body nonce (take 32 key)).









End WithProvider.
End Config.

(* --------------------------------------------------------------------- *)
(* The words of the specification about the first significant line       *)
(* --------------------------------------------------------------------- *)
Module Spec.

(** A line without the carriage return that may end it. *)
Definition stripCR (l : bytes) : bytes :=
match rev l with
| c :: r => if decide (c = Go.CR) then rev r else l
| [] => l
end.

(** The lines of a buffer, each with the bytes that follow it: a line
ends at a line feed, its line end ("\n" or "\r\n") is not part of
it, and what follows the last line feed is the last line. *)
Fixpoint linesFrom (b cur : bytes) : list (bytes * bytes) :=
match b with
| [] => [(rev cur, [])]
| c :: b' =>
if decide (c = Go.LF) then (stripCR (rev cur), b') :: linesFrom b' []
else linesFrom b' (c :: cur)
end.

Definition lines (b : bytes) : list (bytes * bytes) := linesFrom b [].

(** A line is significant unless it is blank or its trimmed form
starts with ';' or '#'. *)
Definition significant (line : bytes) : bool :=
let l := Go.TrimSpace line in
negb ((length l =? 0) || Go.HasPrefix l (B ";") || Go.HasPrefix l (B "#")).

Definition firstSignificant (b : bytes) : option (bytes * bytes) :=
List.find (fun lr => significant lr.1) (lines b).

(** The mode that a significant line determines: encrypted when it is
exactly the version-0 sentinel (the remainder is what follows the
line), unsupported when it starts with the sentinel prefix, plaintext
otherwise. *)
Definition verdict (lr : bytes * bytes) : Config.firstLine :=
let l := Go.TrimSpace lr.1 in
if bool_decide (l = B "RCLONE_ENCRYPT_V0:") then Config.Encrypted lr.2
else if Go.HasPrefix l (B "RCLONE_ENCRYPT_V") then Config.Unsupported
else Config.Plaintext.

(** The mode of a buffer: that of its first significant line, plaintext
when it has none. *)
Definition classify (b : bytes) : Config.firstLine :=
match firstSignificant b with
| None => Config.Plaintext
| Some lr => verdict lr
end.

(** No line of the buffer reaches [n] bytes, its carriage return
counted. *)
Fixpoint shortLines (n : nat) (b : bytes) (cur : nat) : bool :=
match b with
| [] => cur <? n
| c :: b' =>
if decide (c = Go.LF) then (cur <? n) && shortLines n b' 0
else shortLines n b' (S cur)
end.

End Spec.

(* --------------------------------------------------------------------- *)
(* A concrete library, to run the model on examples                      *)
(* --------------------------------------------------------------------- *)
Module Example.
Import Goconfig.

(** The value of a base64 character. *)
Fixpoint indexIn (c : ascii) (l : bytes) : option N :=
  match l with
  | [] => None
  | x :: l' => if decide (x = c) then Some 0%N else N.succ <$> indexIn c l'
  end.

Definition dec6 (c : ascii) : option N := indexIn c Go.encodeStd.

Definition byteOf (v : N) : ascii := ascii_of_N (N.land v 255).

(** One group of four characters; padding may end it. *)
Definition decodeQuantum (a b c d : ascii) : option bytes :=
  match dec6 a, dec6 b with
  | Some va, Some vb =>
      let v2 := N.lor (N.shiftl va 18) (N.shiftl vb 12) in
      if decide (c = Go.StdPadding)
      then (if decide (d = Go.StdPadding) then Some [byteOf (N.shiftr v2 16)] else None)
      else
        match dec6 c with
        | Some vc =>
            let v3 := N.lor v2 (N.shiftl vc 6) in
            if decide (d = Go.StdPadding)
            then Some [byteOf (N.shiftr v3 16); byteOf (N.shiftr v3 8)]
            else
              match dec6 d with
              | Some vd =>
                  let v := N.lor v3 vd in
                  Some [byteOf (N.shiftr v 16); byteOf (N.shiftr v 8); byteOf v]
              | None => None
              end
        | None => None
        end
  | _, _ => None
  end.

Fixpoint decodeQuanta (s : bytes) : option bytes :=
  match s with
  | [] => Some []
  | a :: b :: c :: d :: rest =>
      match decodeQuantum a b c d with
      | Some q =>
          if length q <? 3
          then (match rest with [] => Some q | _ => None end)
          else (fun t => q ++ t) <$> decodeQuanta rest
      | None => None
      end
  | _ => None
  end.

(** A decoder for padded base64 that skips line breaks. *)
Definition decodeStd (s : bytes) : option bytes :=
  decodeQuanta (List.filter (fun c => negb (bool_decide (c = Go.CR) || bool_decide (c = Go.LF))) s).

(** A stand-in for secretbox with the same shape: a 16-byte tag made
    of key and nonce, followed by the message. *)
Definition xorb8 (a b : ascii) : ascii :=
  ascii_of_N (N.lxor (N_of_ascii a) (N_of_ascii b)).

Definition tag (nonce key : bytes) : bytes :=
  zip_with xorb8 (take 16 key) (take 16 nonce).

Definition seal (message nonce key : bytes) : bytes := tag nonce key ++ message.

Definition open (box nonce key : bytes) : option bytes :=
  if bool_decide (take 16 box = tag nonce key) then Some (drop 16 box) else None.

(** A stand-in for the password hash: 32 bytes, the empty password is
    refused. *)
Definition hash (password : bytes) : option bytes :=
  match password with
  | [] => None
  | _ => Some (take 32 (password ++ repeat "000"%char 32))
  end.

(** Cut a text at its line feeds. *)
Fixpoint splitLines (b cur : bytes) : list bytes :=
  match b with
  | [] => [rev cur]
  | c :: b' =>
      if decide (c = Go.LF) then rev cur :: splitLines b' []
      else splitLines b' (c :: cur)
  end.

(** "key = value": the bytes before and after the first '='. *)
Fixpoint cutAtEq (l key : bytes) : option (bytes * bytes) :=
  match l with
  | [] => None
  | c :: l' => if decide (c = "="%char) then Some (rev key, l') else cutAtEq l' (c :: key)
  end.

(** A small reader for the INI format: comments and blank lines are
    skipped, "[name]" opens a section and sets its keeper key, other
    lines are "key = value". *)
Fixpoint parseLines (ls : list bytes) (section : string)
  : option (list (string * string * string)) :=
  match ls with
  | [] => Some []
  | line :: rest =>
      let l := Go.TrimSpace line in
      match l with
      | [] => parseLines rest section
      | c :: _ =>
          if bool_decide (c = "#"%char) || bool_decide (c = ";"%char)
          then parseLines rest section
          else if bool_decide (c = "["%char) && bool_decide (last l = Some "]"%char)
          then
            let name := string_of_list_ascii
                          (Go.TrimSpace (take (length l - 2) (drop 1 l))) in
            (fun t => (name, sectionKeeper, sectionKeeper) :: t) <$> parseLines rest name
          else
            match cutAtEq l [] with
            | Some (k, v) =>
                (fun t => (section, string_of_list_ascii (Go.TrimSpace k),
                           string_of_list_ascii (Go.TrimSpace v)) :: t)
                  <$> parseLines rest section
            | None => None
            end
      end
  end.

Definition parse (b : bytes) : option (list (string * string * string)) :=
  parseLines (splitLines b []) DEFAULT_SECTION.

(** A small writer for the INI format. *)
Definition printSection (c : ConfigFile) (name : string) : bytes :=
  B "[" ++ B name ++ B "]" ++ [Go.LF]
  ++ concat ((fun k =>
                if decide (k = sectionKeeper) then []
                else B k ++ B " = "
                     ++ B (default "" (default ∅ (data c !! name) !! k))
                     ++ [Go.LF])
             <$> default [] (keyList c !! name))
  ++ [Go.LF].

Definition print (c : ConfigFile) : bytes :=
  concat (printSection c <$> sectionList c).

#[global] Instance library : Library := {|
  parseINI := parse;
  printINI := print;
  mapRange := map_to_list;
  mapRange_perm := fun m => reflexivity (map_to_list m);
  base64_ReadAll := decodeStd;
  secretbox_Open := open;
  secretbox_Seal := seal;
  obscure_MustReveal := Ret;
  passwordHash := hash;
|}.

(** "[remote1]\ntype = local\n" *)
Definition sampleText : bytes :=
  B "[remote1]" ++ [Go.LF] ++ B "type = local" ++ [Go.LF].

(** A provider that has loaded the text [b]. *)
Definition loaded (b : bytes) : GoConfigProvider.GoConfig :=
  match GoConfigProvider.GoConfig_Load b GoConfigProvider.NewGoConfigProvider with
  | Ret (_, g) => g
  | _ => GoConfigProvider.NewGoConfigProvider
  end.

(** The ConfigFile that the text [b] is read into. *)
Definition read (b : bytes) : ConfigFile :=
  fromEntries (default [] (parse b)).

(** "k = v\n": a key before any section header belongs to DEFAULT. *)
Definition defaultText : bytes := B "k = v" ++ [Go.LF].

(** The state of a process that registered the goconfig provider and
    has not loaded anything. *)
Definition start (path : string) (fs : gmap string Config.file)
    (env : gmap string string) (key : bytes) (ask : bool) (input : list bytes)
  : Config.State GoConfigProvider.GoConfig :=
  {| Config.provider := None;
     Config.configProviders := [GoConfigProvider.Register];
     Config.ConfigPath := path;
     Config.configKey := key;
     Config.AskPassword := ask;
     Config.environ := env;
     Config.files := fs;
     Config.stdin := input;
     Config.events := [] |}.

(** A config path, and the file a previous run left there. *)
Definition path : string := "/home/user/.config/rclone/rclone.conf".

Definition oldFile : Config.file :=
{| Config.content := sampleText; Config.mode := 420 |}.

(** "[remote2]\ntype = s3\n": the configuration to be saved. *)
Definition newText : bytes :=
B "[remote2]" ++ [Go.LF] ++ B "type = s3" ++ [Go.LF].



(** Every system call succeeds; TempFile tries the suffix "123456789"
and rand.Read delivers 24 bytes. *)
Definition ok : Config.choice :=
{| Config.fails := false; Config.delivered := 0;
Config.suffix := "123456789"; Config.random := repeat "n"%char 24 |}.


(** The config file that saveConfig writes for [newText] under [key]. *)
Definition encryptedText (key : bytes) : bytes :=
Config.container key newText (repeat "n"%char 24).

(** A second key, and the temp file that hands it to a child process. *)
Definition key2 : bytes := repeat "K"%char 32.


(** A process that has chosen the goconfig provider and is about to
load a config file with the content [b]; [env] is its environment,
[extra] the other files, [key] the key in memory. *)
Definition loading (b : bytes) (env : gmap string string)
(extra : gmap string Config.file) (key : bytes) (ask : bool) (input : list bytes)
: Config.State GoConfigProvider.GoConfig :=
Config.set_provider (Some GoConfigProvider.NewGoConfigProvider)
(start path (<[ path := {| Config.content := b; Config.mode := 384 |} ]> extra)
env key ask input).

(** A comment line of 4096 bytes: '#' and 4095 times 'a'. *)
Definition longComment : bytes := "#"%char :: repeat "a"%char 4095.

(** A plaintext config whose first line is that comment, continued on
the same line by the text "RCLONE_ENCRYPT_V7:". *)
Definition longLineText : bytes :=
longComment ++ B "RCLONE_ENCRYPT_V7:" ++ [Go.LF] ++ sampleText.

(** A file in encrypted mode whose blob decodes to 3 bytes. *)
Definition shortBlobText : bytes :=
B "RCLONE_ENCRYPT_V0:" ++ [Go.LF] ++ B "AAAA" ++ [Go.LF].

End Example.

(* --------------------------------------------------------------------- *)
(* fs/config/config.go: the functions around the provider and around     *)
(* saveConfig                                                            *)
(* --------------------------------------------------------------------- *)
Module ConfigAPI.
Import Goconfig GoConfigProvider Config.

(** The options of a remote as the reads of a Section see them: the map
    of the section named [remote] (DEFAULT for the empty name) without
    goconfig's keeper key; None when there is no such section. *)
Definition options (c : ConfigFile) (remote : string) : option (gmap string string) :=
  delete sectionKeeper <$> data c !! sectionName remote.

Section WithProvider.
Context {P : Type} `{Provider P} `{Library}.

(** RegisterConfigProvider (lines 92-94):
    configProviders = append(configProviders, pd) *)
Definition RegisterConfigProvider (pd : ProviderDefinition P) (st : State P) : State P :=
  {| provider := provider st; configProviders := configProviders st ++ [pd];
     ConfigPath := ConfigPath st; configKey := configKey st;
     AskPassword := AskPassword st; environ := environ st;
     files := files st; stdin := stdin st; events := events st |}.

(** A Go int: the sum LowLevelRetries+1 wraps around at 64 bits. *)
Definition wrap64 (z : Z) : Z := ((z + 2 ^ 63) mod 2 ^ 64 - 2 ^ 63)%Z.

(** The loop of SaveConfig (lines 177-183) with [tries] iterations left.
    [attempts] holds the decisions of the environment for each call of
    saveConfig; None: they do not reach the end of the loop. The result
    is how SaveConfig ends and the state it leaves: it returns after a
    call of saveConfig that returned nil, a panic of saveConfig goes
    on, and log.Fatalf ends the process when no iteration is left. *)
Fixpoint saveLoop (tries : nat) (attempts : list (list choice)) (st : State P)
  : option (outcome unit * State P) :=
  match tries with
  | O => Some (Fatal "Failed to save config after tries", st)
  | S tries' =>
      match attempts with
      | [] => None
      | cs :: rest =>
          match saveConfig cs st with
          | None => None
          | Some (Returned None, st') => Some (Ret tt, st')
          | Some (Returned (Some _), st') => saveLoop tries' rest st'
          | Some (Panicking m, st') => Some (Panic m, st')
          | Some (Exited m, st') => Some (Fatal m, st')
          end
      end
  end.

(** SaveConfig (lines 175-187): "for i := 0; i < fs.Config.LowLevelRetries+1; i++". *)
Definition SaveConfig (LowLevelRetries : Z) (attempts : list (list choice))
    (st : State P) : option (outcome unit * State P) :=
  saveLoop (Z.to_nat (wrap64 (LowLevelRetries + 1))) attempts st.


End WithProvider.

Section WithGoConfig.
Context `{Library}.

(** GetRemoteConfig (lines 164-166): provider.GetRemoteConfig(). The
    call on a nil interface panics; the goconfig provider returns its
    receiver (provider.go, GetRemoteConfig). *)
Definition GetRemoteConfig (st : State GoConfig) : outcome GoConfig :=
  match provider st with
  | None => Panic "invalid memory address or nil pointer dereference"
  | Some g => Ret g
  end.

(** A method call on GetRemoteConfig(): the provider is an object, what
    the method does to it stays. *)
Definition onRemoteConfig {A : Type} (m : M A) (st : State GoConfig)
  : outcome (A * State GoConfig) :=
  obind (GetRemoteConfig st) (fun g =>
    obind (m g) (fun r => Ret (r.1, set_provider (Some r.2) st))).

(** GetRemote(remote).GetString(key) *)
Definition getOption (remote key : string) : M string :=
  let* s := GetRemote remote in GetString s key.

(** GetRemote(remote).SetString(key, value) *)
Definition setOption (remote key value : string) : M unit :=
  let* s := GetRemote remote in SetString s key value.

(** fs.ConfigFileGet as set in init (lines 150-155). *)
Definition ConfigFileGet (remote key : string) (st : State GoConfig)
  : outcome ((string * bool) * State GoConfig) :=
  obind (onRemoteConfig (HasRemote remote) st) (fun r =>
    if r.1
    then obind (onRemoteConfig (getOption remote key) r.2)
           (fun r' => Ret ((r'.1, true), r'.2))
    else Ret (("", false), r.2)).

(** fs.ConfigFileSet as set in init (lines 157-160): always returns nil. *)
Definition ConfigFileSet (remote key value : string) (st : State GoConfig)
  : outcome (option error * State GoConfig) :=
  obind (onRemoteConfig (setOption remote key value) st)
    (fun r => Ret (None, r.2)).

End WithGoConfig.
End ConfigAPI.

(* --------------------------------------------------------------------- *)
(* fs/config/config.go: makeConfigPath                                   *)
(* --------------------------------------------------------------------- *)
Module ConfigPaths.

(** path/filepath, as far as makeConfigPath calls it. *)
Class Filepath := {
  Join : list string -> string;      (* filepath.Join(elem...) *)
  Dir : string -> string;            (* filepath.Dir(path) *)
}.

(** What makeConfigPath asks of the process and of the operating
    system. *)
Record Process := {
  Executable : option string;        (* os.Executable(); None: it returns an error *)
  homeDir : string;                  (* the string homedir.Dir() returns *)
  env : gmap string string;          (* the environment *)
  Args : list string;                (* os.Args *)
  Stat : string -> bool;             (* os.Stat(path) returns no error *)
  MkdirAll : string -> bool;         (* os.MkdirAll(dir, os.ModePerm) returns no error *)
}.

(** What makeConfigPath does besides returning a path. *)
Inductive effect :=
| Mkdir (dir : string)               (* os.MkdirAll was called on dir *)
| Errorf (msg : string).             (* fs.Errorf *)

#[global] Instance effect_eq_dec : EqDecision effect.
Proof. solve_decision. Defined.

Definition configFileName : string := "rclone.conf".
Definition hiddenConfigFileName : string := "." +:+ configFileName.

(** The search of the command line (lines 278-283). *)
Fixpoint argsSupplyConfig (args : list string) : bool :=
  match args with
  | [] => false
  | item :: rest =>
      if bool_decide (item = "--config") || Go.HasPrefix (B item) (B "--config=")
      then true
      else argsSupplyConfig rest
  end.

Section WithFilepath.
Context `{Filepath}.

(** lines 226-234: rclone.conf beside the executable, if it exists. *)
Definition besideExecutable (p : Process) : option string :=
  match Executable p with
  | Some exe =>
      let cfgpath := Join [Dir exe; configFileName] in
      if Stat p cfgpath then Some cfgpath else None
  | None => None
  end.

(** lines 243-251: the user's configuration directory; empty when
    neither XDG_CONFIG_HOME nor the home directory is known. *)
Definition configDir (p : Process) : string :=
  let xdgdir := default "" (env p !! "XDG_CONFIG_HOME") in
  if negb (bool_decide (xdgdir = "")) then Join [xdgdir; "rclone"]
  else if negb (bool_decide (homeDir p = "")) then Join [homeDir p; ".config"; "rclone"]
  else "".

(** lines 254-261: var cfgpath string, set when cfgdir is not empty. *)
Definition configDirPath (p : Process) : string :=
  if negb (bool_decide (configDir p = "")) then Join [configDir p; configFileName]
  else "".

(** lines 264-271: var homeconf string, set when homeDir is not empty. *)
Definition homeConf (p : Process) : string :=
  if negb (bool_decide (homeDir p = "")) then Join [homeDir p; hiddenConfigFileName]
  else "".

(** lines 276-284: RCLONE_CONFIG is set or the command line has --config. *)
Definition configSupplied (p : Process) : bool :=
  if bool_decide (is_Some (env p !! "RCLONE_CONFIG")) then true
  else argsSupplyConfig (Args p).

(** lines 300-312: the end of makeConfigPath, after [done]. *)
Definition fallback (p : Process) (done : list effect) : string * list effect :=
  if negb (bool_decide (homeConf p = "")) then (homeConf p, done)
  else if negb (configSupplied p)
  then (hiddenConfigFileName,
        done ++ [Errorf "Couldn't find home directory or read HOME or XDG_CONFIG_HOME environment variables.";
                 Errorf "Defaulting to storing config in current directory.";
                 Errorf "Use --config flag to workaround.";
                 Errorf "Error was"])
  else (hiddenConfigFileName, done).

(** makeConfigPath (lines 223-313): the path and what was done to find
    it. *)
Definition makeConfigPath (p : Process) : string * list effect :=
  match besideExecutable p with
  | Some cfgpath => (cfgpath, [])
  | None =>
      if negb (bool_decide (configDir p = "")) && Stat p (configDirPath p)
      then (configDirPath p, [])
      else if negb (bool_decide (homeDir p = "")) && Stat p (homeConf p)
      then (homeConf p, [])
      else if negb (bool_decide (configDirPath p = ""))
      then
        if configSupplied p then (configDirPath p, [])
        else if MkdirAll p (configDir p)
             then (configDirPath p, [Mkdir (configDir p)])
             else fallback p [Mkdir (configDir p)]
      else fallback p []
  end.

(** A config file exists at one of the three places at which
    makeConfigPath looks for one. *)
Definition found (p : Process) : Prop :=
  is_Some (besideExecutable p)
  \/ (configDir p <> "" /\ Stat p (configDirPath p) = true)
  \/ (homeDir p <> "" /\ Stat p (homeConf p) = true).

End WithFilepath.

(** The process after a file was created at [path]: os.Stat succeeds
    there, the rest is as before. *)
Definition written (path : string) (p : Process) : Process :=
  {| Executable := Executable p; homeDir := homeDir p; env := env p; Args := Args p;
     Stat := fun x => bool_decide (x = path) || Stat p x;
     MkdirAll := MkdirAll p |}.

End ConfigPaths.

(* --------------------------------------------------------------------- *)
(* Further inputs for the examples                                       *)
(* --------------------------------------------------------------------- *)
Module Samples.

(** "[empty]\n": a remote without options. *)
Definition emptyRemoteText : bytes := B "[empty]" ++ [Go.LF].

(** A process whose provider has loaded "[remote1]\ntype = local\n". *)
Definition serving : Config.State GoConfigProvider.GoConfig :=
  Config.set_provider (Some (Example.loaded Example.sampleText))
    (Example.start Example.path ∅ ∅ [] false []).

(** A process that holds the new configuration and whose config path
    has no directory: the ".rclone.conf" that makeConfigPath falls back
    to. *)
Definition inCurrentDirectory : Config.State GoConfigProvider.GoConfig :=
  Config.set_provider (Some (Example.loaded Example.newText))
    (Example.start ConfigPaths.hiddenConfigFileName ∅ ∅ [] false []).




(** A provider definition registered for two extensions. *)
Definition preloaded : ProviderDefinition GoConfigProvider.GoConfig :=
  {| NewFunc := Example.loaded Example.sampleText; FileTypes := ["ini"; "conf"] |}.

(** A process whose plaintext config file has an extension that no
    provider is registered for. *)
Definition unregistered : Config.State GoConfigProvider.GoConfig
  := Example.start "/home/user/rclone.toml"
       {[ "/home/user/rclone.toml" := Example.oldFile ]} ∅ [] false [].

End Samples.

(* --------------------------------------------------------------------- *)
(* Proof steps used for the frames of saveConfig                         *)
(* --------------------------------------------------------------------- *)




(** makeConfigPath returned without an effect. *)
Ltac quiet :=
cbn [fst snd]; split; [done|]; split; intros ? Hin; by apply not_elem_of_nil in Hin.

(** The effect asked for is not among those of makeConfigPath. *)
Ltac no_such :=
intros ? Hin;
repeat (apply elem_of_cons in Hin as [Hin|Hin]; [discriminate|]);
by apply not_elem_of_nil in Hin.

(* ===================================================================== *)
(* Part II. Theorems                                                     *)
(* ===================================================================== *)

(* --------------------------------------------------------------------- *)
(* The ConfigFile container keeps its lists and maps in step             *)
(* --------------------------------------------------------------------- *)
Module GoconfigFacts.
Import Goconfig.

Lemma sectionName_nonempty s : sectionName s <> "".
Proof. unfold sectionName. case_decide; [discriminate | done]. Qed.

Lemma sectionName_id s : s <> "" -> sectionName s = s.
Proof. intros. unfold sectionName. by case_decide. Qed.

Lemma wf_new : wf newConfigFile.
Proof.
  split; simpl.
  - constructor.
  - intros s. rewrite lookup_empty. split; [by intros ?%elem_of_nil | by intros [? ?]].
  - done.
  - intros s sec k Hs. by rewrite lookup_empty in Hs.
Qed.

Lemma indexOf_split (x : string) (l : list string) :
  x ∈ l -> exists l1 l2, l = l1 ++ x :: l2 /\ (x ∉ l1) /\ indexOf x l = length l1.
Proof.
  induction l as [|y l IH]; intros Hin.
  - by apply elem_of_nil in Hin.
  - simpl. case_decide as Hy.
    + subst. exists [], l. split; [done|]. split; [apply not_elem_of_nil | done].
    + apply elem_of_cons in Hin as [->|Hin]; [done|].
      destruct (IH Hin) as (l1 & l2 & -> & Hn & Hi).
      exists (y :: l1), l2. split; [done|]. split.
      * intros [?|?]%elem_of_cons; [by subst | done].
      * simpl. by rewrite Hi.
Qed.

Lemma removeAt_indexOf (x : string) (l : list string) :
  x ∈ l -> exists l1 l2, l = l1 ++ x :: l2 /\ (x ∉ l1) /\
                         removeAt (indexOf x l) l = Ret (l1 ++ l2).
Proof.
  intros (l1 & l2 & -> & Hn & Hi)%indexOf_split.
  exists l1, l2. split; [done|]. split; [done|].
  unfold removeAt. rewrite Hi.
  destruct (S (length l1) <=? length (l1 ++ x :: l2)) eqn:E.
  - rewrite take_app_length.
    replace (l1 ++ x :: l2) with ((l1 ++ [x]) ++ l2) by by rewrite <- app_assoc.
    rewrite (drop_app_length' (l1 ++ [x]) l2); [done|].
    rewrite length_app. simpl. lia.
  - apply Nat.leb_gt in E. rewrite length_app in E. simpl in E. lia.
Qed.

Lemma SetValue_empty_key section value c : SetValue section "" value c = (false, c).
Proof. reflexivity. Qed.

Lemma SetValue_wf section key value c : wf c -> wf (SetValue section key value c).2.
Proof.
  intros [Hnd Hsec Hnam Hkeys]. unfold SetValue.
  pose proof (sectionName_nonempty section) as Hne.
  set (s := sectionName section) in *.
  case_decide as Hk; [by split|]. simpl.
  destruct (data c !! s) as [sec|] eqn:Hs; simpl.
  - rewrite Hs. simpl. split; simpl.
    + done.
    + intros s'. rewrite Hsec. destruct (decide (s = s')) as [->|].
      * rewrite lookup_insert_eq, Hs. split; eauto.
      * by rewrite lookup_insert_ne.
    + by rewrite lookup_insert_ne.
    + intros s' sec' k. destruct (decide (s = s')) as [<-|].
      * rewrite lookup_insert_eq. intros [= <-] Hin.
        destruct (decide (key = k)) as [<-|].
        -- case_bool_decide as Hb.
           ++ eapply Hkeys; eauto.
           ++ rewrite lookup_insert_eq. simpl. apply elem_of_app. right. by apply list_elem_of_singleton.
        -- rewrite lookup_insert_ne in Hin by done.
           case_bool_decide.
           ++ eapply Hkeys; eauto.
           ++ rewrite lookup_insert_eq. simpl. apply elem_of_app. left. eapply Hkeys; eauto.
      * rewrite lookup_insert_ne by done. intros Hs' Hin.
        case_bool_decide.
        -- eapply Hkeys; eauto.
        -- rewrite lookup_insert_ne by done. eapply Hkeys; eauto.
  - rewrite lookup_insert_eq. simpl. rewrite lookup_empty.
    assert (s ∉ sectionList c) as Hnot.
    { rewrite Hsec, Hs. by intros [? ?]. }
    rewrite bool_decide_eq_false_2 by (by intros [? ?]).
    split; simpl.
    + apply NoDup_app. split; [done|]. split; [|apply NoDup_singleton].
      intros x Hx ->%list_elem_of_singleton. done.
    + intros s'. rewrite elem_of_app, list_elem_of_singleton, Hsec.
      destruct (decide (s = s')) as [<-|].
      * rewrite lookup_insert_eq. split; eauto.
      * rewrite !lookup_insert_ne by done. split; [intros [?|?]; [done|congruence] | eauto].
    + by rewrite !lookup_insert_ne.
    + intros s' sec' k. destruct (decide (s = s')) as [<-|].
      * rewrite !lookup_insert_eq. intros [= <-] Hin. simpl.
        destruct (decide (key = k)) as [<-|].
        -- apply elem_of_app. right. by apply list_elem_of_singleton.
        -- rewrite lookup_insert_ne, lookup_empty in Hin by done. by destruct Hin.
      * rewrite !lookup_insert_ne by done. intros. eapply Hkeys; eauto.
Qed.

Lemma SetValue_keeps_sections section key value c s :
  is_Some (data c !! s) -> is_Some (data (SetValue section key value c).2 !! s).
Proof.
  intros Hs. unfold SetValue. set (n := sectionName section).
  case_decide; [done|]. simpl.
  destruct (data c !! n) eqn:Hn; simpl.
  - destruct (decide (n = s)) as [<-|]; [rewrite lookup_insert_eq; eauto|].
    by rewrite lookup_insert_ne.
  - destruct (decide (n = s)) as [<-|]; [rewrite lookup_insert_eq; eauto|].
    by rewrite !lookup_insert_ne.
Qed.

Lemma SetValue_sectionList_existing section key value c :
  is_Some (data c !! sectionName section) ->
  sectionList (SetValue section key value c).2 = sectionList c.
Proof.
  intros [sec Hs]. unfold SetValue. case_decide; [done|]. simpl. by rewrite Hs.
Qed.

(** After SetValue with a non-empty key the section holds the value. *)
Lemma SetValue_lookup section key value c :
  key <> "" ->
  exists sec, data (SetValue section key value c).2 !! sectionName section = Some sec
              /\ sec !! key = Some value.
Proof.
  intros Hk. unfold SetValue. case_decide; [done|]. simpl.
  eexists. rewrite lookup_insert_eq. split; [done|]. by rewrite lookup_insert_eq.
Qed.

Lemma GetSection_wf section c : wf c -> wf (GetSection section c).2.
Proof.
  intros [Hnd Hsec Hnam Hkeys]. unfold GetSection.
  pose proof (sectionName_nonempty section) as Hne.
  set (s := sectionName section) in *.
  destruct (data c !! s) as [sec|] eqn:Hs; [|by split]. split; simpl.
  - done.
  - intros s'. rewrite Hsec. destruct (decide (s = s')) as [<-|].
    + rewrite lookup_insert_eq, Hs. split; eauto.
    + by rewrite lookup_insert_ne.
  - by rewrite lookup_insert_ne.
  - intros s' sec' k. destruct (decide (s = s')) as [<-|].
    + rewrite lookup_insert_eq. intros [= <-] [v Hin].
      apply lookup_delete_Some in Hin as [_ Hin]. eapply Hkeys; eauto.
    + rewrite lookup_insert_ne by done. eauto.
Qed.

Lemma GetSection_sectionList section c :
  sectionList (GetSection section c).2 = sectionList c.
Proof. unfold GetSection. by destruct (data c !! sectionName section). Qed.

Lemma GetSection_keeps_sections section c s :
  is_Some (data c !! s) <-> is_Some (data (GetSection section c).2 !! s).
Proof.
  unfold GetSection. set (n := sectionName section).
  destruct (data c !! n) eqn:Hn; simpl; [|done].
  destruct (decide (n = s)) as [<-|].
  - rewrite lookup_insert_eq, Hn. split; eauto.
  - by rewrite lookup_insert_ne.
Qed.

(** Under the invariant DeleteSection does not panic, keeps the
    invariant and leaves no section of that name. *)
Lemma DeleteSection_wf section c :
  wf c ->
  exists b c', DeleteSection section c = Ret (b, c') /\ wf c'
               /\ (sectionName section ∉ sectionList c')
               /\ data c' !! sectionName section = None.
Proof.
  intros [Hnd Hsec Hnam Hkeys]. unfold DeleteSection.
  set (s := sectionName section) in *.
  destruct (data c !! s) as [sec|] eqn:Hs.
  - assert (s ∈ sectionList c) as Hin by (rewrite Hsec, Hs; eauto).
    destruct (removeAt_indexOf _ _ Hin) as (l1 & l2 & Hl & Hn1 & ->). simpl.
    rewrite Hl in Hnd. apply NoDup_app in Hnd as (Hnd1 & Hdisj & Hnd2).
    apply NoDup_cons in Hnd2 as [Hn2 Hnd2].
    assert (s ∉ l1 ++ l2) as Hnot.
    { intros [?|?]%elem_of_app; done. }
    eexists _, _. split; [done|]. split; [|split; [done | by simpl; rewrite lookup_delete_eq]].
    split; simpl.
    + apply NoDup_app. split; [done|]. split; [|done].
      intros x Hx Hx2. apply (Hdisj x Hx). by apply elem_of_cons; right.
    + intros s'. destruct (decide (s = s')) as [<-|Hne].
      * rewrite lookup_delete_eq. split; [done | by intros [? ?]].
      * rewrite lookup_delete_ne by done. rewrite <- Hsec, Hl.
        rewrite !elem_of_app, elem_of_cons. intuition congruence.
    + destruct (decide (s = "")) as [->|]; [by rewrite lookup_delete_eq|].
      by rewrite lookup_delete_ne.
    + intros s' sec' k. destruct (decide (s = s')) as [<-|Hne].
      * by rewrite lookup_delete_eq.
      * rewrite !lookup_delete_ne by done. eauto.
  - eexists _, _. split; [done|]. split; [by split|]. split; [|done].
    rewrite Hsec, Hs. by intros [? ?].
Qed.

Lemma DeleteKey_wf section key c :
  wf c -> exists b c', DeleteKey section key c = Ret (b, c') /\ wf c'
                       /\ sectionList c' = sectionList c.
Proof.
  intros [Hnd Hsec Hnam Hkeys]. unfold DeleteKey.
  pose proof (sectionName_nonempty section) as Hne.
  set (s := sectionName section) in *.
  destruct (data c !! s) as [sec|] eqn:Hs; [|by eexists _, _; split; [|split; [split|]]].
  destruct (sec !! key) as [v|] eqn:Hk; [|by eexists _, _; split; [|split; [split|]]].
  assert (key ∈ default [] (keyList c !! s)) as Hin by (eapply Hkeys; eauto).
  destruct (removeAt_indexOf _ _ Hin) as (l1 & l2 & Hl & Hn1 & ->). simpl.
  eexists _, _. split; [done|]. split; [|done]. split; simpl.
  - done.
  - intros s'. rewrite Hsec. destruct (decide (s = s')) as [<-|].
    + rewrite lookup_insert_eq, Hs. split; eauto.
    + by rewrite lookup_insert_ne.
  - by rewrite lookup_insert_ne.
  - intros s' sec' k. destruct (decide (s = s')) as [<-|].
    + rewrite !lookup_insert_eq. intros [= <-] [w Hw]. simpl.
      apply lookup_delete_Some in Hw as [Hkk Hw].
      assert (k ∈ default [] (keyList c !! s)) as Hk' by (eapply Hkeys; eauto).
      rewrite Hl in Hk'. rewrite elem_of_app in *. rewrite elem_of_cons in Hk'.
      intuition congruence.
    + rewrite !lookup_insert_ne by done. eauto.
Qed.

(** Every ConfigFile that the reader builds satisfies the invariant. *)
Lemma fromEntries_wf entries : wf (fromEntries entries).
Proof.
  unfold fromEntries. generalize wf_new. generalize newConfigFile.
  induction entries as [|e es IH]; intros c Hc; simpl; [done|].
  apply IH. by apply SetValue_wf.
Qed.

End GoconfigFacts.

(* --------------------------------------------------------------------- *)
(* The goconfig provider: RemoteConfig and Section                       *)
(* --------------------------------------------------------------------- *)
Module ProviderFacts.
Import Goconfig GoconfigFacts GoConfigProvider.

Section WithLibrary.
Context `{Library}.

Lemma holds_update g c c' : holds g c -> holds (update g c') c'.
Proof.
  intros (l & Hl & Hc). exists l. unfold update. rewrite Hl. simpl.
  split; [done|]. by rewrite lookup_insert_eq.
Qed.

Lemma config_update g c : config (update g c) = config g.
Proof. unfold update. destruct (config g) eqn:E; simpl; congruence. Qed.

Lemma update_id g c : holds g c -> update g c = g.
Proof.
  intros (l & Hl & Hc). unfold update. rewrite Hl. destruct g as [p h].
  simpl in *. subst. f_equal. by apply insert_id.
Qed.

Lemma update_update g c1 c2 : update (update g c1) c2 = update g c2.
Proof.
  unfold update. destruct (config g) eqn:E; simpl; [|by rewrite E].
  by rewrite insert_insert_eq.
Qed.

Lemma holds_inj g c c' : holds g c -> holds g c' -> c = c'.
Proof. intros (l & Hl & Hc) (l' & Hl' & Hc'). congruence. Qed.

(** A method call on the object the provider holds. *)
Lemma call_holds {A} (f : ConfigFile -> outcome (A * ConfigFile)) g c :
  holds g c ->
  call (config g) f g = obind (f c) (fun r => Ret (r.1, update g r.2)).
Proof.
  intros (l & Hl & Hc). unfold call, update. rewrite Hl, Hc. done.
Qed.

Lemma inList_elem r l : inList r l = true <-> r ∈ l.
Proof.
  induction l as [|v l IH]; simpl.
  - split; [done | intros Hin; by apply elem_of_nil in Hin].
  - case_decide as Hv.
    + subst. split; [intros _; by left | done].
    + rewrite IH, elem_of_cons. intuition congruence.
Qed.

Lemma inList_false r l : inList r l = false <-> r ∉ l.
Proof. rewrite <- inList_elem. by destruct (inList r l). Qed.

Lemma ListRemotes_holds g c : holds g c -> ListRemotes g = Ret (sectionList c, g).
Proof.
  intros Hg. unfold ListRemotes, mbind, self_config. simpl.
  rewrite (call_holds _ g c Hg). simpl. by rewrite (update_id g c Hg).
Qed.

Lemma HasRemote_holds r g c :
  holds g c -> HasRemote r g = Ret (inList r (sectionList c), g).
Proof.
  intros Hg. unfold HasRemote, mbind. by rewrite (ListRemotes_holds g c Hg).
Qed.

Lemma GetRemote_eq r g : GetRemote r g = Ret (newSection (config g) r, g).
Proof. reflexivity. Qed.

(** SetValue refuses the empty key, so CreateRemote changes nothing. *)
Lemma CreateRemote_holds r g c :
  holds g c -> CreateRemote r g = Ret (newSection (config g) r, g).
Proof.
  intros Hg. unfold CreateRemote, mbind, self_config. simpl.
  rewrite (call_holds _ g c Hg). unfold pure. rewrite SetValue_empty_key. simpl.
  by rewrite (update_id g c Hg).
Qed.

Lemma DeleteRemote_holds r g c :
  holds g c -> wf c ->
  exists c', DeleteRemote r g = Ret (tt, update g c') /\ wf c'
             /\ (sectionName r ∉ sectionList c')
             /\ data c' !! sectionName r = None.
Proof.
  intros Hg Hc. destruct (DeleteSection_wf r c Hc) as (b & c' & Hd & Hwf & Hn & Hdat).
  exists c'. split; [|done].
  unfold DeleteRemote, mbind, self_config. simpl.
  rewrite (call_holds _ g c Hg), Hd. done.
Qed.

Lemma getRemoteData_holds r g c :
  holds g c ->
  getRemoteData (newSection (config g) r) g =
    match GetSection r c with
    | (Some d, c') => Ret (d, update g c')
    | (None, _) => Fatal "couldnt load section"
    end.
Proof.
  intros Hg. unfold getRemoteData, mbind. simpl.
  rewrite (call_holds _ g c Hg). unfold pure. simpl.
  destruct (GetSection r c) as [[d|] c']; done.
Qed.

(** Reading a section that has no map ends the process. *)
Lemma getRemoteData_missing r g c :
  holds g c -> data c !! sectionName r = None ->
  getRemoteData (newSection (config g) r) g = Fatal "couldnt load section".
Proof.
  intros Hg Hr. rewrite (getRemoteData_holds r g c Hg).
  unfold GetSection. by rewrite Hr.
Qed.

Lemma SetString_holds r k v g c :
  holds g c ->
  SetString (newSection (config g) r) k v g = Ret (tt, update g (SetValue r k v c).2).
Proof.
  intros Hg. unfold SetString, mbind. simpl.
  by rewrite (call_holds _ g c Hg).
Qed.

Lemma Delete_holds r k g c :
  holds g c -> wf c ->
  exists b c', Delete (newSection (config g) r) k g = Ret (b, update g c')
               /\ wf c'.
Proof.
  intros Hg Hc. destruct (DeleteKey_wf r k c Hc) as (b & c' & Hd & Hwf & _).
  exists b, c'. split; [|done]. unfold Delete. simpl.
  by rewrite (call_holds _ g c Hg), Hd.
Qed.

Lemma copyLoop_holds destination entries g c :
  holds g c ->
  copyLoop destination entries g = Ret (tt, update g (copied destination entries c)).
Proof.
  revert g c. induction entries as [|[k v] es IH]; intros g c Hg; simpl.
  - by rewrite (update_id g c Hg).
  - unfold mbind, self_config. simpl. rewrite (call_holds _ g c Hg). simpl.
    rewrite (IH _ _ (holds_update g c _ Hg)).
    by rewrite update_update.
Qed.

Lemma copied_wf destination entries c : wf c -> wf (copied destination entries c).
Proof.
  revert c. induction entries as [|[k v] es IH]; intros c Hc; simpl; [done|].
  apply IH. by apply SetValue_wf.
Qed.

Lemma copied_keeps_sections destination entries c s :
  is_Some (data c !! s) -> is_Some (data (copied destination entries c) !! s).
Proof.
  revert c. induction entries as [|[k v] es IH]; intros c Hc; simpl; [done|].
  apply IH. by apply SetValue_keeps_sections.
Qed.

Lemma CopyRemote_holds source destination g c :
  holds g c ->
  CopyRemote source destination g =
    match GetSection source c with
    | (Some d, c') => Ret (tt, update g (copied destination (mapRange d) c'))
    | (None, _) => Fatal "couldnt load section"
    end.
Proof.
  intros Hg. unfold CopyRemote, mbind, self_config. simpl.
  rewrite (call_holds _ g c Hg). unfold pure. simpl.
  destruct (GetSection source c) as [[d|] c'] eqn:E; simpl; [|done].
  rewrite (copyLoop_holds _ _ _ c' (holds_update g c c' Hg)).
  by rewrite update_update.
Qed.

Lemma RenameRemote_holds oldName newName g c :
  holds g c -> wf c ->
  match GetSection oldName c with
  | (Some d, c1) =>
      exists c', RenameRemote oldName newName g = Ret (tt, update g c') /\ wf c'
                 /\ (sectionName oldName ∉ sectionList c')
                 /\ data c' !! sectionName oldName = None
  | (None, _) => RenameRemote oldName newName g = Fatal "couldnt load section"
  end.
Proof.
  intros Hg Hc. unfold RenameRemote, mbind, self_config.
  rewrite (CopyRemote_holds _ _ g c Hg).
  pose proof (GetSection_wf oldName c Hc) as Hwf1.
  destruct (GetSection oldName c) as [[d|] c1] eqn:E; simpl in *; [|done].
  set (c2 := copied newName (mapRange d) c1).
  assert (wf c2) as Hwf2 by by apply copied_wf.
  destruct (DeleteSection_wf oldName c2 Hwf2) as (b & c' & Hd & Hwf & Hn & Hdat).
  exists c'. split; [|done].
  rewrite (call_holds _ _ c2 (holds_update g c c2 Hg)), Hd. simpl.
  by rewrite update_update.
Qed.

(** Every call keeps the invariant of the ConfigFile the provider
    holds, and none panics. *)
Lemma perform_wf o g c :
  holds g c -> wf c ->
  (exists c', perform o g = Ret (tt, update g c') /\ wf c')
  \/ perform o g = Fatal "couldnt load section".
Proof.
  intros Hg Hc. destruct o as [r|r|a b|a b|r k v|r k|r k|r|r]; simpl.
  - left. exists c. unfold mbind. rewrite (CreateRemote_holds r g c Hg). simpl.
    by rewrite (update_id g c Hg).
  - left. destruct (DeleteRemote_holds r g c Hg Hc) as (c' & -> & Hwf & _). eauto.
  - pose proof (RenameRemote_holds a b g c Hg Hc) as Hr.
    destruct (GetSection a c) as [[d|] c1]; [|by right].
    left. destruct Hr as (c' & -> & Hwf & _). eauto.
  - rewrite (CopyRemote_holds a b g c Hg).
    pose proof (GetSection_wf a c Hc) as Hwf1.
    destruct (GetSection a c) as [[d|] c1]; [|by right].
    left. eexists. split; [done|]. by apply copied_wf.
  - left. unfold mbind. rewrite GetRemote_eq. simpl.
    rewrite (SetString_holds r k v g c Hg). eexists. split; [done|].
    by apply SetValue_wf.
  - left. unfold mbind. rewrite GetRemote_eq. simpl.
    destruct (Delete_holds r k g c Hg Hc) as (b & c' & -> & Hwf). simpl. eauto.
  - unfold mbind. rewrite GetRemote_eq. simpl. unfold GetString, mbind.
    rewrite (getRemoteData_holds r g c Hg).
    pose proof (GetSection_wf r c Hc) as Hwf1.
    destruct (GetSection r c) as [[d|] c1]; [|by right]. left. simpl. eauto.
  - unfold mbind. rewrite GetRemote_eq. simpl. unfold Keys, mbind.
    rewrite (getRemoteData_holds r g c Hg).
    pose proof (GetSection_wf r c Hc) as Hwf1.
    destruct (GetSection r c) as [[d|] c1]; [|by right]. left. simpl. eauto.
  - unfold mbind. rewrite GetRemote_eq. simpl. unfold GetConfig, mbind.
    rewrite (getRemoteData_holds r g c Hg).
    pose proof (GetSection_wf r c Hc) as Hwf1.
    destruct (GetSection r c) as [[d|] c1]; [|by right]. left. simpl. eauto.
Qed.

Lemma performAll_wf os g c g' :
  holds g c -> wf c -> performAll os g = Ret (tt, g') ->
  exists c', holds g' c' /\ wf c' /\ config g' = config g.
Proof.
  revert g c. induction os as [|o os IH]; intros g c Hg Hc; simpl.
  - intros [= <-]. eauto.
  - unfold mbind. destruct (perform_wf o g c Hg Hc) as [(c1 & -> & Hwf)| ->]; [|done].
    simpl. intros Hrest.
    destruct (IH _ _ (holds_update g c c1 Hg) Hwf Hrest) as (c' & ? & ? & Hcfg).
    exists c'. rewrite Hcfg, config_update. done.
Qed.

(** What Load puts in the provider satisfies the invariant. *)
Lemma Load_holds r g e g' :
  GoConfig_Load r g = Ret (e, g') ->
  e = None -> exists c, holds g' c /\ wf c.
Proof.
  unfold GoConfig_Load, LoadFromReader.
  destruct (parseINI r) as [es|]; simpl; [|by intros [= <- <-]].
  intros [= <- <-] _. exists (fromEntries es). split; [|apply fromEntries_wf].
  eexists. simpl. split; [done|]. by rewrite lookup_insert_eq.
Qed.

End WithLibrary.
End ProviderFacts.

(* --------------------------------------------------------------------- *)
(* Claims on the RemoteConfig of the goconfig provider                   *)
(* --------------------------------------------------------------------- *)
Module RemoteConfigClaims.
Import Goconfig GoconfigFacts GoConfigProvider ProviderFacts.

Lemma sample_holds : holds (Example.loaded Example.sampleText) (Example.read Example.sampleText).
Proof. exists 0. split; reflexivity. Qed.

Lemma sample_wf : wf (Example.read Example.sampleText).
Proof. apply fromEntries_wf. Qed.

Section WithLibrary.
Context `{Library}.

(** C8. Remote names are unique in the RemoteConfig that a provider
    holds, and stay unique after any sequence of calls. CreateRemote
    of a name that HasRemote reports leaves the provider as it was (no
    section is added, the list of remotes and every option are the
    same) and returns a handle on that section: a value written
    through it is what a new handle reads. After DeleteRemote(r),
    HasRemote(r) is false. *)
Theorem C8_names_unique (g : GoConfig) (c : ConfigFile) (r : string) :
  holds g c -> wf c ->
  (exists l, value (ListRemotes g) = Ret l /\ NoDup l)
  /\ (forall os g', performAll os g = Ret (tt, g') ->
        exists l, value (ListRemotes g') = Ret l /\ NoDup l)
  /\ (value (HasRemote r g) = Ret true ->
        exists h, CreateRemote r g = Ret (h, g)
          /\ remote h = r /\ s_config h = config g
          /\ forall k v, k <> "" -> k <> sectionKeeper ->
               value ((run SetString h k v in
                       let* h' := GetRemote r in GetString h' k) g) = Ret v)
  /\ (exists g', DeleteRemote r g = Ret (tt, g')
        /\ value (HasRemote r g') = Ret false).
Proof.
  intros Hg Hc. split; [|split; [|split]].
  - exists (sectionList c). rewrite (ListRemotes_holds g c Hg). split; [done|].
    apply Hc.
  - intros os g' Hrun.
    destruct (performAll_wf os g c g' Hg Hc Hrun) as (c' & Hg' & Hc' & _).
    exists (sectionList c'). rewrite (ListRemotes_holds g' c' Hg'). split; [done|].
    apply Hc'.
  - intros Hhas. exists (newSection (config g) r).
    split; [by apply (CreateRemote_holds r g c)|]. split; [done|]. split; [done|].
    intros k v Hk Hkeep. unfold mbind.
    rewrite (SetString_holds r k v g c Hg). simpl.
    set (c1 := (SetValue r k v c).2).
    pose proof (holds_update g c c1 Hg) as Hg1.
    unfold GetString, mbind.
    rewrite (getRemoteData_holds r _ c1 Hg1).
    destruct (SetValue_lookup r k v c Hk) as (sec & Hsec & Hv). fold c1 in Hsec.
    unfold GetSection. rewrite Hsec. simpl.
    rewrite lookup_delete_ne by done. by rewrite Hv.
  - destruct (DeleteRemote_holds r g c Hg Hc) as (c' & Hd & Hwf & Hn & Hdat).
    exists (update g c'). split; [done|].
    rewrite (HasRemote_holds r _ c' (holds_update g c c' Hg)). simpl.
    f_equal. apply inList_false.
    unfold sectionName in Hn, Hdat. case_decide as Hr; [|done].
    subst r. rewrite (wf_sections c' Hwf), (wf_named c' Hwf). by intros [? ?].
Qed.

(** C9, as amended. The empty name stands for the section DEFAULT, as
    goconfig reads it. For every name r for which, read that way,
    HasRemote is false, GetRemote(r) returns a handle, and Keys,
    GetString and GetConfig through it, and CopyRemote from r, end
    the process with log.Fatalf. *)
Theorem C9_missing_remote_reads_are_fatal (g : GoConfig) (c : ConfigFile) (r : string) :
  holds g c -> wf c ->
  value (HasRemote (sectionName r) g) = Ret false ->
  exists h, GetRemote r g = Ret (h, g)
    /\ Keys h g = Fatal "couldnt load section"
    /\ (forall k, GetString h k g = Fatal "couldnt load section")
    /\ GetConfig h g = Fatal "couldnt load section"
    /\ (forall d, CopyRemote r d g = Fatal "couldnt load section").
Proof.
  intros Hg Hc Hhas.
  rewrite (HasRemote_holds _ g c Hg) in Hhas. simpl in Hhas.
  injection Hhas as Hhas. apply inList_false in Hhas.
  assert (data c !! sectionName r = None) as Hnone.
  { destruct (data c !! sectionName r) eqn:E; [|done].
    exfalso. apply Hhas. apply (wf_sections c Hc). eauto. }
  exists (newSection (config g) r). split; [done|].
  pose proof (getRemoteData_missing r g c Hg Hnone) as Hdata.
  split; [|split; [|split]].
  - unfold Keys, mbind. by rewrite Hdata.
  - intros k. unfold GetString, mbind. by rewrite Hdata.
  - unfold GetConfig, mbind. by rewrite Hdata.
  - intros d. rewrite (CopyRemote_holds r d g c Hg).
    unfold GetSection. by rewrite Hnone.
Qed.

(** C10. For every remote r that HasRemote reports,
    RenameRemote(r, r) returns and removes the remote: afterwards
    HasRemote(r) is false, the remote is not listed and its section
    cannot be read any more. *)
Theorem C10_rename_to_itself_removes (g : GoConfig) (c : ConfigFile) (r : string) :
  holds g c -> wf c ->
  value (HasRemote r g) = Ret true ->
  exists g', RenameRemote r r g = Ret (tt, g')
    /\ value (HasRemote r g') = Ret false
    /\ (exists l, value (ListRemotes g') = Ret l /\ r ∉ l)
    /\ (forall k, (let* h := GetRemote r in GetString h k) g'
                  = Fatal "couldnt load section").
Proof.
  intros Hg Hc Hhas.
  rewrite (HasRemote_holds _ g c Hg) in Hhas. simpl in Hhas.
  injection Hhas as Hhas. apply inList_elem in Hhas.
  assert (r <> "") as Hr.
  { intros ->. apply (wf_sections c Hc) in Hhas.
    rewrite (wf_named c Hc) in Hhas. by destruct Hhas. }
  pose proof (sectionName_id r Hr) as Hname.
  apply (wf_sections c Hc) in Hhas. destruct Hhas as [sec Hsec].
  pose proof (RenameRemote_holds r r g c Hg Hc) as Hren.
  unfold GetSection in Hren. rewrite Hname, Hsec in Hren.
  destruct Hren as (c' & Hren & Hwf & Hn & Hdat).
  pose proof (holds_update g c c' Hg) as Hg'.
  exists (update g c'). split; [done|]. split; [|split].
  - rewrite (HasRemote_holds r _ c' Hg'). simpl. f_equal. by apply inList_false.
  - exists (sectionList c'). by rewrite (ListRemotes_holds _ c' Hg').
  - intros k. unfold mbind. rewrite GetRemote_eq. simpl.
    unfold GetString, mbind.
    rewrite (getRemoteData_missing r _ c' Hg'); [done|]. by rewrite Hname.
Qed.

End WithLibrary.

(** C8 on the provider that has read "[remote1]\ntype = local\n". *)
Lemma C8_names_unique_witness :
  holds (Example.loaded Example.sampleText) (Example.read Example.sampleText)
  /\ wf (Example.read Example.sampleText)
  /\ exists g', DeleteRemote "remote1" (Example.loaded Example.sampleText) = Ret (tt, g')
                /\ value (HasRemote "remote1" g') = Ret false.
Proof.
  split; [apply sample_holds|]. split; [apply sample_wf|].
  apply (C8_names_unique (Example.loaded Example.sampleText)
           (Example.read Example.sampleText) "remote1" sample_holds sample_wf).
Defined.

(** The claim C9 as stated fails for the empty name: the provider that
    has read "k = v\n" has no remote of that name, and the reads
    through GetRemote("") return the option of DEFAULT. *)
Lemma C9_counterexample :
  let g := Example.loaded Example.defaultText in
  value (HasRemote "" g) = Ret false
  /\ value ((let* h := GetRemote "" in GetString h "k") g) = Ret "v"
  /\ value ((let* h := GetRemote "" in Keys h) g) = Ret ["k"]
  /\ returns (CopyRemote "" "copy" g) = true.
Proof. vm_compute. repeat split. Qed.

(** C9 on the provider that has read "[remote1]\ntype = local\n", for
    the name "other". *)
Lemma C9_missing_remote_reads_are_fatal_witness :
  holds (Example.loaded Example.sampleText) (Example.read Example.sampleText)
  /\ wf (Example.read Example.sampleText)
  /\ value (HasRemote (sectionName "other") (Example.loaded Example.sampleText)) = Ret false
  /\ exists h, GetRemote "other" (Example.loaded Example.sampleText)
               = Ret (h, Example.loaded Example.sampleText)
      /\ Keys h (Example.loaded Example.sampleText) = Fatal "couldnt load section".
Proof.
  split; [apply sample_holds|]. split; [apply sample_wf|]. split; [reflexivity|].
  destruct (C9_missing_remote_reads_are_fatal (Example.loaded Example.sampleText)
              (Example.read Example.sampleText) "other" sample_holds sample_wf
              eq_refl) as (h & H1 & H2 & _).
  exists h. split; [exact H1 | exact H2].
Defined.

(** C10 on the provider that has read "[remote1]\ntype = local\n". *)
Lemma C10_rename_to_itself_removes_witness :
  holds (Example.loaded Example.sampleText) (Example.read Example.sampleText)
  /\ wf (Example.read Example.sampleText)
  /\ value (HasRemote "remote1" (Example.loaded Example.sampleText)) = Ret true
  /\ exists g', RenameRemote "remote1" "remote1" (Example.loaded Example.sampleText)
                = Ret (tt, g')
      /\ value (HasRemote "remote1" g') = Ret false.
Proof.
  split; [apply sample_holds|]. split; [apply sample_wf|]. split; [reflexivity|].
  destruct (C10_rename_to_itself_removes (Example.loaded Example.sampleText)
              (Example.read Example.sampleText) "remote1" sample_holds sample_wf
              eq_refl) as (g' & H1 & H2 & _).
  exists g'. split; [exact H1 | exact H2].
Defined.

End RemoteConfigClaims.

(* --------------------------------------------------------------------- *)
(* Facts about the Go library functions                                  *)
(* --------------------------------------------------------------------- *)
Module GoFacts.
Import Go.








End GoFacts.

(* --------------------------------------------------------------------- *)
(* saveConfig: every step keeps the invariant                            *)
(* --------------------------------------------------------------------- *)
Module SaveFacts.
Import Config.



Section WithProvider.
Context {P : Type} `{Provider P} `{Library}.




End WithProvider.
End SaveFacts.

(* --------------------------------------------------------------------- *)
(* Claims on saveConfig                                                  *)
(* --------------------------------------------------------------------- *)
Module SaveClaims.
Import Config SaveFacts.

Section WithProvider.
Context {P : Type} `{Provider P} `{Library}.









End WithProvider.




End SaveClaims.

(* --------------------------------------------------------------------- *)
(* The loops of loadConfigFile: ReadLine on short lines, termination     *)
(* --------------------------------------------------------------------- *)
Module LoadFacts.
Import Go Config.

Lemma IndexByte_not_in (l : bytes) (c : ascii) : c ∉ l -> IndexByte l c = None.
Proof.
induction l as [|x l IH]; intros Hn; simpl; [done|].
apply not_elem_of_cons in Hn as [Hx Hl]. case_decide; [by subst|].
by rewrite (IH Hl).
Qed.

Lemma IndexByte_app (l rest : bytes) (c : ascii) :
c ∉ l -> IndexByte (l ++ c :: rest) c = Some (length l).
Proof.
induction l as [|x l IH]; intros Hn; simpl.
- by case_decide.
- apply not_elem_of_cons in Hn as [Hx Hl]. case_decide; [by subst|].
by rewrite (IH Hl).
Qed.

Lemma IndexByte_lt (l : bytes) (c : ascii) (i : nat) :
IndexByte l c = Some i -> i < length l.
Proof.
revert i. induction l as [|x l IH]; intros i; simpl; [done|].
case_decide.
- intros [= <-]. lia.
- destruct (IndexByte l c) as [j|]; [|done]. simpl. intros [= <-].
specialize (IH j eq_refl). lia.
Qed.

(** A buffer is a last line without line feed, or a line, a line feed
and the rest. *)
Lemma split_at_LF (b : bytes) :
LF ∉ b \/ exists l rest, b = l ++ LF :: rest /\ LF ∉ l.
Proof.
induction b as [|x b IH].
- left. apply not_elem_of_nil.
- destruct (decide (x = LF)) as [->|Hx].
+ right. exists [], b. split; [done | apply not_elem_of_nil].
+ destruct IH as [Hn|(l & rest & -> & Hn)].
* left. by apply not_elem_of_cons.
* right. exists (x :: l), rest. split; [done | by apply not_elem_of_cons].
Qed.

(** Without its line feed, the line ReadLine returns is the line
without its carriage return. *)
Lemma dropEOL_line (l : bytes) : dropEOL (l ++ [LF]) = Spec.stripCR l.
Proof.
unfold dropEOL, Spec.stripCR. rewrite rev_app_distr. simpl.
destruct (rev l) as [|c' r] eqn:Hr.
- apply (f_equal (@rev ascii)) in Hr. rewrite rev_involutive in Hr. subst l.
done.
- apply (f_equal (@rev ascii)) in Hr. rewrite rev_involutive in Hr. simpl in Hr.
subst l. unfold dropLast.
rewrite !length_app. simpl. case_decide.
+ replace (length (rev r) + 1 + 1 - 2) with (length (rev r)) by lia.
rewrite <- app_assoc. by rewrite take_app_length.
+ rewrite take_app_length'; [done|]. rewrite length_app. simpl. lia.
Qed.

Lemma dropEOL_no_LF (l : bytes) : LF ∉ l -> dropEOL l = l.
Proof.
intros Hn. unfold dropEOL. destruct (rev l) as [|c [|c' r]] eqn:Hr; [done| |].
- apply (f_equal (@rev ascii)) in Hr. rewrite rev_involutive in Hr. simpl in Hr.
subst l. case_decide; [|done]. subst c. exfalso. apply Hn. by left.
- apply (f_equal (@rev ascii)) in Hr. rewrite rev_involutive in Hr. simpl in Hr.
subst l. case_decide; [|done]. subst c. exfalso. apply Hn.
apply elem_of_app. right. by left.
Qed.

(** ReadLine on a line that fits the buffer. *)
Lemma ReadLine_line (n : nat) (l rest : bytes) :
LF ∉ l -> length l < n ->
ReadLineSize n (l ++ LF :: rest)
= {| rl_line := Spec.stripCR l; rl_isPrefix := false; rl_eof := false;
rl_rest := rest |}.
Proof.
intros Hn Hlen. unfold ReadLineSize, ReadSlice.
assert (IndexByte (take n (l ++ LF :: rest)) LF = Some (length l)) as ->.
{ rewrite take_app_ge by lia.
destruct (n - length l) as [|k] eqn:Hk; [lia|]. simpl.
by apply IndexByte_app. }
replace (take (S (length l)) (l ++ LF :: rest)) with (l ++ [LF]).
2:{ replace (l ++ LF :: rest) with ((l ++ [LF]) ++ rest) by by rewrite <- app_assoc.
rewrite take_app_length'; [done|]. rewrite length_app. simpl. lia. }
replace (drop (S (length l)) (l ++ LF :: rest)) with rest.
2:{ replace (l ++ LF :: rest) with ((l ++ [LF]) ++ rest) by by rewrite <- app_assoc.
rewrite drop_app_length'; [done|]. rewrite length_app. simpl. lia. }
rewrite dropEOL_line. by destruct l.
Qed.

(** ReadLine on a last line that has no line feed and fits the buffer. *)
Lemma ReadLine_last (n : nat) (l : bytes) :
LF ∉ l -> l <> [] -> length l < n ->
ReadLineSize n l
= {| rl_line := l; rl_isPrefix := false; rl_eof := false; rl_rest := [] |}.
Proof.
intros Hn Hne Hlen. unfold ReadLineSize, ReadSlice.
rewrite take_ge by lia. rewrite (IndexByte_not_in l LF Hn).
destruct (n <=? length l) eqn:E; [apply Nat.leb_le in E; lia|].
destruct l; [done|]. by rewrite dropEOL_no_LF.
Qed.

(** ReadLine at the end of the buffer reports io.EOF. *)
Lemma ReadLine_end (n : nat) : 0 < n -> rl_eof (ReadLineSize n []) = true.
Proof. intros Hn. unfold ReadLineSize, ReadSlice. destruct n; [lia | done]. Qed.

Lemma linesFrom_line (l rest cur : bytes) :
LF ∉ l ->
Spec.linesFrom (l ++ LF :: rest) cur
= (Spec.stripCR (rev cur ++ l), rest) :: Spec.linesFrom rest [].
Proof.
revert cur. induction l as [|x l IH]; intros cur Hn; simpl.
- by rewrite app_nil_r.
- apply not_elem_of_cons in Hn as [Hx Hl]. rewrite decide_False by done.
rewrite (IH (x :: cur) Hl). simpl. by rewrite <- app_assoc.
Qed.

Lemma linesFrom_last (l cur : bytes) :
LF ∉ l -> Spec.linesFrom l cur = [(rev cur ++ l, [])].
Proof.
revert cur. induction l as [|x l IH]; intros cur Hn; simpl.
- by rewrite app_nil_r.
- apply not_elem_of_cons in Hn as [Hx Hl]. rewrite decide_False by done.
rewrite (IH (x :: cur) Hl). simpl. by rewrite <- app_assoc.
Qed.

Lemma shortLines_line (n : nat) (l rest : bytes) (cur : nat) :
LF ∉ l ->
Spec.shortLines n (l ++ LF :: rest) cur
= (cur + length l <? n) && Spec.shortLines n rest 0.
Proof.
revert cur. induction l as [|x l IH]; intros cur Hn; simpl.
- by rewrite Nat.add_0_r.
- apply not_elem_of_cons in Hn as [Hx Hl]. rewrite decide_False by done.
rewrite (IH (S cur) Hl). by replace (S cur + length l) with (cur + S (length l)) by lia.
Qed.

Lemma shortLines_last (n : nat) (l : bytes) (cur : nat) :
LF ∉ l -> Spec.shortLines n l cur = (cur + length l <? n).
Proof.
revert cur. induction l as [|x l IH]; intros cur Hn; simpl.
- by rewrite Nat.add_0_r.
- apply not_elem_of_cons in Hn as [Hx Hl]. rewrite decide_False by done.
rewrite (IH (S cur) Hl). by replace (S cur + length l) with (cur + S (length l)) by lia.
Qed.

(** The loop body and the specification agree on one line. *)
Lemma classifyLine_verdict (line : bytes) (rest : Reader) :
classifyLine line rest
= if Spec.significant line then Some (Spec.verdict (line, rest)) else None.
Proof.
unfold classifyLine, Spec.significant, Spec.verdict. cbn [fst snd].
destruct ((length (TrimSpace line) =? 0) || HasPrefix (TrimSpace line) (B ";")
|| HasPrefix (TrimSpace line) (B "#")); cbn [negb]; [done|].
destruct (bool_decide (TrimSpace line = B "RCLONE_ENCRYPT_V0:")); [done|].
by destruct (HasPrefix (TrimSpace line) (B "RCLONE_ENCRYPT_V")).
Qed.

(** On a buffer whose lines are all shorter than the buffer of the
bufio.Reader, the loop of loadConfigFile finds the mode of the first
significant line. *)
Lemma scanLines_short (n fuel : nat) (b : bytes) :
length b < fuel -> Spec.shortLines n b 0 = true ->
scanLines n fuel b = Some (Spec.classify b).
Proof.
unfold Spec.classify, Spec.firstSignificant, Spec.lines.
revert b. induction fuel as [|fuel IH]; intros b Hfuel Hshort; [lia|].
cbn [scanLines].
destruct (split_at_LF b) as [Hn|(l & rest & -> & Hn)].
- rewrite (shortLines_last n b 0 Hn) in Hshort. apply Nat.ltb_lt in Hshort.
rewrite (linesFrom_last b [] Hn). cbn [rev app List.find fst].
destruct b as [|x b].
+ rewrite ReadLine_end by lia. done.
+ rewrite (ReadLine_last n (x :: b) Hn) by (done || simpl in *; lia).
cbn [rl_eof rl_line rl_rest]. rewrite classifyLine_verdict.
destruct (Spec.significant (x :: b)); [done|].
destruct fuel as [|fuel]; [simpl in Hfuel; lia|].
cbn [scanLines]. rewrite ReadLine_end by lia. done.
- rewrite (shortLines_line n l rest 0 Hn) in Hshort.
apply andb_true_iff in Hshort as [Hl Hrest]. apply Nat.ltb_lt in Hl.
rewrite (linesFrom_line l rest [] Hn). cbn [rev app List.find fst].
rewrite (ReadLine_line n l rest Hn) by lia.
cbn [rl_eof rl_line rl_rest]. rewrite classifyLine_verdict.
destruct (Spec.significant (Spec.stripCR l)); [done|].
apply IH; [|done]. rewrite length_app in Hfuel. simpl in Hfuel. lia.
Qed.

(** Every call of ReadLine reports io.EOF or consumes a byte. *)
Lemma ReadLine_progress (n : nat) (r : Reader) :
2 <= n ->
rl_eof (ReadLineSize n r) = true
\/ length (rl_rest (ReadLineSize n r)) < length r.
Proof.
intros Hn. unfold ReadLineSize, ReadSlice.
destruct (IndexByte (take n r) LF) as [i|] eqn:Hi.
- right. apply IndexByte_lt in Hi. rewrite length_take in Hi.
assert (length (drop (S i) r) < length r) by (rewrite length_drop; lia).
by destruct (take (S i) r).
- destruct (n <=? length r) eqn:E.
+ right. apply Nat.leb_le in E.
assert (length (drop n r) + 1 < length r) by (rewrite length_drop; lia).
destruct (rev (take n r)) as [|c t]; [cbn [rl_rest]; lia|].
case_decide; cbn [rl_rest length]; lia.
+ destruct r as [|x r]; [by left|]. right. cbn [rl_rest length]. lia.
Qed.

(** The loop over the first lines ends within the fuel it is given. *)
Lemma scanLines_total (n fuel : nat) (r : Reader) :
2 <= n -> length r < fuel -> is_Some (scanLines n fuel r).
Proof.
intros Hn. revert r. induction fuel as [|fuel IH]; intros r Hfuel; [lia|].
cbn [scanLines]. destruct (rl_eof (ReadLineSize n r)) eqn:Heof; [by eexists|].
destruct (classifyLine _ _); [by eexists|].
apply IH. destruct (ReadLine_progress n r Hn) as [He|Hlt]; [congruence | lia].
Qed.

Section WithProvider.
Context {P : Type} `{Provider P} `{Library}.

(** The prompt consumes input and leaves the files and the environment
as they are. *)
Lemma askPassword_frame (input : list bytes) (st st' : State P) :
askPassword input st = Ret st' ->
length (stdin st') < length input
/\ environ st' = environ st /\ files st' = files st.
Proof.
revert st. induction input as [|pw rest IH]; intros st; simpl; [done|].
unfold setConfigPassword. destruct (passwordHash pw) as [k|].
- intros [= <-]. simpl. split; [lia | done].
- intros Hrec. destruct (IH _ Hrec) as (Hlen & Henv & Hfiles). simpl in *.
split; [lia | done].
Qed.

(** A pass that ends in a failed decryption leaves fewer passes. *)
Lemma acquireKey_passes (st st1 : State P) (e : event) :
acquireKey st = Ret (None, st1) ->
passes (set_configKey [] (log e st1)) < passes st.
Proof.
unfold acquireKey, passes, Getenv, ReadFile, Remove, getConfigPassword,
set_configKey, set_files, log.
cbn [environ files stdin configKey length Nat.eqb].
set (f := default "" (environ st !! "_RCLONE_CONFIG_KEY_FILE")).
destruct (0 <? String.length f) eqn:Hf.
- destruct (files st !! f) as [kf|] eqn:Hkf; [|done].
cbn [fmap option_fmap option_map].
destruct (obscure_MustReveal (content kf)) as [k|m|m]; [|done|done].
cbn [obind]. intros [= <-].
cbn [environ files stdin configKey]. fold f. rewrite Hf.
rewrite lookup_delete_eq. lia.
- destruct (length (configKey st) =? 0) eqn:Hk.
+ destruct (negb (AskPassword st)); [done|].
destruct (askPassword (stdin st) st) as [st2|m|m] eqn:Hask; [|done|done].
cbn [obind]. intros [= <-].
destruct (askPassword_frame _ _ _ Hask) as (Hlen & Henv & Hfiles).
cbn [environ files stdin configKey]. rewrite Henv. fold f. rewrite Hf. lia.
+ intros [= <-]. cbn [environ files stdin configKey]. fold f. rewrite Hf. lia.
Qed.

(** The decryption loop ends within the passes counted. *)
Lemma decryptLoop_total (fuel : nat) (box : bytes) (st : State P) :
passes st <= fuel -> is_Some (decryptLoop fuel box st).
Proof.
revert st. induction fuel as [|fuel IH]; intros st Hfuel.
- exfalso. revert Hfuel. unfold passes.
destruct (0 <? _); [destruct (files st !! _)|destruct (_ =? 0)]; lia.
- cbn [decryptLoop].
destruct (acquireKey st) as [[[e|] st1]|m|m] eqn:Hacq; try by eexists.
destruct (length (configKey st1) <? 32); [by eexists|].
destruct (secretbox_Open _ _ _); [by eexists|].
apply IH. pose proof (acquireKey_passes st st1 (EvOpen (take 32 (configKey st1))) Hacq).
lia.
Qed.

Lemma passes_decryptFuel (st : State P) : passes st <= decryptFuel st.
Proof.
unfold passes, decryptFuel.
destruct (0 <? _); [destruct (files st !! _)|destruct (_ =? 0)]; lia.
Qed.

(** loadConfigFile always comes to an end: it returns, or the process
is terminated. *)
Lemma loadConfigFile_ends (st : State P) : is_Some (loadConfigFile st).
Proof.
unfold loadConfigFile, loadConfigFileSize.
destruct (ReadFile _ _) as [b|]; [|by eexists].
destruct (scanLines_total defaultBufSize (S (length b)) b) as [[| |r] ->];
[unfold defaultBufSize; lia | lia | by eexists | by eexists |].
unfold loadEncrypted. destruct (base64_ReadAll r) as [box|]; [|by eexists].
destruct (length box <? 24 + Overhead); [by eexists|].
destruct (decryptLoop_total (decryptFuel (useEnvPassword st)) box (useEnvPassword st)
(passes_decryptFuel _)) as [[[[[e|] out] st1]|m|m] ->]; by eexists.
Qed.

(** The same for LoadConfig. *)
Lemma LoadConfig_ends (st : State P) : is_Some (LoadConfig st).
Proof.
unfold LoadConfig. destruct (selectProvider _ _ _) as [p|m|m]; try by eexists.
destruct (loadConfigFile_ends (set_provider p st)) as [[[[e|] st1]|m|m] ->];
try by eexists.
by destruct (decide (e = errorConfigFileNotFound)); eexists.
Qed.

(** loadConfigFile and LoadConfig are total: whatever the files, the
environment, the key in memory and the passwords typed, the loop over
the first lines and the decryption loop end within the fuel the model
gives them. *)
Theorem loadConfigFile_total (st : State P) :
is_Some (loadConfigFile st) /\ is_Some (LoadConfig st).
Proof. split; [apply loadConfigFile_ends | apply LoadConfig_ends]. Qed.

(** On a config file whose lines are all shorter than the 4096 bytes of
the bufio.Reader, loadConfigFile goes by the first significant line:
plaintext is handed to provider.Load whole, an unknown sentinel version
is refused without decryption, and after the version-0 sentinel the
rest of the file is taken as the encrypted blob. *)
Theorem loadConfigFile_classifies (st : State P) (b : bytes) :
ReadFile (ConfigPath st) st = Some b ->
Spec.shortLines defaultBufSize b 0 = true ->
loadConfigFile st =
match Spec.classify b with
| Plaintext => Some (providerLoad b (useEnvPassword st))
| Unsupported => Some (Ret (Some ErrUnsupportedEncryption, useEnvPassword st))
| Encrypted r => loadEncrypted r (useEnvPassword st)
end.
Proof.
intros Hb Hshort. unfold loadConfigFile, loadConfigFileSize.
assert (ReadFile (ConfigPath (useEnvPassword st)) (useEnvPassword st) = Some b) as ->.
{ unfold ReadFile in *. unfold useEnvPassword, setConfigPassword.
destruct (_ && _); [|done]. by destruct (passwordHash _). }
rewrite (scanLines_short defaultBufSize (S (length b)) b) by (lia || done).
by destruct (Spec.classify b).
Qed.

End WithProvider.

(** On "[remote1]\ntype = local\n": plaintext, loaded whole. *)
Lemma loadConfigFile_classifies_witness :
let st := Example.loading Example.sampleText ∅ ∅ [] false [] in
ReadFile (ConfigPath st) st = Some Example.sampleText
/\ Spec.shortLines defaultBufSize Example.sampleText 0 = true
/\ Spec.classify Example.sampleText = Plaintext
/\ loadConfigFile st = Some (providerLoad Example.sampleText (useEnvPassword st)).
Proof.
cbn zeta.
assert (ReadFile Example.path (Example.loading Example.sampleText ∅ ∅ [] false [])
= Some Example.sampleText) as Hb by (vm_compute; reflexivity).
assert (Spec.shortLines defaultBufSize Example.sampleText 0 = true) as Hs
by (vm_compute; reflexivity).
split; [exact Hb|]. split; [exact Hs|]. split; [vm_compute; reflexivity|].
exact (loadConfigFile_classifies
(Example.loading Example.sampleText ∅ ∅ [] false []) Example.sampleText Hb Hs).
Defined.

End LoadFacts.

(* --------------------------------------------------------------------- *)
(* Claims on LoadConfig and loadConfigFile                               *)
(* --------------------------------------------------------------------- *)
Module LoadClaims.
Import Config.

Section WithProvider.
Context {P : Type} `{Provider P} `{Library}.

(** RCLONE_CONFIG_PASS can set the key and touches nothing else. *)
Lemma useEnvPassword_frame (st : State P) :
files (useEnvPassword st) = files st
/\ ConfigPath (useEnvPassword st) = ConfigPath st
/\ events (useEnvPassword st) = events st
/\ stdin (useEnvPassword st) = stdin st
/\ environ (useEnvPassword st) = environ st
/\ AskPassword (useEnvPassword st) = AskPassword st
/\ provider (useEnvPassword st) = provider st.
Proof.
unfold useEnvPassword, setConfigPassword.
destruct ((length (configKey st) =? 0) && negb (bool_decide (Getenv "RCLONE_CONFIG_PASS" st = "")));
[|done].
destruct (passwordHash (B (Getenv "RCLONE_CONFIG_PASS" st))); done.
Qed.

Lemma isEncrypted_useEnvPassword (st : State P) (r : Go.Reader) :
isEncrypted st r -> isEncrypted (useEnvPassword st) r.
Proof.
destruct (useEnvPassword_frame st) as (Hf & Hp & _).
intros (b & Hb & Hs). exists b. split; [|done].
unfold ReadFile in *. by rewrite Hf, Hp.
Qed.

(** In encrypted mode loadConfigFile is the encrypted branch. *)
Lemma loadConfigFile_encrypted (st : State P) (r : Go.Reader) :
isEncrypted st r ->
loadConfigFile st = loadEncrypted r (useEnvPassword st).
Proof.
intros (b & Hb & Hs)%isEncrypted_useEnvPassword.
unfold loadConfigFile, loadConfigFileSize. by rewrite Hb, Hs.
Qed.

(** C6. In encrypted mode, when the blob after the sentinel decodes to
fewer than 24 bytes plus the length of the authentication tag,
loadConfigFile returns the "Configuration data too short" error, and
nothing was done for a key or for decryption: no handoff file was
read or removed, nobody was asked, secretbox.Open was not called (the
events are those of the start), and the files and the input are
untouched. *)
Theorem C6_short_blob_is_refused (st : State P) (r : Go.Reader) (box : bytes) :
isEncrypted st r ->
base64_ReadAll r = Some box ->
length box < 24 + Overhead ->
exists st', loadConfigFile st = Some (Ret (Some ErrTooShort, st'))
/\ events st' = events st /\ files st' = files st /\ stdin st' = stdin st.
Proof.
intros Henc Hbox Hlen. exists (useEnvPassword st).
destruct (useEnvPassword_frame st) as (Hf & _ & He & Hi & _).
split; [|done].
rewrite (loadConfigFile_encrypted st r Henc). unfold loadEncrypted.
rewrite Hbox. apply Nat.ltb_lt in Hlen. by rewrite Hlen.
Qed.

(** C7, as amended. In encrypted mode with a blob that decodes to at
least 24 bytes plus the tag length, when no key is in memory as
decryption starts, the environment names no handoff key file and
AskPassword is false, loadConfigFile returns the "not allowed to ask
for password" error; nobody was asked and secretbox.Open was not
called. *)
Theorem C7_no_password_available (st : State P) (r : Go.Reader) (box : bytes) :
isEncrypted st r ->
base64_ReadAll r = Some box ->
24 + Overhead <= length box ->
configKey (useEnvPassword st) = [] ->
Getenv "_RCLONE_CONFIG_KEY_FILE" st = "" ->
AskPassword st = false ->
exists st', loadConfigFile st = Some (Ret (Some ErrNoPassword, st'))
/\ events st' = events st /\ files st' = files st /\ stdin st' = stdin st.
Proof.
intros Henc Hbox Hlen Hkey Henv Hask. exists (useEnvPassword st).
destruct (useEnvPassword_frame st) as (Hf & _ & He & Hi & Hen & Ha & _).
split; [|done].
rewrite (loadConfigFile_encrypted st r Henc). unfold loadEncrypted.
rewrite Hbox. apply Nat.ltb_ge in Hlen. rewrite Hlen.
unfold decryptFuel. rewrite Nat.add_comm. cbn [Nat.add decryptLoop].
unfold acquireKey, Getenv in *. rewrite Hen, Henv, Hkey, Ha, Hask. done.
Qed.


End WithProvider.

(** The claim C1 fails on a long line. The text starts with a comment
line of 4096 bytes that goes on, on the same line, with
"RCLONE_ENCRYPT_V7:"; its first significant line is "[remote1]", so by
the claim it is plaintext and goes to provider.Load. ReadLine hands the
line out in two pieces, the second piece is taken for a line of its
own, and loadConfigFile returns the unsupported-encryption error
without calling provider.Load. *)
Theorem C1_long_line_is_misread :
let st := Example.loading Example.longLineText ∅ ∅ [] false [] in
(Spec.firstSignificant Example.longLineText
= Some (B "[remote1]", B "type = local" ++ [Go.LF])
/\ Spec.classify Example.longLineText = Plaintext)
/\ errorOf (loadConfigFile st) = Some (Ret (Some ErrUnsupportedEncryption))
/\ eventsOf (loadConfigFile st) = [].
Proof. vm_compute. repeat split. Qed.

(** The claim C4 fails where the file is missing. With the goconfig
provider registered and no file at the config path, LoadConfig
returns without an error, but provider.Load was never called: the
provider's ConfigFile pointer is nil, and ListRemotes and HasRemote
panic on it where the claim has them return an empty list and
false. *)
Theorem C4_missing_file_leaves_nil_config :
let st := Example.start Example.path ∅ ∅ [] false [] in
exists st', LoadConfig st = Some (Ret st')
/\ provider st' = Some GoConfigProvider.NewGoConfigProvider
/\ events st' = []
/\ GoConfigProvider.ListRemotes GoConfigProvider.NewGoConfigProvider
= Panic "invalid memory address or nil pointer dereference"
/\ GoConfigProvider.HasRemote "remote1" GoConfigProvider.NewGoConfigProvider
= Panic "invalid memory address or nil pointer dereference".
Proof. cbn zeta. eexists. vm_compute. repeat split. Qed.

(** C6 on the file "RCLONE_ENCRYPT_V0:\nAAAA\n", whose blob decodes to
3 bytes. *)
Lemma C6_short_blob_is_refused_witness :
let st := Example.loading Example.shortBlobText ∅ ∅ [] true [B "secret"] in
isEncrypted st (B "AAAA" ++ [Go.LF])
/\ base64_ReadAll (B "AAAA" ++ [Go.LF]) = Some (repeat "000"%char 3)
/\ length (repeat "000"%char 3) < 24 + Overhead
/\ exists st', loadConfigFile st = Some (Ret (Some ErrTooShort, st'))
/\ events st' = events st /\ files st' = files st /\ stdin st' = stdin st.
Proof.
cbn zeta.
assert (isEncrypted (Example.loading Example.shortBlobText ∅ ∅ [] true [B "secret"])
(B "AAAA" ++ [Go.LF])) as Henc.
{ exists Example.shortBlobText. split; vm_compute; reflexivity. }
assert (base64_ReadAll (B "AAAA" ++ [Go.LF]) = Some (repeat "000"%char 3)) as Hbox
by (vm_compute; reflexivity).
assert (length (repeat "000"%char 3) < 24 + Overhead) as Hlen by (vm_compute; lia).
split; [exact Henc|]. split; [exact Hbox|]. split; [exact Hlen|].
exact (C6_short_blob_is_refused _ _ _ Henc Hbox Hlen).
Defined.

(** The claim C7 as stated fails on that file: it is in encrypted mode,
no key is in memory, no handoff file is named and AskPassword is
false, and the error is "Configuration data too short", not the
no-password error. *)
Lemma C7_counterexample :
let st := Example.loading Example.shortBlobText ∅ ∅ [] false [] in
configKey st = [] /\ Getenv "_RCLONE_CONFIG_KEY_FILE" st = ""
/\ AskPassword st = false
/\ scanLines Go.defaultBufSize (S (length Example.shortBlobText)) Example.shortBlobText
= Some (Encrypted (B "AAAA" ++ [Go.LF]))
/\ errorOf (loadConfigFile st) = Some (Ret (Some ErrTooShort)).
Proof. vm_compute. repeat split. Qed.

(** C7 on the file that saveConfig writes under a key, loaded by a
process that has no key and may not ask. *)
Lemma C7_no_password_available_witness :
let st := Example.loading (Example.encryptedText Example.key2) ∅ ∅ [] false [] in
exists r box,
isEncrypted st r /\ base64_ReadAll r = Some box /\ 24 + Overhead <= length box
/\ configKey (useEnvPassword st) = []
/\ Getenv "_RCLONE_CONFIG_KEY_FILE" st = ""
/\ AskPassword st = false
/\ exists st', loadConfigFile st = Some (Ret (Some ErrNoPassword, st'))
/\ events st' = events st /\ files st' = files st /\ stdin st' = stdin st.
Proof.
cbn zeta.
set (st := Example.loading (Example.encryptedText Example.key2) ∅ ∅ [] false []).
set (r := drop 58 (Example.encryptedText Example.key2)).
set (box := default [] (base64_ReadAll r)).
assert (isEncrypted st r) as Henc.
{ exists (Example.encryptedText Example.key2). split; vm_compute; reflexivity. }
assert (base64_ReadAll r = Some box) as Hbox by (vm_compute; reflexivity).
assert (24 + Overhead <= length box) as Hlen by (vm_compute; lia).
exists r, box.
split; [exact Henc|]. split; [exact Hbox|]. split; [exact Hlen|].
split; [reflexivity|]. split; [reflexivity|]. split; [reflexivity|].
exact (C7_no_password_available st r box Henc Hbox Hlen eq_refl eq_refl eq_refl).
Defined.



(** A config path without extension: the slice expression
path.Ext(ConfigPath)[1:] of LoadConfig panics as soon as a provider is
registered. *)
Lemma LoadConfig_without_extension :
LoadConfig (Example.start "/home/user/rclone" ∅ ∅ [] false [])
= Some (Panic "slice bounds out of range").
Proof. vm_compute. reflexivity. Qed.

End LoadClaims.

(* --------------------------------------------------------------------- *)
(* The options of a remote under the operations of the container         *)
(* --------------------------------------------------------------------- *)
Module SectionFacts.
Import Goconfig GoconfigFacts GoConfigProvider ProviderFacts ConfigAPI.

Lemma GetSection_options r c : (GetSection r c).1 = options c r.
Proof. unfold GetSection, options. by destruct (data c !! sectionName r). Qed.

(** Removing the keeper key does not change what the reads see. *)
Lemma options_GetSection r c r' : options (GetSection r c).2 r' = options c r'.
Proof.
unfold GetSection, options. destruct (data c !! sectionName r) as [sec|] eqn:Hs; [|done].
simpl. destruct (decide (sectionName r = sectionName r')) as [Heq|Hne].
- rewrite <- Heq, lookup_insert_eq, Hs. simpl. f_equal.
  apply map_eq. intros k. destruct (decide (k = sectionKeeper)) as [->|].
  + by rewrite !lookup_delete_eq.
  + by rewrite !lookup_delete_ne.
- by rewrite lookup_insert_ne.
Qed.

Lemma options_is_Some c r : is_Some (options c r) <-> is_Some (data c !! sectionName r).
Proof. unfold options. by rewrite fmap_is_Some. Qed.

(** Under the invariant a remote is listed exactly when it has options
to read. *)
Lemma listed_options c r :
wf c -> inList (sectionName r) (sectionList c) = true <-> is_Some (options c r).
Proof.
intros Hc. rewrite inList_elem, options_is_Some. apply (wf_sections c Hc).
Qed.

Lemma unlisted_options c r :
wf c -> inList (sectionName r) (sectionList c) = false <-> options c r = None.
Proof.
intros Hc. rewrite inList_false, (wf_sections c Hc), <- options_is_Some.
rewrite eq_None_not_Some. done.
Qed.

Lemma options_SetValue_same r k v c :
k <> "" -> k <> sectionKeeper ->
options (SetValue r k v c).2 r = Some (<[k := v]> (default ∅ (options c r))).
Proof.
intros Hk Hkeep. unfold SetValue, options. case_decide; [done|]. simpl.
rewrite lookup_insert_eq. simpl. f_equal.
destruct (data c !! sectionName r) as [sec|] eqn:Hs; simpl.
- rewrite Hs. simpl. by rewrite delete_insert_ne.
- rewrite lookup_insert_eq. simpl. rewrite delete_insert_ne by done.
  by rewrite !delete_empty.
Qed.

Lemma options_SetValue_other r k v c r' :
sectionName r' <> sectionName r -> options (SetValue r k v c).2 r' = options c r'.
Proof.
intros Hne. unfold SetValue, options. case_decide; [done|]. simpl.
rewrite lookup_insert_ne by done.
destruct (data c !! sectionName r); simpl; [done|]. by rewrite lookup_insert_ne.
Qed.

(** SetValue on one key leaves the other options of every section. *)
Lemma options_SetValue_lookup r k v c r' k' :
k' <> k ->
default ∅ (options (SetValue r k v c).2 r') !! k' = default ∅ (options c r') !! k'.
Proof.
intros Hk. destruct (decide (sectionName r' = sectionName r)) as [Heq|Hne];
[|by rewrite options_SetValue_other].
unfold SetValue, options. rewrite Heq. case_decide; [done|]. simpl.
rewrite lookup_insert_eq. simpl.
destruct (decide (k' = sectionKeeper)) as [->|Hkeep].
{ rewrite lookup_delete_eq. destruct (data c !! sectionName r); simpl;
  [by rewrite lookup_delete_eq | done]. }
rewrite lookup_delete_ne, lookup_insert_ne by done.
destruct (data c !! sectionName r) as [sec|] eqn:Hs; simpl.
- rewrite Hs. simpl. by rewrite lookup_delete_ne.
- rewrite lookup_insert_eq. simpl. by rewrite !lookup_empty.
Qed.

(** SetValue never removes a section. *)
Lemma options_SetValue_keeps r k v c r' :
is_Some (options c r') -> is_Some (options (SetValue r k v c).2 r').
Proof. rewrite !options_is_Some. apply SetValue_keeps_sections. Qed.

Lemma sectionList_SetValue r k v c :
k <> "" ->
sectionList (SetValue r k v c).2
= match data c !! sectionName r with
  | Some _ => sectionList c
  | None => sectionList c ++ [sectionName r]
  end.
Proof.
intros Hk. unfold SetValue. case_decide; [done|]. simpl.
by destruct (data c !! sectionName r).
Qed.

Lemma filter_ne_id (x : string) (l : list string) :
x ∉ l -> filter (fun y => y <> x) l = l.
Proof.
induction l as [|y l IH]; intros Hn; [done|].
apply not_elem_of_cons in Hn as [Hx Hl].
rewrite filter_cons_True by done. by rewrite IH.
Qed.

Lemma filter_ne_remove (x : string) (l1 l2 : list string) :
x ∉ l1 -> x ∉ l2 -> filter (fun y => y <> x) (l1 ++ x :: l2) = l1 ++ l2.
Proof.
intros H1 H2. rewrite filter_app, filter_cons_False by (intros Hx; by apply Hx).
by rewrite !filter_ne_id.
Qed.

(** DeleteSection under the invariant: the section goes, the others
stay as they are. *)
Lemma DeleteSection_spec r c :
wf c ->
exists b c', DeleteSection r c = Ret (b, c') /\ wf c'
/\ sectionList c' = filter (fun n => n <> sectionName r) (sectionList c)
/\ options c' r = None
/\ (forall r', sectionName r' <> sectionName r -> options c' r' = options c r')
/\ (b = false -> c' = c).
Proof.
intros Hc. destruct (DeleteSection_wf r c Hc) as (b & c' & Hd & Hwf & Hn & Hdat).
exists b, c'. split; [done|]. split; [done|].
destruct Hc as [Hnd Hsec Hnam Hkeys]. unfold DeleteSection in Hd.
set (s := sectionName r) in *.
destruct (data c !! s) as [sec|] eqn:Hs.
- assert (s ∈ sectionList c) as Hin by (rewrite Hsec, Hs; eauto).
  destruct (removeAt_indexOf _ _ Hin) as (l1 & l2 & Hl & Hn1 & Hrm).
  rewrite Hrm in Hd. simpl in Hd. injection Hd as <- <-. simpl.
  rewrite Hl in Hnd. apply NoDup_app in Hnd as (_ & _ & Hnd2).
  apply NoDup_cons in Hnd2 as [Hn2 _].
  split; [by rewrite Hl, filter_ne_remove|].
  split; [by unfold options; fold s; simpl; rewrite lookup_delete_eq|].
  split; [|done].
  intros r' Hne. unfold options. simpl. by rewrite lookup_delete_ne.
- injection Hd as <- <-.
  split; [rewrite filter_ne_id; [done|]; rewrite Hsec, Hs; by intros [? ?]|].
  split; [by unfold options; fold s; rewrite Hs|]. done.
Qed.


Section WithLibrary.
Context `{Library}.

Lemma mapRange_NoDup (d : gmap string string) : NoDup (mapRange d).*1.
Proof.
rewrite (mapRange_perm d). apply NoDup_fst_map_to_list.
Qed.

Lemma mapRange_elem (d : gmap string string) k v :
(k, v) ∈ mapRange d <-> d !! k = Some v.
Proof. rewrite (mapRange_perm d). apply elem_of_map_to_list. Qed.

Lemma mapRange_keys (d : gmap string string) k :
k ∈ (mapRange d).*1 <-> is_Some (d !! k).
Proof.
rewrite list_elem_of_fmap. split.
- intros ([k' v] & -> & Hin). apply mapRange_elem in Hin. eauto.
- intros [v Hv]. exists (k, v). split; [done|]. by apply mapRange_elem.
Qed.

(** The loop of Keys collects the first components. *)
Lemma keys_loop (l : list (string * string)) (acc : list string) :
foldl (fun keys kv => keys ++ [kv.1]) acc l = acc ++ l.*1.
Proof.
revert acc. induction l as [|kv l IH]; intros acc; simpl.
- by rewrite app_nil_r.
- rewrite IH. by rewrite <- app_assoc.
Qed.

(** The loop of GetConfig rebuilds the map it ranges over. *)
Lemma config_loop (l : list (string * string)) (m : gmap string string) :
NoDup l.*1 ->
foldl (fun m kv => <[kv.1 := kv.2]> m) m l = list_to_map l ∪ m.
Proof.
revert m. induction l as [|[k v] l IH]; intros m Hnd.
- simpl. by rewrite (left_id_L ∅ (∪)).
- apply NoDup_cons in Hnd as [Hk Hnd]. cbn [foldl fst snd]. rewrite (IH _ Hnd).
  rewrite list_to_map_cons, <- insert_union_l.
  rewrite insert_union_r; [done|]. by apply not_elem_of_list_to_map_1.
Qed.

Lemma config_loop_mapRange (d : gmap string string) :
foldl (fun m kv => <[kv.1 := kv.2]> m) ∅ (mapRange d) = d.
Proof.
rewrite config_loop by apply mapRange_NoDup. rewrite (right_id_L ∅ (∪)).
rewrite <- (list_to_map_to_list d) at 2.
apply list_to_map_proper; [apply mapRange_NoDup | apply mapRange_perm].
Qed.

(** getRemoteData in terms of the options. *)
Lemma getRemoteData_options r g c :
holds g c ->
getRemoteData (newSection (config g) r) g
= match options c r with
  | Some d => Ret (d, update g (GetSection r c).2)
  | None => Fatal "couldnt load section"
  end.
Proof.
intros Hg. rewrite (getRemoteData_holds r g c Hg).
rewrite <- GetSection_options. by destruct (GetSection r c) as [[d|] c'].
Qed.

Lemma getOption_value r k g c :
holds g c ->
value (getOption r k g)
= match options c r with
  | Some d => Ret (default "" (d !! k))
  | None => Fatal "couldnt load section"
  end.
Proof.
intros Hg. unfold getOption, mbind. rewrite GetRemote_eq. simpl.
unfold GetString, mbind. rewrite (getRemoteData_options r g c Hg).
destruct (options c r) as [d|]; [|done]. simpl. by destruct (d !! k).
Qed.

Lemma Keys_value r g c :
holds g c ->
value ((let* h := GetRemote r in Keys h) g)
= match options c r with
  | Some d => Ret (mapRange d).*1
  | None => Fatal "couldnt load section"
  end.
Proof.
intros Hg. unfold mbind. rewrite GetRemote_eq. simpl.
unfold Keys, mbind. rewrite (getRemoteData_options r g c Hg).
destruct (options c r) as [d|]; [|done]. simpl. by rewrite keys_loop.
Qed.

Lemma GetConfig_value r g c :
holds g c ->
value ((let* h := GetRemote r in GetConfig h) g)
= match options c r with
  | Some d => Ret d
  | None => Fatal "couldnt load section"
  end.
Proof.
intros Hg. unfold mbind. rewrite GetRemote_eq. simpl.
unfold GetConfig, mbind. rewrite (getRemoteData_options r g c Hg).
destruct (options c r) as [d|]; [|done]. simpl. by rewrite config_loop_mapRange.
Qed.

Lemma HasRemote_value r g c :
holds g c -> value (HasRemote r g) = Ret (inList r (sectionList c)).
Proof. intros Hg. by rewrite (HasRemote_holds r g c Hg). Qed.

Lemma ListRemotes_value g c :
holds g c -> value (ListRemotes g) = Ret (sectionList c).
Proof. intros Hg. by rewrite (ListRemotes_holds g c Hg). Qed.

Lemma setOption_holds r k v g c :
holds g c -> setOption r k v g = Ret (tt, update g (SetValue r k v c).2).
Proof.
intros Hg. unfold setOption, mbind. rewrite GetRemote_eq. simpl.
apply (SetString_holds r k v g c Hg).
Qed.

(** The copy loop on the options of the destination. *)
Lemma copied_options_other dst l c r' :
sectionName r' <> sectionName dst -> options (copied dst l c) r' = options c r'.
Proof.
intros Hne. revert c. induction l as [|[k v] l IH]; intros c; simpl; [done|].
rewrite IH. by apply options_SetValue_other.
Qed.

Lemma copied_options_keeps dst l c r' :
is_Some (options c r') -> is_Some (options (copied dst l c) r').
Proof.
revert c. induction l as [|[k v] l IH]; intros c Hc; simpl; [done|].
apply IH. by apply options_SetValue_keeps.
Qed.

Lemma copied_options_lookup dst l c r' k :
k ∉ l.*1 ->
default ∅ (options (copied dst l c) r') !! k = default ∅ (options c r') !! k.
Proof.
revert c. induction l as [|[k0 v0] l IH]; intros c Hk; simpl; [done|].
simpl in Hk. apply not_elem_of_cons in Hk as [Hk0 Hk].
rewrite (IH _ Hk). by apply options_SetValue_lookup.
Qed.

Lemma copied_options_copy dst l c k v :
NoDup l.*1 -> (k, v) ∈ l -> k <> "" -> k <> sectionKeeper ->
exists m, options (copied dst l c) dst = Some m /\ m !! k = Some v.
Proof.
revert c. induction l as [|[k0 v0] l IH]; intros c Hnd Hin Hk Hkeep; simpl.
- by apply elem_of_nil in Hin.
- simpl in Hnd. apply NoDup_cons in Hnd as [Hk0 Hnd].
  apply elem_of_cons in Hin as [[= <- <-]|Hin]; [|by apply IH].
  pose proof (options_SetValue_same dst k v c Hk Hkeep) as Hset.
  destruct (copied_options_keeps dst l (SetValue dst k v c).2 dst) as [m Hm];
  [rewrite Hset; eauto|].
  exists m. split; [done|].
  pose proof (copied_options_lookup dst l (SetValue dst k v c).2 dst k Hk0) as Hl.
  rewrite Hm, Hset in Hl. simpl in Hl. by rewrite Hl, lookup_insert_eq.
Qed.

(** Entries with the empty key are refused: nothing is copied. *)
Lemma copied_nothing dst l c :
(forall kv, kv ∈ l -> kv.1 = "") -> copied dst l c = c.
Proof.
revert c. induction l as [|[k v] l IH]; intros c Hl; simpl; [done|].
assert (k = "") as -> by (apply (Hl (k, v)); by left).
rewrite SetValue_empty_key. simpl. apply IH. intros kv Hkv. apply Hl. by right.
Qed.

End WithLibrary.
End SectionFacts.

(* --------------------------------------------------------------------- *)
(* RemoteConfig and Section of the goconfig provider: how the calls      *)
(* compose                                                               *)
(* --------------------------------------------------------------------- *)
Module RemoteConfigProps.
Import Goconfig GoconfigFacts GoConfigProvider ProviderFacts ConfigAPI SectionFacts.

Section WithLibrary.
Context `{Library}.

(** CreateRemote creates nothing. Its call SetValue(remote, "", "") has
an empty key, which goconfig refuses before it looks at the section:
for a name that is no remote, CreateRemote returns a handle and leaves
the provider as it was, reading through the handle still ends the
process, and it is the first SetString with a non-empty option name
that creates the remote, at the end of the list. *)
Theorem CreateRemote_creates_nothing (g : GoConfig) (c : ConfigFile) (r : string) :
holds g c -> wf c ->
value (HasRemote (sectionName r) g) = Ret false ->
exists h l, CreateRemote r g = Ret (h, g)
/\ value (ListRemotes g) = Ret l
/\ Keys h g = Fatal "couldnt load section"
/\ forall k v, k <> "" ->
exists g', SetString h k v g = Ret (tt, g')
/\ value (ListRemotes g') = Ret (l ++ [sectionName r])
/\ value (HasRemote (sectionName r) g') = Ret true.
Proof.
intros Hg Hc Hhas. rewrite (HasRemote_value _ g c Hg) in Hhas.
injection Hhas as Hhas.
pose proof (proj1 (unlisted_options c r Hc) Hhas) as Hopt.
assert (data c !! sectionName r = None) as Hdat.
{ apply eq_None_not_Some. rewrite <- options_is_Some, Hopt. by intros [? ?]. }
exists (newSection (config g) r), (sectionList c).
split; [by apply (CreateRemote_holds r g c)|].
split; [by apply ListRemotes_value|].
split.
{ unfold Keys, mbind. rewrite (getRemoteData_options r g c Hg), Hopt. done. }
intros k v Hk. eexists. split; [by apply (SetString_holds r k v g c)|].
pose proof (holds_update g c (SetValue r k v c).2 Hg) as Hg'.
rewrite (ListRemotes_value _ _ Hg'), (HasRemote_value _ _ _ Hg').
rewrite (sectionList_SetValue r k v c Hk), Hdat. split; [done|].
f_equal. apply inList_elem, elem_of_app. right. by left.
Qed.

(** SetString changes one option of one remote. After
GetRemote(r).SetString(k, v) with an option name that is neither empty
nor goconfig's keeper key, GetString(k) through a new handle returns v
and Keys lists k; every option of every other remote reads as before,
and so does every other option of r if r was a remote. The remotes
afterwards are those of before and r. *)
Theorem SetString_changes_one_option (g : GoConfig) (c : ConfigFile) (r k v : string) :
holds g c -> wf c -> k <> "" -> k <> sectionKeeper ->
exists g', setOption r k v g = Ret (tt, g')
/\ value (getOption r k g') = Ret v
/\ (exists keys, value ((let* h := GetRemote r in Keys h) g') = Ret keys /\ k ∈ keys)
/\ (forall r' k', sectionName r' <> sectionName r ->
value (getOption r' k' g') = value (getOption r' k' g))
/\ (forall k', k' <> k -> value (HasRemote (sectionName r) g) = Ret true ->
value (getOption r k' g') = value (getOption r k' g))
/\ (forall r', value (HasRemote r' g') = Ret true
<-> r' = sectionName r \/ value (HasRemote r' g) = Ret true).
Proof.
intros Hg Hc Hk Hkeep. eexists. split; [by apply (setOption_holds r k v g c)|].
set (c1 := (SetValue r k v c).2).
pose proof (holds_update g c c1 Hg) as Hg1.
pose proof (options_SetValue_same r k v c Hk Hkeep) as Hsame. fold c1 in Hsame.
split; [|split; [|split; [|split]]].
- rewrite (getOption_value r k _ c1 Hg1), Hsame. by rewrite lookup_insert_eq.
- eexists. rewrite (Keys_value r _ c1 Hg1), Hsame. split; [done|].
  apply mapRange_keys. rewrite lookup_insert_eq. eauto.
- intros r' k' Hne.
  rewrite (getOption_value r' k' _ c1 Hg1), (getOption_value r' k' g c Hg).
  unfold c1. by rewrite options_SetValue_other.
- intros k' Hk' Hhas. rewrite (HasRemote_value _ g c Hg) in Hhas.
  injection Hhas as Hhas. apply (listed_options c r Hc) in Hhas as [d Hd].
  rewrite (getOption_value r k' _ c1 Hg1), (getOption_value r k' g c Hg).
  rewrite Hsame, Hd. simpl. by rewrite lookup_insert_ne.
- intros r'. rewrite (HasRemote_value _ _ c1 Hg1), (HasRemote_value _ g c Hg).
  unfold c1. rewrite (sectionList_SetValue r k v c Hk).
  destruct (data c !! sectionName r) as [sec|] eqn:Hs.
  + split; [by right|]. intros [->|Hr]; [|done].
    f_equal. apply inList_elem, (wf_sections c Hc). rewrite Hs. eauto.
  + split.
    * intros [= Hin]. apply inList_elem, elem_of_app in Hin as [Hin|Hin].
      -- right. f_equal. by apply inList_elem.
      -- left. by apply list_elem_of_singleton in Hin.
    * intros Hr. f_equal. apply inList_elem, elem_of_app.
      destruct Hr as [->|[= Hr]]; [right; by left|left; by apply inList_elem].
Qed.


(** The reads of a Section agree. For a remote r, Keys returns each
option name once, GetConfig returns a map with exactly those names,
GetString(k) returns the value GetConfig has for k and the empty string
for a name it does not have (so an option set to the empty string and a
missing option read the same), and goconfig's keeper key is never among
them. None of this depends on the order in which Go ranges over the
map. *)
Theorem reads_agree (g : GoConfig) (c : ConfigFile) (r : string) :
holds g c -> wf c ->
value (HasRemote (sectionName r) g) = Ret true ->
exists keys m,
value ((let* h := GetRemote r in Keys h) g) = Ret keys
/\ value ((let* h := GetRemote r in GetConfig h) g) = Ret m
/\ NoDup keys
/\ (forall k, k ∈ keys <-> is_Some (m !! k))
/\ (forall k, value (getOption r k g) = Ret (default "" (m !! k)))
/\ m !! sectionKeeper = None.
Proof.
intros Hg Hc Hhas. rewrite (HasRemote_value _ g c Hg) in Hhas. injection Hhas as Hhas.
pose proof (proj1 (listed_options c r Hc) Hhas) as [d Hd].
exists (mapRange d).*1, d.
rewrite (Keys_value r g c Hg), (GetConfig_value r g c Hg), Hd.
split; [done|]. split; [done|]. split; [apply mapRange_NoDup|].
split; [apply mapRange_keys|]. split.
- intros k. by rewrite (getOption_value r k g c Hg), Hd.
- unfold options in Hd. destruct (data c !! sectionName r); [|done].
  injection Hd as <-. apply lookup_delete_eq.
Qed.


(** CopyRemote copies every option. For two different remotes,
CopyRemote(source, destination) returns; the source reads as before;
every option of the source with a non-empty name reads through the
destination with the source's value, the destination being created if
it was no remote; the options of the destination that the source does
not have stay (the two are merged), and no other remote changes. *)
Theorem CopyRemote_copies_every_option (g : GoConfig) (c : ConfigFile)
(source destination : string) (m : gmap string string) :
holds g c -> wf c -> sectionName source <> sectionName destination ->
value ((let* h := GetRemote source in GetConfig h) g) = Ret m ->
exists g', CopyRemote source destination g = Ret (tt, g')
/\ value ((let* h := GetRemote source in GetConfig h) g') = Ret m
/\ (forall k v, k <> "" -> m !! k = Some v -> value (getOption destination k g') = Ret v)
/\ (forall k, m !! k = None ->
value (HasRemote (sectionName destination) g) = Ret true ->
value (getOption destination k g') = value (getOption destination k g))
/\ (forall r' k, sectionName r' <> sectionName destination ->
value (getOption r' k g') = value (getOption r' k g)).
Proof.
intros Hg Hc Hne Hm. rewrite (GetConfig_value source g c Hg) in Hm.
destruct (options c source) as [d|] eqn:Hd; [|done]. injection Hm as ->.
rewrite (CopyRemote_holds source destination g c Hg).
pose proof (GetSection_options source c) as Hfst.
destruct (GetSection source c) as [o c1] eqn:HG. simpl in Hfst. subst o. rewrite Hd.
assert (forall r', options c1 r' = options c r') as Hc1.
{ intros r'. rewrite <- (options_GetSection source c r'). by rewrite HG. }
set (c2 := copied destination (mapRange m) c1).
pose proof (holds_update g c c2 Hg) as Hg2.
exists (update g c2). split; [done|]. split; [|split; [|split]].
- rewrite (GetConfig_value source _ c2 Hg2). unfold c2.
  rewrite copied_options_other by done. by rewrite Hc1, Hd.
- intros k v Hk Hv. rewrite (getOption_value destination k _ c2 Hg2).
  assert (k <> sectionKeeper) as Hkeep.
  { intros ->. unfold options in Hd. destruct (data c !! sectionName source); [|done].
    injection Hd as <-. by rewrite lookup_delete_eq in Hv. }
  destruct (copied_options_copy destination (mapRange m) c1 k v) as (m' & Hm' & Hv');
  [apply mapRange_NoDup | by apply mapRange_elem | done | done |].
  unfold c2. by rewrite Hm', Hv'.
- intros k Hk Hhas. rewrite (HasRemote_value _ g c Hg) in Hhas. injection Hhas as Hhas.
  apply (listed_options c destination Hc) in Hhas as [dd Hdd].
  rewrite (getOption_value destination k _ c2 Hg2), (getOption_value destination k g c Hg).
  assert (k ∉ (mapRange m).*1) as Hnot.
  { rewrite mapRange_keys, Hk. by intros [? ?]. }
  pose proof (copied_options_lookup destination (mapRange m) c1 destination k Hnot) as Hl.
  destruct (copied_options_keeps destination (mapRange m) c1 destination) as [m' Hm'];
  [rewrite Hc1, Hdd; eauto|].
  fold c2 in Hl, Hm'. rewrite Hm', Hc1, Hdd in Hl. simpl in Hl.
  by rewrite Hm', Hdd, Hl.
- intros r' k Hr'.
  rewrite (getOption_value r' k _ c2 Hg2), (getOption_value r' k g c Hg).
  unfold c2. rewrite copied_options_other by done. by rewrite Hc1.
Qed.

(** RenameRemote moves every option. For two different remotes,
RenameRemote(oldName, newName) returns, oldName is no remote any more,
every option of oldName with a non-empty name reads through newName
with the value it had, and the remotes other than the two read as
before. *)
Theorem RenameRemote_moves_every_option (g : GoConfig) (c : ConfigFile)
(oldName newName : string) (m : gmap string string) :
holds g c -> wf c -> sectionName oldName <> sectionName newName ->
value ((let* h := GetRemote oldName in GetConfig h) g) = Ret m ->
exists g', RenameRemote oldName newName g = Ret (tt, g')
/\ value (HasRemote (sectionName oldName) g') = Ret false
/\ (forall k v, k <> "" -> m !! k = Some v -> value (getOption newName k g') = Ret v)
/\ (forall r' k, sectionName r' <> sectionName newName ->
sectionName r' <> sectionName oldName ->
value (getOption r' k g') = value (getOption r' k g)).
Proof.
intros Hg Hc Hne Hm. rewrite (GetConfig_value oldName g c Hg) in Hm.
destruct (options c oldName) as [d|] eqn:Hd; [|done]. injection Hm as ->.
unfold RenameRemote, mbind, self_config.
rewrite (CopyRemote_holds oldName newName g c Hg).
pose proof (GetSection_options oldName c) as Hfst.
pose proof (GetSection_wf oldName c Hc) as Hwf1.
destruct (GetSection oldName c) as [o c1] eqn:HG. simpl in Hfst, Hwf1. subst o.
rewrite Hd. simpl.
assert (forall r', options c1 r' = options c r') as Hc1.
{ intros r'. rewrite <- (options_GetSection oldName c r'). by rewrite HG. }
set (c2 := copied newName (mapRange m) c1).
assert (wf c2) as Hwf2 by by apply copied_wf.
pose proof (holds_update g c c2 Hg) as Hg2.
destruct (DeleteSection_spec oldName c2 Hwf2)
as (b & c3 & Hdel & Hwf3 & Hl3 & Hold & Hother & _).
rewrite (call_holds _ _ c2 Hg2), Hdel. simpl. rewrite update_update.
pose proof (holds_update g c c3 Hg) as Hg3.
exists (update g c3). split; [done|]. split; [|split].
- rewrite (HasRemote_value _ _ c3 Hg3). f_equal.
  by apply (unlisted_options c3 oldName Hwf3).
- intros k v Hk Hv. rewrite (getOption_value newName k _ c3 Hg3).
  assert (k <> sectionKeeper) as Hkeep.
  { intros ->. unfold options in Hd. destruct (data c !! sectionName oldName); [|done].
    injection Hd as <-. by rewrite lookup_delete_eq in Hv. }
  destruct (copied_options_copy newName (mapRange m) c1 k v) as (m' & Hm' & Hv');
  [apply mapRange_NoDup | by apply mapRange_elem | done | done |].
  rewrite Hother by done. unfold c2. by rewrite Hm', Hv'.
- intros r' k Hn Ho.
  rewrite (getOption_value r' k _ c3 Hg3), (getOption_value r' k g c Hg).
  rewrite Hother by done. unfold c2. rewrite copied_options_other by done.
  by rewrite Hc1.
Qed.

(** Renaming a remote that has no options loses it. The copy loop of
CopyRemote runs over the options of the source, so for a remote
without options it never calls SetValue and the new name is not
created; DeleteSection then removes the old name. Afterwards neither
name is a remote. *)
Theorem RenameRemote_without_options_loses_remote (g : GoConfig) (c : ConfigFile)
(oldName newName : string) :
holds g c -> wf c ->
value ((let* h := GetRemote oldName in GetConfig h) g) = Ret ∅ ->
value (HasRemote (sectionName newName) g) = Ret false ->
exists g' l, RenameRemote oldName newName g = Ret (tt, g')
/\ value (ListRemotes g) = Ret l
/\ value (ListRemotes g') = Ret (filter (fun n => n <> sectionName oldName) l)
/\ value (HasRemote (sectionName oldName) g') = Ret false
/\ value (HasRemote (sectionName newName) g') = Ret false.
Proof.
intros Hg Hc Hm Hnew. rewrite (GetConfig_value oldName g c Hg) in Hm.
destruct (options c oldName) as [d|] eqn:Hd; [|done]. injection Hm as ->.
rewrite (HasRemote_value _ g c Hg) in Hnew. injection Hnew as Hnew.
unfold RenameRemote, mbind, self_config.
rewrite (CopyRemote_holds oldName newName g c Hg).
pose proof (GetSection_options oldName c) as Hfst.
pose proof (GetSection_wf oldName c Hc) as Hwf1.
pose proof (GetSection_sectionList oldName c) as Hl1.
destruct (GetSection oldName c) as [o c1] eqn:HG. simpl in Hfst, Hwf1, Hl1. subst o.
rewrite Hd. simpl.
assert (mapRange (∅ : gmap string string) = []) as ->.
{ apply Permutation_nil_r. rewrite (mapRange_perm ∅). by rewrite map_to_list_empty. }
simpl.
pose proof (holds_update g c c1 Hg) as Hg1.
destruct (DeleteSection_spec oldName c1 Hwf1)
as (b & c3 & Hdel & Hwf3 & Hl3 & Hold & Hother & _).
rewrite (call_holds _ _ c1 Hg1), Hdel. simpl. rewrite update_update.
pose proof (holds_update g c c3 Hg) as Hg3.
exists (update g c3), (sectionList c). split; [done|].
split; [by apply ListRemotes_value|].
split; [by rewrite (ListRemotes_value _ _ Hg3), Hl3, Hl1|].
rewrite !(HasRemote_value _ _ c3 Hg3). split.
- f_equal. by apply (unlisted_options c3 oldName Hwf3).
- f_equal. apply inList_false. rewrite Hl3, Hl1. intros Hin.
  apply list_elem_of_filter in Hin as [_ Hin]. by apply inList_false in Hnew.
Qed.

(** DeleteRemote removes one remote. It returns for every name; the
remotes afterwards are those of before without the name (the empty
name stands for DEFAULT), in the same order; the options of the other
remotes read as before; and for a name that is no remote the provider
is left as it was. *)
Theorem DeleteRemote_removes_one_remote (g : GoConfig) (c : ConfigFile) (r : string) :
holds g c -> wf c ->
exists g' l, DeleteRemote r g = Ret (tt, g')
/\ value (ListRemotes g) = Ret l
/\ value (ListRemotes g') = Ret (filter (fun n => n <> sectionName r) l)
/\ (forall r' k, sectionName r' <> sectionName r ->
value (getOption r' k g') = value (getOption r' k g))
/\ (value (HasRemote (sectionName r) g) = Ret false -> g' = g).
Proof.
intros Hg Hc.
destruct (DeleteSection_spec r c Hc) as (b & c' & Hdel & Hwf & Hl & Hold & Hother & Hfalse).
pose proof (holds_update g c c' Hg) as Hg'.
exists (update g c'), (sectionList c). split.
{ unfold DeleteRemote, mbind, self_config. simpl.
  by rewrite (call_holds _ g c Hg), Hdel. }
split; [by apply ListRemotes_value|].
split; [by rewrite (ListRemotes_value _ _ Hg'), Hl|]. split.
- intros r' k Hne.
  rewrite (getOption_value r' k _ c' Hg'), (getOption_value r' k g c Hg).
  by rewrite Hother.
- intros Hhas. rewrite (HasRemote_value _ g c Hg) in Hhas. injection Hhas as Hhas.
  apply (unlisted_options c r Hc) in Hhas.
  assert (b = false) as Hb.
  { unfold DeleteSection in Hdel. unfold options in Hhas.
    destruct (data c !! sectionName r); [done|]. by injection Hdel as <- _. }
  rewrite (Hfalse Hb). by apply update_id.
Qed.

(** Load installs a new object. After a successful Load the provider
holds the ConfigFile read from the text, while a Section handle taken
before still points to the previous ConfigFile: it reads what it read
before, and what is written through it does not reach the
configuration the provider now holds. A Load that fails leaves the
provider as it was. *)
Theorem Load_leaves_old_handles_behind (g : GoConfig) (c : ConfigFile)
(text : bytes) (r : string) :
holds g c ->
match GoConfig_Load text g with
| Ret (None, g') =>
exists c', LoadFromReader text = Some c' /\ holds g' c'
/\ exists h, GetRemote r g = Ret (h, g)
/\ (forall k, value (GetString h k g') = value (GetString h k g))
/\ (forall k v, exists g'', SetString h k v g' = Ret (tt, g'')
/\ holds g'' c'
/\ (forall r' k', value (getOption r' k' g'') = value (getOption r' k' g'))
/\ value (ListRemotes g'') = value (ListRemotes g'))
| Ret (Some _, g') => g' = g
| _ => False
end.
Proof.
intros (l & Hl & Hc). unfold GoConfig_Load.
destruct (LoadFromReader text) as [c'|] eqn:Hload; [|done].
set (l' := fresh (heap g)).
assert (heap g !! l' = None) as Hfresh.
{ apply not_elem_of_dom. unfold l', fresh. apply is_fresh. }
assert (l <> l') as Hll by congruence.
set (g' := {| config := Some l'; heap := <[l' := c']> (heap g) |}).
assert (holds g' c') as Hg'.
{ exists l'. split; [done|]. apply lookup_insert_eq. }
exists c'. split; [done|]. split; [done|].
exists (newSection (config g) r). split; [done|]. rewrite Hl. split.
- intros k. unfold GetString, mbind, getRemoteData, mbind, call. simpl.
  rewrite lookup_insert_ne by done. rewrite Hc. simpl.
  by destruct (GetSection r c) as [[d|] c1].
- intros k v. unfold SetString, mbind, call. simpl.
  rewrite lookup_insert_ne by done. rewrite Hc. simpl.
  eexists. split; [done|].
  set (g'' := {| config := Some l'; heap := _ |}).
  assert (holds g'' c') as Hg''.
  { exists l'. split; [done|]. simpl. rewrite lookup_insert_ne by done.
    apply lookup_insert_eq. }
  split; [done|]. split.
  + intros r' k'.
    by rewrite (getOption_value r' k' g'' c' Hg''), (getOption_value r' k' g' c' Hg').
  + by rewrite (ListRemotes_value g'' c' Hg''), (ListRemotes_value g' c' Hg').
Qed.

(** A method call on the provider that is set. *)
Lemma onRemoteConfig_eq {A : Type} (m : M A) (st : Config.State GoConfig) (g : GoConfig) :
Config.provider st = Some g ->
onRemoteConfig m st
= obind (m g) (fun r => Ret (r.1, Config.set_provider (Some r.2) st)).
Proof. intros Hp. unfold onRemoteConfig, GetRemoteConfig. by rewrite Hp. Qed.

Lemma set_provider_id (st : Config.State GoConfig) (g : GoConfig) :
Config.provider st = Some g -> Config.set_provider (Some g) st = st.
Proof. destruct st. simpl. by intros ->. Qed.

Lemma getOption_holds r k g c d :
holds g c -> options c r = Some d ->
getOption r k g = Ret (default "" (d !! k), update g (GetSection r c).2).
Proof.
intros Hg Hd. unfold getOption, mbind. rewrite GetRemote_eq. simpl.
unfold GetString, mbind. rewrite (getRemoteData_options r g c Hg), Hd. simpl.
by destruct (d !! k).
Qed.

(** fs.ConfigFileSet and fs.ConfigFileGet round trip. For a remote name
that is not empty and an option name that is neither empty nor
goconfig's keeper key, ConfigFileSet(remote, key, value) returns nil,
creating the remote if need be, and ConfigFileGet(remote, key) then
returns (value, true). *)
Theorem ConfigFileSet_then_Get (st : Config.State GoConfig) (g : GoConfig)
(c : ConfigFile) (remote key v : string) :
Config.provider st = Some g -> holds g c -> wf c ->
remote <> "" -> key <> "" -> key <> sectionKeeper ->
exists st1 st2, ConfigFileSet remote key v st = Ret (None, st1)
/\ ConfigFileGet remote key st1 = Ret ((v, true), st2)
/\ Config.files st2 = Config.files st.
Proof.
intros Hp Hg Hc Hr Hk Hkeep.
set (c1 := (SetValue remote key v c).2).
pose proof (holds_update g c c1 Hg) as Hg1.
pose proof (options_SetValue_same remote key v c Hk Hkeep) as Hsame. fold c1 in Hsame.
assert (wf c1) as Hc1 by by apply SetValue_wf.
set (st1 := Config.set_provider (Some (update g c1)) st).
assert (Config.provider st1 = Some (update g c1)) as Hp1 by done.
exists st1. eexists. split.
{ unfold ConfigFileSet. rewrite (onRemoteConfig_eq _ st g Hp).
  by rewrite (setOption_holds remote key v g c Hg). }
unfold ConfigFileGet.
rewrite (onRemoteConfig_eq _ st1 _ Hp1).
rewrite (HasRemote_holds remote _ c1 Hg1). cbn [obind fst snd].
assert (inList remote (sectionList c1) = true) as ->.
{ rewrite <- (sectionName_id remote Hr). apply (listed_options c1 remote Hc1).
  rewrite Hsame. eauto. }
rewrite (set_provider_id st1 _ Hp1).
rewrite (onRemoteConfig_eq _ st1 _ Hp1).
rewrite (getOption_holds remote key _ c1 _ Hg1 Hsame). cbn [obind fst snd].
rewrite lookup_insert_eq. simpl. split; [done|]. by destruct st.
Qed.

(** fs.ConfigFileGet guards its read. On a provider that holds a
configuration it returns for every remote and key: (v, true) with the
value GetString reads when HasRemote(remote) is true, and ("", false)
without touching anything otherwise; it never ends the process, unlike
a read through GetRemote alone. For the empty remote name the result is
always ("", false). *)
Theorem ConfigFileGet_guards_the_read (st : Config.State GoConfig) (g : GoConfig)
(c : ConfigFile) (remote key : string) :
Config.provider st = Some g -> holds g c -> wf c ->
exists v b st', ConfigFileGet remote key st = Ret ((v, b), st')
/\ (b = true <-> value (HasRemote remote g) = Ret true)
/\ (b = true -> value (getOption remote key g) = Ret v)
/\ (b = false -> v = "" /\ st' = st)
/\ (remote = "" -> b = false).
Proof.
intros Hp Hg Hc. unfold ConfigFileGet.
rewrite (onRemoteConfig_eq _ st g Hp), (HasRemote_holds remote g c Hg). simpl.
rewrite (set_provider_id st g Hp).
destruct (inList remote (sectionList c)) eqn:Hin.
- apply inList_elem in Hin.
  assert (remote <> "") as Hr.
  { intros ->. apply (wf_sections c Hc) in Hin. rewrite (wf_named c Hc) in Hin.
    by destruct Hin. }
  assert (is_Some (options c remote)) as [d Hd].
  { apply (listed_options c remote Hc). rewrite (sectionName_id remote Hr).
    by apply inList_elem. }
  rewrite (onRemoteConfig_eq _ st g Hp), (getOption_holds remote key g c d Hg Hd).
  simpl. eexists _, true, _. split; [done|]. split; [done|]. split.
  + done.
  + split; [done | by intros ->].
- eexists "", false, st. split; [done|]. split; [split; [done | by intros [= ?]]|].
  split; [done|]. done.
Qed.


End WithLibrary.

(* ---- the theorems above at concrete configurations ---- *)

Lemma empty_remote_holds :
holds (Example.loaded Samples.emptyRemoteText) (Example.read Samples.emptyRemoteText).
Proof. exists 0. split; reflexivity. Qed.

Lemma empty_remote_wf : wf (Example.read Samples.emptyRemoteText).
Proof. apply fromEntries_wf. Qed.

Lemma CreateRemote_creates_nothing_witness :
let g := Example.loaded Example.sampleText in
holds g (Example.read Example.sampleText) /\ wf (Example.read Example.sampleText)
/\ value (HasRemote (sectionName "other") g) = Ret false
/\ exists h l, CreateRemote "other" g = Ret (h, g)
/\ value (ListRemotes g) = Ret l
/\ Keys h g = Fatal "couldnt load section".
Proof.
cbn zeta. split; [apply RemoteConfigClaims.sample_holds|].
split; [apply RemoteConfigClaims.sample_wf|]. split; [reflexivity|].
destruct (CreateRemote_creates_nothing _ _ "other" RemoteConfigClaims.sample_holds
RemoteConfigClaims.sample_wf eq_refl) as (h & l & H1 & H2 & H3 & _).
exists h, l. split; [exact H1|]. split; [exact H2 | exact H3].
Defined.

Lemma SetString_changes_one_option_witness :
let g := Example.loaded Example.sampleText in
holds g (Example.read Example.sampleText) /\ wf (Example.read Example.sampleText)
/\ "region" <> "" /\ "region" <> sectionKeeper
/\ exists g', setOption "remote1" "region" "eu" g = Ret (tt, g')
/\ value (getOption "remote1" "region" g') = Ret "eu".
Proof.
cbn zeta. split; [apply RemoteConfigClaims.sample_holds|].
split; [apply RemoteConfigClaims.sample_wf|]. split; [discriminate|]. split; [discriminate|].
destruct (SetString_changes_one_option _ _ "remote1" "region" "eu"
RemoteConfigClaims.sample_holds RemoteConfigClaims.sample_wf
ltac:(discriminate) ltac:(discriminate)) as (g' & H1 & H2 & _).
exists g'. split; [exact H1 | exact H2].
Defined.


Lemma reads_agree_witness :
let g := Example.loaded Example.sampleText in
holds g (Example.read Example.sampleText) /\ wf (Example.read Example.sampleText)
/\ value (HasRemote (sectionName "remote1") g) = Ret true
/\ exists keys m,
value ((let* h := GetRemote "remote1" in Keys h) g) = Ret keys
/\ value ((let* h := GetRemote "remote1" in GetConfig h) g) = Ret m
/\ NoDup keys.
Proof.
cbn zeta. split; [apply RemoteConfigClaims.sample_holds|].
split; [apply RemoteConfigClaims.sample_wf|]. split; [reflexivity|].
destruct (reads_agree _ _ "remote1" RemoteConfigClaims.sample_holds
RemoteConfigClaims.sample_wf eq_refl) as (keys & m & H1 & H2 & H3 & _).
exists keys, m. split; [exact H1|]. split; [exact H2 | exact H3].
Defined.


Lemma CopyRemote_copies_every_option_witness :
let g := Example.loaded Example.sampleText in
holds g (Example.read Example.sampleText) /\ wf (Example.read Example.sampleText)
/\ sectionName "remote1" <> sectionName "copy"
/\ value ((let* h := GetRemote "remote1" in GetConfig h) g) = Ret {[ "type" := "local" ]}
/\ exists g', CopyRemote "remote1" "copy" g = Ret (tt, g')
/\ value ((let* h := GetRemote "remote1" in GetConfig h) g') = Ret {[ "type" := "local" ]}.
Proof.
cbn zeta. split; [apply RemoteConfigClaims.sample_holds|].
split; [apply RemoteConfigClaims.sample_wf|]. split; [discriminate|].
split; [reflexivity|].
destruct (CopyRemote_copies_every_option _ _ "remote1" "copy" {[ "type" := "local" ]}
RemoteConfigClaims.sample_holds RemoteConfigClaims.sample_wf
ltac:(discriminate) eq_refl) as (g' & H1 & H2 & _).
exists g'. split; [exact H1 | exact H2].
Defined.

Lemma RenameRemote_moves_every_option_witness :
let g := Example.loaded Example.sampleText in
holds g (Example.read Example.sampleText) /\ wf (Example.read Example.sampleText)
/\ sectionName "remote1" <> sectionName "renamed"
/\ value ((let* h := GetRemote "remote1" in GetConfig h) g) = Ret {[ "type" := "local" ]}
/\ exists g', RenameRemote "remote1" "renamed" g = Ret (tt, g')
/\ value (HasRemote (sectionName "remote1") g') = Ret false.
Proof.
cbn zeta. split; [apply RemoteConfigClaims.sample_holds|].
split; [apply RemoteConfigClaims.sample_wf|]. split; [discriminate|].
split; [reflexivity|].
destruct (RenameRemote_moves_every_option _ _ "remote1" "renamed" {[ "type" := "local" ]}
RemoteConfigClaims.sample_holds RemoteConfigClaims.sample_wf
ltac:(discriminate) eq_refl) as (g' & H1 & H2 & _).
exists g'. split; [exact H1 | exact H2].
Defined.

Lemma RenameRemote_without_options_loses_remote_witness :
let g := Example.loaded Samples.emptyRemoteText in
holds g (Example.read Samples.emptyRemoteText) /\ wf (Example.read Samples.emptyRemoteText)
/\ value ((let* h := GetRemote "empty" in GetConfig h) g) = Ret ∅
/\ value (HasRemote (sectionName "renamed") g) = Ret false
/\ exists g' l, RenameRemote "empty" "renamed" g = Ret (tt, g')
/\ value (ListRemotes g) = Ret l
/\ value (ListRemotes g') = Ret (filter (fun n => n <> sectionName "empty") l).
Proof.
cbn zeta. split; [apply empty_remote_holds|]. split; [apply empty_remote_wf|].
assert (value ((let* h := GetRemote "empty" in GetConfig h)
(Example.loaded Samples.emptyRemoteText)) = Ret ∅) as Hm by (vm_compute; reflexivity).
split; [exact Hm|]. split; [reflexivity|].
destruct (RenameRemote_without_options_loses_remote _ _ "empty" "renamed"
empty_remote_holds empty_remote_wf Hm eq_refl) as (g' & l & H1 & H2 & H3 & _).
exists g', l. split; [exact H1|]. split; [exact H2 | exact H3].
Defined.

Lemma DeleteRemote_removes_one_remote_witness :
let g := Example.loaded Example.sampleText in
holds g (Example.read Example.sampleText) /\ wf (Example.read Example.sampleText)
/\ exists g' l, DeleteRemote "remote1" g = Ret (tt, g')
/\ value (ListRemotes g) = Ret l
/\ value (ListRemotes g') = Ret (filter (fun n => n <> sectionName "remote1") l).
Proof.
cbn zeta. split; [apply RemoteConfigClaims.sample_holds|].
split; [apply RemoteConfigClaims.sample_wf|].
destruct (DeleteRemote_removes_one_remote _ _ "remote1"
RemoteConfigClaims.sample_holds RemoteConfigClaims.sample_wf) as (g' & l & H1 & H2 & H3 & _).
exists g', l. split; [exact H1|]. split; [exact H2 | exact H3].
Defined.

Lemma Load_leaves_old_handles_behind_witness :
let g := Example.loaded Example.sampleText in
holds g (Example.read Example.sampleText)
/\ exists g' c', GoConfig_Load Example.newText g = Ret (None, g') /\ holds g' c'.
Proof.
cbn zeta. split; [apply RemoteConfigClaims.sample_holds|].
pose proof (Load_leaves_old_handles_behind _ _ Example.newText "remote1"
RemoteConfigClaims.sample_holds) as Hload.
destruct (GoConfig_Load Example.newText (Example.loaded Example.sampleText))
as [[[e|] g']|m|m] eqn:E.
- exfalso. vm_compute in E. discriminate E.
- destruct Hload as (c' & _ & Hg' & _). exists g', c'. split; [reflexivity | exact Hg'].
- destruct Hload.
- destruct Hload.
Defined.

Lemma serving_holds :
Config.provider Samples.serving = Some (Example.loaded Example.sampleText).
Proof. reflexivity. Qed.

Lemma ConfigFileSet_then_Get_witness :
Config.provider Samples.serving = Some (Example.loaded Example.sampleText)
/\ holds (Example.loaded Example.sampleText) (Example.read Example.sampleText)
/\ wf (Example.read Example.sampleText)
/\ "remote2" <> "" /\ "type" <> "" /\ "type" <> sectionKeeper
/\ exists st1 st2, ConfigFileSet "remote2" "type" "s3" Samples.serving = Ret (None, st1)
/\ ConfigFileGet "remote2" "type" st1 = Ret (("s3", true), st2).
Proof.
split; [reflexivity|]. split; [apply RemoteConfigClaims.sample_holds|].
split; [apply RemoteConfigClaims.sample_wf|].
split; [discriminate|]. split; [discriminate|]. split; [discriminate|].
destruct (ConfigFileSet_then_Get Samples.serving _ _ "remote2" "type" "s3"
serving_holds RemoteConfigClaims.sample_holds RemoteConfigClaims.sample_wf
ltac:(discriminate) ltac:(discriminate) ltac:(discriminate))
as (st1 & st2 & H1 & H2 & _).
exists st1, st2. split; [exact H1 | exact H2].
Defined.

Lemma ConfigFileGet_guards_the_read_witness :
Config.provider Samples.serving = Some (Example.loaded Example.sampleText)
/\ holds (Example.loaded Example.sampleText) (Example.read Example.sampleText)
/\ wf (Example.read Example.sampleText)
/\ exists v b st', ConfigFileGet "other" "type" Samples.serving = Ret ((v, b), st')
/\ (b = false -> v = "" /\ st' = Samples.serving).
Proof.
split; [reflexivity|]. split; [apply RemoteConfigClaims.sample_holds|].
split; [apply RemoteConfigClaims.sample_wf|].
destruct (ConfigFileGet_guards_the_read Samples.serving _ _ "other" "type"
serving_holds RemoteConfigClaims.sample_holds RemoteConfigClaims.sample_wf)
as (v & b & st' & H1 & _ & _ & H2 & _).
exists v, b, st'. split; [exact H1 | exact H2].
Defined.


End RemoteConfigProps.

(* --------------------------------------------------------------------- *)
(* saveConfig: what a call leaves alone                                  *)
(* --------------------------------------------------------------------- *)
Module SaveFrame.
Import Config SaveFacts SaveClaims ConfigAPI.

Section WithProvider.
Context {P : Type} `{Provider P} `{Library}.

Lemma run_cons (c : choice) (cs : list choice) (fr : Frame) :
run (c :: cs) fr = run cs (step c fr).
Proof. reflexivity. Qed.


Lemma run_Finished (cs : list choice) (fr : Frame) (x : exit) :
at_label fr = Finished x -> run cs fr = fr.
Proof.
induction cs as [|c cs IH]; intros Hl; [done|].
rewrite run_cons. unfold step at 1. rewrite Hl. by apply IH.
Qed.















End WithProvider.


End SaveFrame.

(* --------------------------------------------------------------------- *)
(* saveConfig: the call in which nothing fails, and the call that cannot *)
(* succeed                                                               *)
(* --------------------------------------------------------------------- *)
Module SaveRuns.
Import Config SaveFacts SaveClaims ConfigAPI SaveFrame.

Lemma elem_of_rev (x : ascii) (l : bytes) : x ∈ rev l <-> x ∈ l.
Proof. rewrite rev_alt. apply elem_of_reverse. Qed.

Lemma lastElement_whole (rpath acc : bytes) :
"/"%char ∉ rpath -> Go.lastElement rpath acc = rev rpath ++ acc.
Proof.
revert acc. induction rpath as [|c r IH]; intros acc Hn; simpl; [done|].
apply not_elem_of_cons in Hn as [Hc Hr]. rewrite decide_False by done.
rewrite (IH _ Hr). by rewrite <- app_assoc.
Qed.

Lemma lastElement_shorter (rpath acc : bytes) :
"/"%char ∈ rpath -> length (Go.lastElement rpath acc) < length rpath + length acc.
Proof.
revert acc. induction rpath as [|c r IH]; intros acc Hin; simpl.
- by apply elem_of_nil in Hin.
- case_decide as Hc; [lia|].
  apply elem_of_cons in Hin as [Hin|Hin]; [done|].
  specialize (IH (c :: acc) Hin). simpl in IH. lia.
Qed.

(** filepath.Split gives an empty directory exactly for a path without
a slash. *)
Lemma Split_no_directory (path : string) :
(Go.Split path).1 = "" <-> "/"%char ∉ B path.
Proof.
unfold Go.Split. cbn [fst]. split.
- intros Hd Hin. apply elem_of_rev in Hin.
  pose proof (lastElement_shorter (rev (B path)) [] Hin) as Hlt.
  rewrite length_rev in Hlt. simpl in Hlt.
  destruct (B path) as [|a l]; [simpl in Hin; by apply elem_of_nil in Hin|].
  destruct (length (a :: l) - length (Go.lastElement (rev (a :: l)) [])) as [|k] eqn:Hk;
  [lia|]. by simpl in Hd.
- intros Hn. rewrite lastElement_whole by (by rewrite elem_of_rev).
  rewrite rev_involutive, app_nil_r, Nat.sub_diag. done.
Qed.

Section WithProvider.
Context {P : Type} `{Provider P} `{Library}.

(** saveConfig cannot succeed on a config path without a directory.
For a config path that has no slash, such as the ".rclone.conf" that
makeConfigPath falls back to, filepath.Split gives the empty directory,
os.MkdirAll of it fails, and every call of saveConfig returns the
"failed to create config directory" error with nothing touched;
SaveConfig then ends the process once its tries are used up. *)
Theorem saveConfig_without_directory_fails (st : State P) (c : choice)
(cs : list choice) :
"/"%char ∉ B (ConfigPath st) ->
saveConfig (c :: cs) st
= Some (Returned (Some (ErrSave "failed to create config directory")), st)
/\ forall (LowLevelRetries : Z) (attempts : list (list choice)),
(0 <= LowLevelRetries < 2 ^ 62)%Z ->
Z.to_nat (LowLevelRetries + 1) <= length attempts ->
Forall (fun a => a <> []) attempts ->
SaveConfig LowLevelRetries attempts st
= Some (Fatal "Failed to save config after tries", st).
Proof.
intros Hn. apply Split_no_directory in Hn.
assert (forall c cs, saveConfig (c :: cs) st
= Some (Returned (Some (ErrSave "failed to create config directory")), st)) as Hcall.
{ intros c' cs'. unfold saveConfig. rewrite run_cons.
  assert (step c' (enter st)
  = goto (Finished (Returned (Some (ErrSave "failed to create config directory"))))
  (enter st)) as ->.
  { unfold step, enter. cbn [at_label world]. rewrite Hn.
    rewrite bool_decide_eq_true_2 by done. by rewrite orb_true_r. }
  by rewrite (run_Finished cs' _ (Returned (Some (ErrSave "failed to create config directory")))). }
split; [apply Hcall|].
intros n attempts Hrange Hlen Hall. unfold SaveConfig.
assert (wrap64 (n + 1) = (n + 1)%Z) as ->.
{ unfold wrap64. rewrite Z.mod_small; lia. }
revert attempts Hlen Hall. induction (Z.to_nat (n + 1)) as [|tries IH];
intros attempts Hlen Hall; [done|].
destruct attempts as [|a rest]; [simpl in Hlen; lia|].
apply Forall_cons in Hall as [Ha Hall]. destruct a as [|c' cs']; [done|].
cbn [saveLoop]. rewrite Hcall. apply IH; [simpl in Hlen; lia | done].
Qed.

(* ---- the steps of a call in which the system call succeeds ---- *)
























End WithProvider.

Lemma no_slash : "/"%char ∉ B ConfigPaths.hiddenConfigFileName.
Proof.
intros Hin. repeat (apply elem_of_cons in Hin as [Hin|Hin]; [discriminate Hin|]).
by apply elem_of_nil in Hin.
Qed.

(** On ".rclone.conf" in the current directory. *)
Lemma saveConfig_without_directory_fails_witness :
("/"%char ∉ B (ConfigPath Samples.inCurrentDirectory))
/\ saveConfig [Example.ok] Samples.inCurrentDirectory
= Some (Returned (Some (ErrSave "failed to create config directory")),
Samples.inCurrentDirectory).
Proof.
split; [exact no_slash|].
exact (proj1 (saveConfig_without_directory_fails
Samples.inCurrentDirectory Example.ok [] no_slash)).
Defined.



End SaveRuns.

(* --------------------------------------------------------------------- *)
(* loadConfigFile on what saveConfig wrote, and with a handoff key file  *)
(* --------------------------------------------------------------------- *)
Module LoadProps.
Import Go Config LoadFacts LoadClaims SaveClaims SaveFrame.







Section WithProvider.
Context {P : Type} `{Provider P} `{Library}.






End WithProvider.



End LoadProps.

(* --------------------------------------------------------------------- *)
(* LoadConfig: the choice of the provider                                *)
(* --------------------------------------------------------------------- *)
Module ProviderChoice.
Import Go Config LoadFacts ConfigAPI.

Section WithProvider.
Context {P : Type} `{Provider P} `{Library}.

(** The inner loop of LoadConfig looks for the extension without its
dot among the file types. *)
Lemma matchFileTypes_found (fts : list string) (e ext : string) :
sliceFrom1 e = Ret ext ->
matchFileTypes fts e = Ret (bool_decide (ext ∈ fts)).
Proof.
intros He. induction fts as [|ft fts IH]; cbn [matchFileTypes].
- by rewrite bool_decide_eq_false_2 by apply not_elem_of_nil.
- rewrite He. cbn [obind]. destruct (decide (ft = ext)) as [->|Hft].
  + by rewrite bool_decide_eq_true_2 by (by left).
  + rewrite IH. f_equal. apply bool_decide_ext. rewrite elem_of_cons.
    split; [by right | by intros [?|?]].
Qed.

(** The outer loop goes on after a match: the last provider that lists
the extension is the one chosen. *)
Lemma selectProvider_last (cps : list (ProviderDefinition P)) (e ext : string)
(cur : option P) :
sliceFrom1 e = Ret ext ->
selectProvider cps e cur
= Ret (match last (filter (fun cp => ext ∈ FileTypes cp) cps) with
| Some cp => Some (NewFunc cp)
| None => cur
end).
Proof.
intros He. revert cur. induction cps as [|cp cps IH]; intros cur; [done|].
cbn [selectProvider]. rewrite (matchFileTypes_found _ e ext He). cbn [obind].
rewrite IH. case_bool_decide as Hin.
- rewrite filter_cons_True by done. rewrite last_cons.
  by destruct (last (filter _ cps)).
- by rewrite filter_cons_False.
Qed.

(** On a path without extension the slice expression panics at the
first provider that has a file type. *)
Lemma selectProvider_no_extension (cps : list (ProviderDefinition P)) (cur : option P) :
Exists (fun cp => FileTypes cp <> []) cps ->
selectProvider cps "" cur = Panic "slice bounds out of range".
Proof.
intros Hex. revert cur. induction Hex as [cp cps Hcp|cp cps Hex IH]; intros cur.
- cbn [selectProvider]. by destruct (FileTypes cp).
- cbn [selectProvider]. destruct (FileTypes cp); simpl; [apply IH | done].
Qed.

(** LoadConfig takes the provider registered last for the extension.
The loop over configProviders does not stop at a match (its break
leaves the inner loop only), so among the providers that list the
extension of the config path, taken without its dot, the one
registered last is the one created; it replaces a provider that was
set before. When no provider lists the extension the provider is left
as it was. A provider registered now for the extension is the one
LoadConfig takes. *)
Theorem LoadConfig_takes_last_registered_provider (st : State P) (ext : string) :
sliceFrom1 (Ext (ConfigPath st)) = Ret ext ->
selectProvider (configProviders st) (Ext (ConfigPath st)) (provider st)
= Ret (match last (filter (fun cp => ext ∈ FileTypes cp) (configProviders st)) with
| Some cp => Some (NewFunc cp)
| None => provider st
end)
/\ (Forall (fun cp => ext ∉ FileTypes cp) (configProviders st) ->
selectProvider (configProviders st) (Ext (ConfigPath st)) (provider st)
= Ret (provider st))
/\ (forall pd, ext ∈ FileTypes pd ->
selectProvider (configProviders (RegisterConfigProvider pd st))
(Ext (ConfigPath (RegisterConfigProvider pd st)))
(provider (RegisterConfigProvider pd st))
= Ret (Some (NewFunc pd))).
Proof.
intros He. split; [by apply selectProvider_last|]. split.
- intros Hall. rewrite (selectProvider_last _ _ ext _ He).
  replace (filter (fun cp => ext ∈ FileTypes cp) (configProviders st)) with
  (@nil (ProviderDefinition P)); [done|].
  symmetry. induction Hall as [|cp cps Hcp Hall IH]; [done|].
  by rewrite filter_cons_False.
- intros pd Hpd. cbn [RegisterConfigProvider configProviders ConfigPath provider].
  rewrite (selectProvider_last _ _ ext _ He).
  rewrite filter_app, filter_cons_True by done. rewrite filter_nil.
  by rewrite last_snoc.
Qed.

(** LoadConfig panics on a config path without extension. When the
final element of the config path has no dot, path.Ext returns the empty
string and the slice expression path.Ext(ConfigPath)[1:] is out of
range: LoadConfig panics as soon as one registered provider has a file
type, before the file is looked at. *)
Theorem LoadConfig_without_extension_panics (st : State P) :
Ext (ConfigPath st) = "" ->
Exists (fun cp => FileTypes cp <> []) (configProviders st) ->
LoadConfig st = Some (Panic "slice bounds out of range").
Proof.
intros He Hex. unfold LoadConfig. rewrite He.
by rewrite (selectProvider_no_extension _ _ Hex).
Qed.

(** LoadConfig panics on a plaintext config file that no provider is
registered for. When no registered provider lists the extension of the
config path and no provider was set before, the provider stays nil; a
missing file is then reported as usual and LoadConfig returns, but for
a plaintext file (lines shorter than the 4096 bytes of the reader)
loadConfigFile calls Load on the nil provider and LoadConfig panics
instead of reporting an error. *)
Theorem LoadConfig_without_provider_panics (st : State P) (ext : string) (b : bytes) :
sliceFrom1 (Ext (ConfigPath st)) = Ret ext ->
Forall (fun cp => ext ∉ FileTypes cp) (configProviders st) ->
provider st = None ->
ReadFile (ConfigPath st) st = Some b ->
Spec.shortLines defaultBufSize b 0 = true ->
Spec.classify b = Plaintext ->
LoadConfig st = Some (Panic "invalid memory address or nil pointer dereference").
Proof.
intros He Hall Hp Hb Hshort Hplain. unfold LoadConfig.
rewrite (selectProvider_last _ _ ext _ He).
replace (filter (fun cp => ext ∈ FileTypes cp) (configProviders st)) with
(@nil (ProviderDefinition P)).
2:{ symmetry. induction Hall as [|cp cps Hcp Hall IH]; [done|].
    by rewrite filter_cons_False. }
cbn [last]. rewrite Hp.
unfold loadConfigFile, loadConfigFileSize.
assert (ReadFile (ConfigPath (useEnvPassword (set_provider None st)))
(useEnvPassword (set_provider None st)) = Some b) as ->.
{ unfold ReadFile in *. unfold useEnvPassword, setConfigPassword.
  destruct (_ && _); [|done]. by destruct (passwordHash _). }
rewrite (scanLines_short defaultBufSize (S (length b)) b) by (lia || done).
rewrite Hplain. unfold providerLoad.
assert (provider (useEnvPassword (set_provider None st)) = None) as ->; [|done].
unfold useEnvPassword, setConfigPassword.
destruct (_ && _); [|done]. by destruct (passwordHash _).
Qed.

End WithProvider.

Lemma LoadConfig_takes_last_registered_provider_witness :
let st := RegisterConfigProvider Samples.preloaded (Example.start Example.path ∅ ∅ [] false []) in
sliceFrom1 (Ext (ConfigPath st)) = Ret "conf"
/\ selectProvider (configProviders st) (Ext (ConfigPath st)) (provider st)
= Ret (Some (Example.loaded Example.sampleText)).
Proof.
cbn zeta.
set (st := RegisterConfigProvider Samples.preloaded (Example.start Example.path ∅ ∅ [] false [])).
assert (sliceFrom1 (Ext (ConfigPath st)) = Ret "conf") as He by (vm_compute; reflexivity).
split; [exact He|].
destruct (LoadConfig_takes_last_registered_provider st "conf" He) as (Hsel & _).
rewrite Hsel. vm_compute. reflexivity.
Defined.

Lemma LoadConfig_without_extension_panics_witness :
let st := Example.start "/home/user/rclone" ∅ ∅ [] false [] in
Ext (ConfigPath st) = ""
/\ Exists (fun cp => FileTypes cp <> []) (configProviders st)
/\ LoadConfig st = Some (Panic "slice bounds out of range").
Proof.
cbn zeta.
set (st := Example.start "/home/user/rclone" ∅ ∅ [] false []).
assert (Ext (ConfigPath st) = "") as He by (vm_compute; reflexivity).
assert (Exists (fun cp : ProviderDefinition GoConfigProvider.GoConfig => FileTypes cp <> [])
(configProviders st)) as Hex by (apply Exists_cons_hd; discriminate).
split; [exact He|]. split; [exact Hex|].
exact (LoadConfig_without_extension_panics st He Hex).
Defined.

Lemma LoadConfig_without_provider_panics_witness :
let st := Samples.unregistered in
sliceFrom1 (Ext (ConfigPath st)) = Ret "toml"
/\ Forall (fun cp => "toml" ∉ FileTypes cp) (configProviders st)
/\ provider st = None
/\ ReadFile (ConfigPath st) st = Some Example.sampleText
/\ Spec.shortLines defaultBufSize Example.sampleText 0 = true
/\ Spec.classify Example.sampleText = Plaintext
/\ LoadConfig st = Some (Panic "invalid memory address or nil pointer dereference").
Proof.
cbn zeta.
set (st := Samples.unregistered).
assert (sliceFrom1 (Ext (ConfigPath st)) = Ret "toml") as He by (vm_compute; reflexivity).
assert (Forall (fun cp : ProviderDefinition GoConfigProvider.GoConfig => "toml" ∉ FileTypes cp)
(configProviders st)) as Hall.
{ apply Forall_cons. split; [|apply Forall_nil_2].
  cbn. intros Hin. apply list_elem_of_singleton in Hin. discriminate. }
assert (ReadFile (ConfigPath st) st = Some Example.sampleText) as Hb by (vm_compute; reflexivity).
assert (Spec.shortLines defaultBufSize Example.sampleText 0 = true) as Hs by (vm_compute; reflexivity).
assert (Spec.classify Example.sampleText = Plaintext) as Hc by (vm_compute; reflexivity).
repeat (split; [eassumption || reflexivity|]).
exact (LoadConfig_without_provider_panics st "toml" Example.sampleText He Hall eq_refl Hb Hs Hc).
Defined.

End ProviderChoice.

(* --------------------------------------------------------------------- *)
(* makeConfigPath                                                        *)
(* --------------------------------------------------------------------- *)
Module ConfigPathProps.
Import ConfigPaths.

Section WithFilepath.
Context `{Filepath}.

(** makeConfigPath creates a directory or warns only when it has to.
When a config file exists at one of the three places (beside the
executable, in the configuration directory, in the home directory), or
when the user supplied RCLONE_CONFIG or --config, makeConfigPath
creates no directory and logs nothing. The only directory it creates
is the configuration directory, once; it logs only when it falls back
to .rclone.conf in the current directory because neither the home
directory is known nor the configuration directory could be used. *)
Theorem makeConfigPath_is_quiet_unless_it_must (p : Process) :
(found p \/ configSupplied p = true -> (makeConfigPath p).2 = [])
/\ (forall d, Mkdir d ∈ (makeConfigPath p).2 ->
d = configDir p /\ d <> ""
/\ (makeConfigPath p).2 !! 0 = Some (Mkdir d)
/\ forall i d', (makeConfigPath p).2 !! i = Some (Mkdir d') -> i = 0)
/\ (forall m, Errorf m ∈ (makeConfigPath p).2 ->
(makeConfigPath p).1 = hiddenConfigFileName /\ homeConf p = ""
/\ (configDirPath p = "" \/ MkdirAll p (configDir p) = false)).
Proof.
assert (configDirPath p <> "" -> configDir p <> "") as Hcp.
{ unfold configDirPath. by case_bool_decide. }
unfold found, makeConfigPath, fallback.
destruct (besideExecutable p) as [e|] eqn:He; [quiet|].
destruct (negb (bool_decide (configDir p = "")) && Stat p (configDirPath p)) eqn:E1; [quiet|].
destruct (negb (bool_decide (homeDir p = "")) && Stat p (homeConf p)) eqn:E2; [quiet|].
assert (~ (is_Some (@None string)
\/ (configDir p <> "" /\ Stat p (configDirPath p) = true)
\/ (homeDir p <> "" /\ Stat p (homeConf p) = true))) as Hnf.
{ intros [[x Hx]|[[Hd Hs]|[Hd Hs]]]; [done| |].
  - by rewrite Hs, bool_decide_eq_false_2 in E1.
  - by rewrite Hs, bool_decide_eq_false_2 in E2. }
destruct (bool_decide (configDirPath p = "")) eqn:E3; cbn [negb].
- destruct (bool_decide (homeConf p = "")) eqn:E4; cbn [negb]; [|quiet].
  destruct (configSupplied p) eqn:E5; cbn [negb]; [quiet|].
  cbn [fst snd app]. split; [intros [?|?]; done|]. split; [no_such|].
  intros m _. apply bool_decide_eq_true in E3, E4. split; [done|]. split; [done | by left].
- apply bool_decide_eq_false in E3.
  destruct (configSupplied p) eqn:E5; [quiet|].
  destruct (MkdirAll p (configDir p)) eqn:E6.
  { cbn [fst snd]. split; [intros [?|?]; done|]. split; [|no_such].
    intros d Hin. apply list_elem_of_singleton in Hin. injection Hin as ->.
    split; [done|]. split; [by apply Hcp|]. split; [done|].
    intros [|i] d' Hi; [done|]. by destruct i. }
  destruct (bool_decide (homeConf p = "")) eqn:E4; cbn [negb fst snd app].
  + split; [intros [?|?]; done|]. split.
    * intros d Hin. apply elem_of_cons in Hin as [Hin|Hin]; [|exfalso; revert d Hin; no_such].
      injection Hin as ->.
      split; [done|]. split; [by apply Hcp|]. split; [done|].
      intros [|i] d' Hi; [done|]. exfalso.
      do 5 (destruct i as [|i]; [done|]). done.
    * intros m _. apply bool_decide_eq_true in E4. split; [done|]. split; [done | by right].
  + split; [intros [?|?]; done|]. split; [|no_such].
    intros d Hin. apply list_elem_of_singleton in Hin. injection Hin as ->.
    split; [done|]. split; [by apply Hcp|]. split; [done|].
    intros [|i] d' Hi; [done|]. by destruct i.
Qed.

(** makeConfigPath keeps to the path it returned. After a file has
been written at the path makeConfigPath returned, the next call
returns that path again, whatever else exists: the place of the
configuration does not move once it has been saved. *)
Theorem makeConfigPath_keeps_to_a_written_config (p : Process) :
(makeConfigPath (written (makeConfigPath p).1 p)).1 = (makeConfigPath p).1.
Proof.
set (r := (makeConfigPath p).1).
assert (forall x, Stat (written r p) x = bool_decide (x = r) || Stat p x) as Hstat by done.
assert (forall x, Stat p x = true -> Stat (written r p) x = true) as Hmono.
{ intros x Hx. rewrite Hstat, Hx. apply orb_true_r. }
assert (forall x, Stat (written r p) x = true -> Stat p x = false -> x = r) as Hnew.
{ intros x Hx Hx'. rewrite Hstat, Hx', orb_false_r in Hx. by apply bool_decide_eq_true in Hx. }
assert (configDir (written r p) = configDir p) as Hcd by done.
assert (configDirPath (written r p) = configDirPath p) as Hcp by done.
assert (homeConf (written r p) = homeConf p) as Hhc by done.
assert (homeDir (written r p) = homeDir p) as Hhd by done.
assert (configSupplied (written r p) = configSupplied p) as Hcs by done.
assert (MkdirAll (written r p) = MkdirAll p) as Hmk by done.
assert (Executable (written r p) = Executable p) as Hex by done.
unfold makeConfigPath at 1. unfold besideExecutable, fallback.
rewrite Hcd, Hcp, Hhc, Hhd, Hcs, Hmk, Hex.
clear Hstat Hcd Hcp Hhc Hhd Hcs Hmk Hex.
generalize dependent (written r p). intros q Hmono Hnew.
subst r. unfold makeConfigPath, besideExecutable, fallback in *.
destruct (Executable p) as [exe|].
- destruct (Stat p (Join [Dir exe; configFileName])) eqn:Ee.
  { by rewrite (Hmono _ Ee). }
  destruct (Stat q (Join [Dir exe; configFileName])) eqn:Ee'.
  { cbn [fst]. by apply Hnew. }
  destruct (negb (bool_decide (configDir p = ""))) eqn:Hd; cbn [andb].
  + destruct (Stat p (configDirPath p)) eqn:Ec.
    { by rewrite (Hmono _ Ec). }
    destruct (Stat q (configDirPath p)) eqn:Ec'.
    { cbn [fst]. by apply Hnew. }
    destruct (negb (bool_decide (homeDir p = ""))) eqn:Hh; cbn [andb]; [|done].
    destruct (Stat p (homeConf p)) eqn:Eh.
    { by rewrite (Hmono _ Eh). }
    destruct (Stat q (homeConf p)) eqn:Eh'; [|done].
    cbn [fst]. by apply Hnew.
  + destruct (negb (bool_decide (homeDir p = ""))) eqn:Hh; cbn [andb]; [|done].
    destruct (Stat p (homeConf p)) eqn:Eh.
    { by rewrite (Hmono _ Eh). }
    destruct (Stat q (homeConf p)) eqn:Eh'; [|done].
    cbn [fst]. by apply Hnew.
- destruct (negb (bool_decide (configDir p = ""))) eqn:Hd; cbn [andb].
  + destruct (Stat p (configDirPath p)) eqn:Ec.
    { by rewrite (Hmono _ Ec). }
    destruct (Stat q (configDirPath p)) eqn:Ec'.
    { cbn [fst]. by apply Hnew. }
    destruct (negb (bool_decide (homeDir p = ""))) eqn:Hh; cbn [andb]; [|done].
    destruct (Stat p (homeConf p)) eqn:Eh.
    { by rewrite (Hmono _ Eh). }
    destruct (Stat q (homeConf p)) eqn:Eh'; [|done].
    cbn [fst]. by apply Hnew.
  + destruct (negb (bool_decide (homeDir p = ""))) eqn:Hh; cbn [andb]; [|done].
    destruct (Stat p (homeConf p)) eqn:Eh.
    { by rewrite (Hmono _ Eh). }
    destruct (Stat q (homeConf p)) eqn:Eh'; [|done].
    cbn [fst]. by apply Hnew.
Qed.

End WithFilepath.
End ConfigPathProps.
